(* ===== verification/_CoqProject ===== *)
-Q . S2P
Prelude.v
Num.v
Dates.v
Series.v
Frame.v
Report.v
Samples.v
GroupBy.v
Cleaner.v
Metrics.v
Aggregate.v
Charts.v
Pipeline.v
Console.v
Loader.v
Pyplot.v
