(* ===== verification/Prelude.v ===== *)
(** * Verification of the COVID-19 data tracker (src/covid_traker.py)

    The program is one pandas script.  It loads owid-covid-data.csv
    (lines 19-27), reports missing values (46-47), cleans the table
    (section 3, lines 58-74), adds a death rate (94-95), summarises the
    latest date per country (98-103), draws four charts in one figure
    (119-160), adds a vaccination percentage (166), summarises it per
    country (167) and draws a bar chart of it (170-176).  Every step reads
    and replaces the one DataFrame [df]; a pandas exception after loading
    is not caught and ends the script.

    ** Files, in dependency order

    - [Prelude] (this file): the error monad [result] of the pandas calls
      ([Ok] or [Err] with [KeyError], [TypeError], [DateParseError]) and
      its notation [x <-? c ;; k] in [pd_scope]; boolean masks
      ([filter_mask], which is [df[mask]] on one column); the hint
      databases [pd] and [pd_rw]; shared lemmas on lists and masks.
    - [Num]: a float64 cell ([Fin q], [PInf], [NInf], [NaN]) with IEEE
      division and multiplication, [isnull] and [fillna] on one cell, and
      the setoid [num_eq] with its [Proper] instances.
    - [Dates]: [pd.to_datetime] on the [date] column (line 59) for ISO
      strings: [parse_iso], [to_datetime], the [Timestamp] bounds, the
      order of dates and [max_date] ([df['date'].max()]).
    - [Series]: the element-wise column operations: [isin] (63), [notna]
      (66), [fillna] (69-72, 95), the forward fill [ffill] (73-74), Series
      division and scaling (94, 166), equality with a date (98, 167).
    - [Frame]: the DataFrame as [mkframe nrows cols], column lookup and
      assignment ([get_col], [set_col]), row masks ([mask_frame]),
      [dropna_subset] (66), [null_counts] (47, 78); the predicates
      [has_col] that track a column's dtype through the steps.
    - [Report] (module [Report]): what sections 2 and 4 print about the
      table: [head] (34), [columns] (38), [info] (42) and [describe] (91),
      the latter as pandas' count, mean, variance (ddof 1), min, maximum
      and numpy's linear percentiles over the sorted values ([qsort] is
      stdpp's [merge_sort]).
    - [Samples]: small tables of the OWID layout used by the witnesses.
    - [GroupBy] (module [GroupBy]): the group keys of
      [groupby('location')] ([group_keys]: sorted, distinct, missing keys
      dropped) and the skip-NaN [last] aggregation, as pandas computes it
      in one pass ([group_last], over a [gmap]) and as a reference
      definition ([group_last_ref]).  It also states the per-location
      forward fill that spec section 4.2 asks for ([ffill_by]), against
      which the script's ungrouped fill is compared.
    - [Cleaner] (module [Cleaner]): section 3 as [clean], one definition
      per assignment ([convert_dates], [filter_countries], [fill_zero],
      [ffill_col]).
    - [Metrics] (module [Metrics]): [add_death_rate] (94-95) and
      [add_percent_vaccinated] (166), with the row-level [death_rate_cell]
      and [percent_cell].
    - [Aggregate] (module [Aggregate]): the class [GroupLast], the
      interface a [last] aggregation promises (equality with
      [group_last_ref]); [agg_last] and the two summaries [latest_data]
      (98-103) and [latest_vaccination] (167), defined and proved in
      sections over any instance; the instance [group_last_impl] given by
      [GroupBy.group_last].
    - [Charts] (module [Charts]): the data each chart is given: the line
      per country (123-125, 141-143), the bars of a summary (134, 171), the
      values of the histogram (152).
    - [Pipeline] (module [Pipeline]): the whole script as [run] on the
      outcome of [pd.read_csv], with [script] composing the steps above in
      the order of the source and collecting what it prints and plots in
      the record [outputs].
    - [Console] (module [Console]): the same script with its side
      effects, [run_io]: a writer monad over [result] (notation
      [x <-! c ;; k] in [io_scope], with its monad laws) collects every
      [print] and [df.info()] as an [event] carrying the text or the pandas
      object, and the two [plt.savefig]/[plt.show] pairs; an exception
      keeps the events emitted before it.
    - [Loader] (module [Loader]): [pd.read_csv] on the text of the file
      (line 20) with pandas' defaults: the C tokenizer's lines (LF, CR LF,
      CR; blank lines skipped, line numbers kept) and fields, the header
      with [Unnamed: i] and the renaming loop of repeated names
      ([dedup_loop], with fuel [dedup_fuel]), the width check that raises
      [ParserError] and the padding of short lines, the NA tokens, the
      int64/float64/infinity converters and the dtype of each column;
      [load] is the [try]/[except] of lines 19-27 around it, giving the
      [read_outcome] that [Pipeline.run] and [Console.run_io] take.
    - [Pyplot] (module [Pyplot]): the pyplot global state (open figures,
      current figure, axes with grid position, artists, texts, legend,
      tick rotation, tight layout) and one [step] per matplotlib or
      seaborn call of lines 119-176, [plt.savefig] writing the current
      figure and [plt.show] a parameter [closes] of the backend;
      [plot_cmds] is the sequence of calls of sections 5 and 6 built from
      the [outputs] of a run.

    ** What the theorems show

    - Cleaning: [Cleaner.clean_cleaned] (the cleaned table only has rows
      of the three countries with a date, and no missing case or death
      count), [Cleaner.clean_spec] (which rows are kept, in order, and what
      each column becomes: a refinement of [clean] by a row-level
      description), [Cleaner.clean_ffill_grouped] (when the script's ungrouped fill is
      the per-location fill of the spec).
    - Forward fill: [Series.ffill_eq_ref] (the one-pass fill equals
      "the last present value above"), idempotence, monotonicity on
      non-decreasing data, blocks of equal values, and which cells stay
      missing (the last ones are lemmas of [Series], not claims).
    - Dates: [parse_iso] and [format_iso] are inverse; [to_datetime]
      succeeds exactly on valid in-range dates; [max_date] is an upper
      bound attained by a row.
    - Metrics: the death rate row by row ([Metrics.death_rate_ratio],
      [death_rate_no_cases], [death_rate_inf]), its bounds, the percentage
      on a zero population.
    - Group-by and summaries: [GroupBy.group_last_eq_ref] (the one pass
      equals the reference), [GroupBy.group_keys_spec] (sorted, distinct,
      exactly the present keys), [Aggregate.latest_agg_spec] (a summary
      has one row per location present on the largest date, with the last
      present value of each column among that location's rows there).
    - Loading: [Loader.read_render_csv] (reading the CSV text of a table
      of integral counts and plain strings gives the table back),
      [read_csv_types] (every table read is well formed, with distinct
      names and float64 or string columns), [dedup_loop_terminates] (the
      renaming loop ends by its own test within the fuel),
      [read_csv_errors] (exactly when [EmptyDataError] and [ParserError]
      are raised, and with which line and counts),
      [run_io_tokenizing_error] (what the script then prints), and
      [read_csv_crlf] (Windows and Unix line ends read alike).
    - Charts and figures: [Charts.country_lines_spec], [Charts.bars_spec]
      (the data of each chart); [Pyplot.plot_images_spec] (the two files
      written are the images spec section 4.6 describes, for either
      behaviour of [plt.show]), [Pyplot.plot_panel_texts] (titles, labels,
      legends), [Pyplot.reachable_wf] (the invariant of the pyplot state,
      by induction on the calls), [Pyplot.run_io_images] (a completed run
      writes those images in the order of its console trace).
    - The whole run: [Pipeline.run_completes] (on a table with the
      columns and dtypes the script uses and valid dates, the script runs
      to its end), [run_missing_key_column] and [run_bad_date] (the
      exceptions it raises otherwise), [run_clean_nulls] (what the
      missing-value report of line 78 prints), [run_statistics] (what
      [describe()] prints after cleaning), and two end-to-end runs on
      [Samples.owid].
    - Report: [Report.describe_ordered] (min <= 25% <= 50% <= 75% <= max),
      [describe_mean_bounds], [describe_var], [describe_count], [head_spec],
      and [lerp_eq] (numpy's two-branch interpolation is [a + (b - a) t]).
    - Output: [Console.run_io_outcome] (forgetting the events, [run_io] is
      [Pipeline.run]: the I/O model refines the pure one),
      [run_io_completed] (the order of the printed tables and of the two
      images), [run_io_crash_files] (a crash never writes the second image
      nor prints the completion line), [run_io_clean_error] (where the
      output stops when section 3 raises), [run_io_missing_population].

    ** Findings

    - The forward fill of lines 73-74 is not grouped by location: a
      country without vaccination figures inherits the previous country's
      last figure ([Cleaner.clean_ffill_leaks]); end to end this makes
      Kenya's [percent_vaccinated] exceed 100
      ([Pipeline.run_owid_percent_above_100]), and a location whose own
      figures never decrease can get a decreasing cleaned series, against
      spec section 8 ([Cleaner.clean_location_decreasing]).
    - [fillna(0)] on line 95 replaces NaN only: deaths with zero cases give
      an infinite death rate ([Metrics.death_rate_inf]).
    - Line 166 gives [inf] on a zero [population]
      ([Metrics.percent_zero_population]).
    - One malformed date anywhere in the raw table (also in a row that the
      country filter would drop) makes line 59 raise and ends the script
      ([Pipeline.run_bad_date]).
    - A table without [population] gets through sections 1 to 5: the first
      image is written, then line 166 raises, so the run ends with one new
      image and a crash ([Console.run_io_missing_population]).
    - The spec's overview counts six charts; the code draws five, four in
      the first image and one in the second, as spec section 4.6 lists
      ([Pyplot.plot_images_spec]).

    ** Modelling choices and bounds

    - Finite float64 values are exact rationals: the script only divides
      and scales, and no theorem depends on rounding; the special values
      (inf, -inf, NaN) are modelled exactly.
    - The index is positional: [df[mask]] keeps rows in order and every
      assignment is aligned with the same rows, as in the script, where
      every Series assigned to [df] is computed from [df].
    - Dates are parsed in the ISO form the OWID file uses; other formats
      [pd.to_datetime] would infer are not modelled.
    - [describe()] is modelled on columns without infinities (a column
      with one is [None]: numpy's interpolation of infinities is outside
      the model), and keeps the variance: the printed [std] is its square
      root, which is not rational in general.
    - Two definitions use fuel, both of [Loader]: [dedup_loop], the
      [while] loop renaming a repeated header name, runs with
      [dedup_fuel] = 1 + the longest counted name, enough because each turn
      lengthens the name and only counted names continue the loop
      ([Loader.dedup_loop_terminates]: the loop stops by its test and more
      fuel changes nothing); [digits_of], the decimal digits of a count,
      runs with one more than the number of binary digits, enough because
      a number has no more decimal than binary digits.  All other
      recursion is structural, so every operation is total and the
      theorems about results that exist are proved as such (e.g.
      [Pipeline.run_completes]).
    - [pd.read_csv] is modelled on files without the double quote
      character (the tokenizer's quoted states are not modelled), without
      boolean columns, and with exact values; the index columns of a first
      data line longer than the header are dropped (the frame has no
      index).
    - [plt.show] closes the figures with a blocking window backend and
      leaves them open with the non-interactive one; the theorems of
      [Pyplot] hold for both.
    - [SettingWithCopyWarning] on the assignments after line 63 and the
      [FutureWarning] of [fillna(method='ffill')] are warnings, printed and
      ignored; they are not modelled.

    ** Not modelled

    Quoting, the boolean dtype and float64 rounding in [pd.read_csv] (see
    above); the text layout pandas gives the printed objects (the events
    carry the objects, not their rendering) and the memory line of
    [df.info()]; the pixels of the images, tick placement and the seaborn
    palette (every call that builds a figure is modelled in [Pyplot]); the
    kernel density estimate of the histogram; [sns.set(style="whitegrid")]
    (line 13: a global style, which changes only pixels) and the
    [numpy]/[datetime] imports, which compute nothing the script uses;
    formats of [pd.to_datetime] other than the ISO form of the OWID file.

    ** Plan

    Later work: the converse of [Cleaner.clean_ffill_grouped] (a missing
    figure at the start of a location's rows below a present figure of
    another location makes the two fills differ unless the figures
    coincide); [describe()] on columns holding infinities, once numpy's
    interpolation of infinite values is pinned down. *)

From Stdlib Require Import List QArith String ZArith Lia.
From stdpp Require Import base list.
Import ListNotations.

(** ** Errors raised by the pandas calls of the script *)

(** The exceptions the modelled pandas calls can raise on a loaded table:
    a missing column ([df['x']] on an absent column), an operation applied
    to a column of the wrong dtype, and an unparsable date string in
    [pd.to_datetime]. *)
Inductive pd_error : Type :=
  | KeyError (col : string)
  | TypeError (col : string)
  | DateParseError (s : string).

(** A pandas call either returns a value or raises. *)
Inductive result (A : Type) : Type :=
  | Ok (a : A)
  | Err (e : pd_error).
Arguments Ok {A} a.
Arguments Err {A} e.

Declare Scope pd_scope.
Delimit Scope pd_scope with pd.
Open Scope pd_scope.

Definition res_bind {A B} (c : result A) (k : A -> result B) : result B :=
  match c with Ok a => k a | Err e => Err e end.

Notation "x <-? c ;; k" := (res_bind c (fun x => k))
  (at level 100, c at next level, right associativity) : pd_scope.

Definition res_map {A B} (f : A -> B) (c : result A) : result B :=
  match c with Ok a => Ok (f a) | Err e => Err e end.

(** [s[mask]]: keep the entries whose mask bit is [true]; mask and series
    come from the same table, so they are aligned position by position. *)
Fixpoint filter_mask {A} (m : list bool) (l : list A) : list A :=
  match m, l with
  | b :: m', x :: l' => if b then x :: filter_mask m' l' else filter_mask m' l'
  | _, _ => []
  end.

(** The last element satisfying [p], if any (the skip-null "last"). *)
Fixpoint last_where {A} (p : A -> bool) (l : list A) : option A :=
  match l with
  | [] => None
  | x :: l' =>
      match last_where p l' with
      | Some y => Some y
      | None => if p x then Some x else None
      end
  end.

(** Number of [true] entries of a mask. *)
Definition count_true (m : list bool) : nat := length (List.filter id m).

(** A pandas call over each element of a list, stopping at the first error. *)
Fixpoint res_mapM {A B} (f : A -> result B) (l : list A) : result (list B) :=
  match l with
  | [] => Ok []
  | x :: l' => y <-? f x ;; ys <-? res_mapM f l' ;; Ok (y :: ys)
  end.

Lemma res_bind_Ok {A B} (c : result A) (k : A -> result B) b :
  res_bind c k = Ok b <-> exists a, c = Ok a /\ k a = Ok b.
Proof. destruct c; simpl; split; intros; naive_solver. Qed.

Lemma res_map_Ok {A B} (f : A -> B) c b :
  res_map f c = Ok b <-> exists a, c = Ok a /\ b = f a.
Proof. destruct c; simpl; split; intros; naive_solver. Qed.

(** ** Boolean indexing *)

Create HintDb pd.
Create Rewrite HintDb pd_rw.

Lemma filter_mask_map {A B} (f : A -> B) m (l : list A) :
  filter_mask m (map f l) = map f (filter_mask m l).
Proof.
  revert l; induction m as [|[] m IH]; intros [|x l]; simpl; rewrite ?IH; done.
Qed.

Lemma filter_mask_self {A} (p : A -> bool) (l : list A) :
  filter_mask (map p l) l = List.filter p l.
Proof. induction l as [|x l IH]; simpl; [done|]. destruct (p x); rewrite IH; done. Qed.

Lemma filter_mask_in {A} m (l : list A) x : In x (filter_mask m l) -> In x l.
Proof.
  revert l; induction m as [|[] m IH]; intros [|y l]; simpl; try done.
  - intros [->|H]; eauto.
  - eauto.
Qed.

Lemma length_filter_mask {A} m (l : list A) :
  length m = length l -> length (filter_mask m l) = count_true m.
Proof.
  unfold count_true. revert l; induction m as [|[] m IH]; intros [|x l] H;
    simpl in *; try lia; rewrite ?IH; lia.
Qed.

Lemma Forall_filter_mask {A} (P : A -> Prop) m l :
  Forall P l -> Forall P (filter_mask m l).
Proof.
  rewrite !List.Forall_forall. intros H x Hx. apply H. by eapply filter_mask_in.
Qed.

Lemma filter_mask_app {A} m1 m2 (l1 l2 : list A) :
  length m1 = length l1 ->
  filter_mask (m1 ++ m2) (l1 ++ l2) = filter_mask m1 l1 ++ filter_mask m2 l2.
Proof.
  revert l1; induction m1 as [|b m1 IH]; intros [|x l1] H; simpl in *; try lia; [done|].
  rewrite IH by lia. by destruct b.
Qed.

Lemma last_where_app {A} (p : A -> bool) l1 l2 :
  last_where p (l1 ++ l2) =
  match last_where p l2 with Some y => Some y | None => last_where p l1 end.
Proof.
  induction l1 as [|x l1 IH]; simpl; [by destruct (last_where p l2)|].
  rewrite IH. by destruct (last_where p l2).
Qed.

Lemma last_where_snoc {A} (p : A -> bool) l x :
  last_where p (l ++ [x]) = if p x then Some x else last_where p l.
Proof. rewrite last_where_app. simpl. by destruct (p x). Qed.

Lemma last_where_Some {A} (p : A -> bool) l y :
  last_where p l = Some y -> In y l /\ p y = true.
Proof.
  induction l as [|x l IH]; simpl; [done|].
  destruct (last_where p l) eqn:E.
  - intros [= ->]. destruct (IH eq_refl). auto.
  - destruct (p x) eqn:Hp; intros; simplify_eq; auto.
Qed.

Lemma last_where_None {A} (p : A -> bool) l :
  last_where p l = None <-> Forall (fun x => p x = false) l.
Proof.
  induction l as [|x l IH]; simpl; [split; auto|].
  rewrite Forall_cons. destruct (last_where p l); [naive_solver|].
  destruct (p x); naive_solver.
Qed.

#[export] Hint Resolve Forall_filter_mask : pd.
#[export] Hint Rewrite @filter_mask_map @filter_mask_self @last_where_snoc : pd_rw.

(** Case analysis on the results of the pandas calls of a goal. *)
Ltac res_inv :=
  repeat match goal with
  | H : res_bind _ _ = Ok _ |- _ =>
      apply res_bind_Ok in H as (? & ? & ?)
  | H : res_map _ _ = Ok _ |- _ =>
      apply res_map_Ok in H as (? & ? & ?)
  | H : Ok _ = Ok _ |- _ => injection H as H
  | H : Err _ = Ok _ |- _ => discriminate H
  end; subst.

(** Rows kept by a mask satisfy what the mask tests. *)
Lemma filter_mask_Forall2 {A} (P : A -> Prop) m l :
  Forall2 (fun b x => b = true -> P x) m l -> Forall P (filter_mask m l).
Proof. induction 1 as [|[] x m l Hx _ IH]; simpl; auto. Qed.

Lemma Forall2_zip_with_andb_l m1 m2 (l : list bool) :
  length m1 = length m2 ->
  Forall2 (fun b x => b = true -> x = true) m1 l ->
  Forall2 (fun b x => b = true -> x = true) (zip_with andb m1 m2) l.
Proof.
  intros Hlen H. revert m2 Hlen.
  induction H as [|b x m1 l Hb _ IH]; intros [|b' m2] Hlen; simpl in *; try lia; constructor.
  - intros [? _]%andb_prop. auto.
  - apply IH. lia.
Qed.

Lemma Forall2_zip_with_andb_r m1 m2 (l : list bool) :
  length m1 = length m2 ->
  Forall2 (fun b x => b = true -> x = true) m2 l ->
  Forall2 (fun b x => b = true -> x = true) (zip_with andb m1 m2) l.
Proof.
  intros Hlen H. revert m1 Hlen.
  induction H as [|b x m2 l Hb _ IH]; intros [|b' m1] Hlen; simpl in *; try lia; constructor.
  - intros [_ ?]%andb_prop. auto.
  - apply IH. lia.
Qed.

Lemma Forall2_impl_refl (l : list bool) : Forall2 (fun b x => b = true -> x = true) l l.
Proof. induction l; constructor; auto. Qed.

Lemma Forall2_impl_in {A B} (P Q : A -> B -> Prop) l1 l2 :
  (forall x y, In x l1 -> P x y -> Q x y) -> Forall2 P l1 l2 -> Forall2 Q l1 l2.
Proof.
  intros HPQ H. induction H as [|x y l1 l2 Hxy _ IH]; constructor.
  - apply HPQ; [by left|done].
  - apply IH. intros x' y' Hx'. apply HPQ. by right.
Qed.

Lemma Forall2_in_r {A B} (R : A -> B -> Prop) l1 l2 y :
  Forall2 R l1 l2 -> In y l2 -> exists x, In x l1 /\ R x y.
Proof.
  induction 1 as [|x y' l1 l2 Hxy _ IH]; simpl; [done|].
  intros [->|Hin]; [eauto|]. destruct (IH Hin) as (x' & ? & ?). eauto.
Qed.

Lemma res_mapM_Ok {A B} (f : A -> result B) l ys :
  res_mapM f l = Ok ys <-> Forall2 (fun x y => f x = Ok y) l ys.
Proof.
  revert ys; induction l as [|x l IH]; intros ys; simpl.
  - split; [intros [= <-]; constructor | intros H; inversion H; reflexivity].
  - split.
    + intros H. res_inv. constructor; [done | by apply IH].
    + intros H. inversion H as [|? y ? ys' Hy Hrest]; subst.
      rewrite Hy. simpl. by rewrite (proj2 (IH ys') Hrest).
Qed.

Lemma filter_mask_in_zip {A} m (l : list A) y :
  In y (filter_mask m l) <-> In (true, y) (zip m l).
Proof.
  revert l; induction m as [|b m IH]; intros [|x l]; simpl; try tauto.
  destruct b; simpl; rewrite IH; intuition congruence.
Qed.

(** Selecting twice is selecting once with the conjunction of the tests. *)
Lemma filter_mask_twice {A B} (p : A -> bool) m (l1 : list A) (l2 : list B) :
  length m = length l1 -> length m = length l2 ->
  filter_mask (map p (filter_mask m l1)) (filter_mask m l2) =
  filter_mask (zip_with andb m (map p l1)) l2.
Proof.
  revert l1 l2; induction m as [|b m IH]; intros [|x l1] [|y l2] H1 H2; simpl in *; try lia; [done|].
  destruct b; simpl; [destruct (p x)|]; rewrite ?IH by lia; done.
Qed.

Lemma in_zip_map_l {A B C} (f : A -> C) (l1 : list A) (l2 : list B) c y :
  In (c, y) (zip (map f l1) l2) <-> exists x, f x = c /\ In (x, y) (zip l1 l2).
Proof.
  revert l2; induction l1 as [|x l1 IH]; intros [|y' l2]; simpl; try (split; [done|naive_solver]).
  rewrite IH. split.
  - intros [[= <- <-]|(x' & <- & Hin)]; eauto.
  - intros (x' & <- & [[= -> ->]|Hin]); eauto.
Qed.

Lemma res_mapM_total {A B} (f : A -> result B) l :
  Forall (fun x => exists y, f x = Ok y) l -> exists ys, res_mapM f l = Ok ys.
Proof.
  induction 1 as [|x l [y Hy] _ [ys IH]]; simpl; [by eexists|].
  rewrite Hy. simpl. rewrite IH. by eexists.
Qed.

(** ** Composing masks *)

Lemma filter_mask_filter_mask {A} m (c : list bool) (x : list A) :
  length m = length c -> length m = length x ->
  filter_mask (filter_mask m c) (filter_mask m x) = filter_mask (zip_with andb m c) x.
Proof.
  revert c x; induction m as [|b m IH]; intros [|bc c] [|y x] H1 H2; simpl in *; try lia; [done|].
  destruct b; simpl; [destruct bc|]; rewrite ?IH by lia; done.
Qed.

Lemma zip_with_andb_filter_mask m (a b : list bool) :
  length m = length a -> length m = length b ->
  zip_with andb (filter_mask m a) (filter_mask m b) = filter_mask m (zip_with andb a b).
Proof.
  revert a b; induction m as [|t m IH]; intros [|x a] [|y b] H1 H2; simpl in *; try lia; [done|].
  destruct t; simpl; rewrite IH by lia; done.
Qed.

Lemma repeat_true_filter_mask m :
  repeat true (count_true m) = filter_mask m (repeat true (length m)).
Proof. unfold count_true. induction m as [|[] m IH]; simpl; rewrite ?IH; done. Qed.

Lemma zip_with_andb_repeat_true (l : list bool) n :
  length l = n -> zip_with andb l (repeat true n) = l.
Proof.
  intros <-. induction l as [|b l IH]; simpl; [done|]. rewrite IH. by destruct b.
Qed.

Lemma length_count_true_le m : count_true m <= length m.
Proof. unfold count_true. induction m as [|[] m IH]; simpl; lia. Qed.

Lemma count_true_filter_mask m1 m2 :
  length m1 = length m2 -> count_true (filter_mask m1 m2) = count_true (zip_with andb m1 m2).
Proof.
  unfold count_true. revert m2; induction m1 as [|b m1 IH]; intros [|b' m2] H; simpl in *; try lia.
  destruct b, b'; simpl; rewrite ?IH by lia; done.
Qed.
