(* ===== verification/Num.v ===== *)
(** * Num: the float64 values of the numeric columns

    A cell of a numeric pandas column is a float64: a finite value, one of
    the two infinities, or NaN (pandas' "missing").  Finite values are
    exact rationals [Q]: the script only divides and scales cumulative
    counts, and the model does not round (see the root header). Division
    and multiplication follow IEEE 754 on the special values, which is what
    numpy does element-wise for [Series / Series] and [Series * 100]. *)

From Stdlib Require Import QArith Qreduction Lqa Morphisms Setoid.
From stdpp Require Import base tactics.
From S2P Require Import Prelude.

Local Open Scope Q_scope.

Inductive num : Type :=
  | Fin (q : Q)
  | PInf
  | NInf
  | NaN.

(** [Series.isnull]: only NaN counts as missing (infinities do not). *)
Definition isnull (x : num) : bool :=
  match x with NaN => true | _ => false end.

(** [Series.fillna(v)], on one cell. *)
Definition fill_value (v x : num) : num := if isnull x then v else x.

(** An infinity of the sign of [q] (positive when [pos]), or NaN for 0:
    the IEEE result of [inf * q] and of [q / 0]. *)
Definition signed_inf (pos : bool) (q : Q) : num :=
  match Qcompare q 0 with
  | Gt => if pos then PInf else NInf
  | Lt => if pos then NInf else PInf
  | Eq => NaN
  end.

(** IEEE division [x / y] (numpy's [true_divide]); zeros are unsigned. *)
Definition num_div (x y : num) : num :=
  match x, y with
  | NaN, _ | _, NaN => NaN
  | Fin a, Fin b =>
      match Qcompare b 0 with
      | Eq => signed_inf true a
      | _ => Fin (a / b)
      end
  | Fin _, PInf | Fin _, NInf => Fin 0
  | PInf, Fin b => match Qcompare b 0 with Lt => NInf | _ => PInf end
  | NInf, Fin b => match Qcompare b 0 with Lt => PInf | _ => NInf end
  | _, _ => NaN
  end.

(** IEEE multiplication [x * y]. *)
Definition num_mul (x y : num) : num :=
  match x, y with
  | NaN, _ | _, NaN => NaN
  | Fin a, Fin b => Fin (a * b)
  | PInf, Fin b | Fin b, PInf => signed_inf true b
  | NInf, Fin b | Fin b, NInf => signed_inf false b
  | PInf, PInf | NInf, NInf => PInf
  | _, _ => NInf
  end.

(** Equality of float values: finite values compare as rationals. *)
Definition num_eq (x y : num) : Prop :=
  match x, y with
  | Fin a, Fin b => a == b
  | _, _ => x = y
  end.

(** A finite value in the closed interval [[lo, hi]]. *)
Definition num_between (lo hi : Q) (x : num) : Prop :=
  match x with Fin q => lo <= q <= hi | _ => False end.

Infix "≡n" := num_eq (at level 70) : pd_scope.

#[export] Instance num_eq_equiv : Equivalence num_eq.
Proof.
  split.
  - intros []; simpl; reflexivity.
  - intros [] []; simpl; intros; try done; symmetry; done.
  - intros [] [] []; simpl; intros; simplify_eq; try done; etransitivity; eauto.
Qed.

Lemma Qcompare_morph a b : a == b -> Qcompare a 0 = Qcompare b 0.
Proof. intros H. by rewrite H. Qed.

#[export] Instance signed_inf_proper pos : Proper (Qeq ==> eq) (signed_inf pos).
Proof. intros a b H. unfold signed_inf. by rewrite (Qcompare_morph a b H). Qed.

#[export] Instance isnull_proper : Proper (num_eq ==> eq) isnull.
Proof. intros [] []; simpl; intros; simplify_eq; done. Qed.

#[export] Instance fill_value_proper : Proper (num_eq ==> num_eq ==> num_eq) fill_value.
Proof.
  intros v v' Hv x x' Hx. unfold fill_value.
  rewrite (isnull_proper x x' Hx). by destruct (isnull x').
Qed.

(** Case analysis on the sign tests of [num_div] and [num_mul], once the
    arguments have been replaced by equal rationals. *)
Ltac num_cases Ha Hb :=
  unfold signed_inf;
  try rewrite (Qcompare_morph _ _ Hb); try rewrite (Qcompare_morph _ _ Ha);
  repeat case_match; simpl; try done;
  try (rewrite Ha, Hb; reflexivity); try (rewrite Ha; reflexivity);
  try (rewrite Hb; reflexivity).

#[export] Instance num_div_proper : Proper (num_eq ==> num_eq ==> num_eq) num_div.
Proof.
  intros [a| | |] [a'| | |] Ha [b| | |] [b'| | |] Hb; simpl in *; simplify_eq;
    try done; num_cases Ha Hb.
Qed.

#[export] Instance num_mul_proper : Proper (num_eq ==> num_eq ==> num_eq) num_mul.
Proof.
  intros [a| | |] [a'| | |] Ha [b| | |] [b'| | |] Hb; simpl in *; simplify_eq;
    try done; num_cases Ha Hb.
Qed.

Lemma Qcompare_Eq q : Qcompare q 0 = Eq <-> q == 0.
Proof. symmetry. apply Qeq_alt. Qed.

Lemma num_div_fin a b : ~ b == 0 -> num_div (Fin a) (Fin b) = Fin (a / b).
Proof.
  intros Hb. simpl. destruct (Qcompare b 0) eqn:E; try done.
  by apply Qcompare_Eq in E.
Qed.

Lemma num_div_by_zero a b :
  b == 0 -> num_div (Fin a) (Fin b) = signed_inf true a.
Proof. intros Hb. simpl. by rewrite (proj2 (Qcompare_Eq b) Hb). Qed.

Lemma signed_inf_zero pos q : q == 0 -> signed_inf pos q = NaN.
Proof. intros H. unfold signed_inf. by rewrite (proj2 (Qcompare_Eq q) H). Qed.

Lemma signed_inf_pos q : 0 < q -> signed_inf true q = PInf.
Proof. intros H. unfold signed_inf. by rewrite (proj1 (Qgt_alt q 0) H). Qed.

Lemma isnull_fill_value v x : isnull v = false -> isnull (fill_value v x) = false.
Proof. unfold fill_value. by destruct (isnull x) eqn:E. Qed.

Lemma fill_value_notnull v x : isnull x = false -> fill_value v x = x.
Proof. unfold fill_value. by intros ->. Qed.

#[export] Hint Resolve isnull_fill_value : pd.
#[export] Hint Rewrite num_div_fin using assumption : pd_rw.
