(* ===== verification/Dates.v ===== *)
(** * Dates: [pd.to_datetime] on the [date] column (line 59)

    The OWID file writes dates as ["YYYY-MM-DD"].  [pd.to_datetime] infers
    that format from the column and parses every non-missing string with
    it: a string that does not match, a day that does not exist in its
    month, or a date outside the range of a nanosecond [Timestamp]
    (1677-09-22 .. 2262-04-11 for whole days) raises; a missing cell
    becomes [NaT].  Only this ISO form is modelled (see the root header). *)

From Stdlib Require Import ZArith String Ascii List Lia.
From stdpp Require Import base tactics list.
From S2P Require Import Prelude.
Import ListNotations.

Local Open Scope Z_scope.

Record date : Type := mkdate { year : Z; month : Z; day : Z }.

#[export] Instance date_eq_dec : EqDecision date.
Proof. solve_decision. Defined.

(** Gregorian leap years. *)
Definition leap (y : Z) : bool :=
  (Z.eqb (y mod 4) 0 && negb (Z.eqb (y mod 100) 0)) || Z.eqb (y mod 400) 0.

Definition days_in_month (y m : Z) : Z :=
  match m with
  | 2 => if leap y then 29 else 28
  | 4 | 6 | 9 | 11 => 30
  | _ => 31
  end.

(** Chronological comparison of calendar dates. *)
Definition date_compare (a b : date) : comparison :=
  match Z.compare (year a) (year b) with
  | Eq => match Z.compare (month a) (month b) with
          | Eq => Z.compare (day a) (day b)
          | c => c
          end
  | c => c
  end.

Definition date_leb (a b : date) : bool :=
  match date_compare a b with Gt => false | _ => true end.

(** A day that exists in the calendar. *)
Definition valid_date (d : date) : bool :=
  (1 <=? month d) && (month d <=? 12) &&
  (1 <=? day d) && (day d <=? days_in_month (year d) (month d)).

(** Whole days representable as a [pd.Timestamp] (nanoseconds since the
    epoch in a signed 64-bit integer). *)
Definition ts_min : date := mkdate 1677 9 22.
Definition ts_max : date := mkdate 2262 4 11.

Definition in_ts_range (d : date) : bool := date_leb ts_min d && date_leb d ts_max.

(** ** Parsing and printing "YYYY-MM-DD" *)

Definition digit (c : ascii) : option Z :=
  let n := Z.of_N (N_of_ascii c) in
  if (48 <=? n) && (n <=? 57) then Some (n - 48) else None.

Definition digit_char (k : Z) : ascii := ascii_of_N (Z.to_N (48 + k)).

(** The value of a string of decimal digits, read left to right. *)
Fixpoint read_digits (acc : Z) (l : list ascii) : option Z :=
  match l with
  | [] => Some acc
  | c :: l' => match digit c with
               | Some k => read_digits (10 * acc + k) l'
               | None => None
               end
  end.

(** [n] written with exactly [w] digits, zero padded. *)
Fixpoint show_digits (w : nat) (n : Z) : list ascii :=
  match w with
  | O => []
  | S w' => show_digits w' (n / 10) ++ [digit_char (n mod 10)]
  end.

Definition dash : ascii := "-"%char.

Definition parse_iso (s : string) : option date :=
  match list_ascii_of_string s with
  | [y1; y2; y3; y4; h1; m1; m2; h2; d1; d2] =>
      if Ascii.eqb h1 dash && Ascii.eqb h2 dash then
        match read_digits 0 [y1; y2; y3; y4], read_digits 0 [m1; m2],
              read_digits 0 [d1; d2] with
        | Some y, Some m, Some d => Some (mkdate y m d)
        | _, _, _ => None
        end
      else None
  | _ => None
  end.

Definition format_iso (d : date) : string :=
  string_of_list_ascii
    (show_digits 4 (year d) ++ [dash] ++ show_digits 2 (month d) ++ [dash] ++
     show_digits 2 (day d)).

(** [pd.to_datetime] on one cell: [None] is a missing cell / [NaT]. *)
Definition to_datetime_cell (c : option string) : result (option date) :=
  match c with
  | None => Ok None
  | Some s =>
      match parse_iso s with
      | Some d => if valid_date d && in_ts_range d then Ok (Some d)
                  else Err (DateParseError s)
      | None => Err (DateParseError s)
      end
  end.

(** [pd.to_datetime] on the column: the first bad cell raises. *)
Fixpoint to_datetime (col : list (option string)) : result (list (option date)) :=
  match col with
  | [] => Ok []
  | c :: col' =>
      d <-? to_datetime_cell c ;;
      ds <-? to_datetime col' ;;
      Ok (d :: ds)
  end.

(** [Series.max()] on a datetime column: NaT is skipped, an all-NaT or
    empty column gives NaT. *)
Fixpoint max_date (col : list (option date)) : option date :=
  match col with
  | [] => None
  | None :: col' => max_date col'
  | Some d :: col' =>
      match max_date col' with
      | Some m => Some (if date_leb m d then d else m)
      | None => Some d
      end
  end.

(** ** Order of dates *)

(** A datetime cell: [NaT], or a real day inside the Timestamp range. *)
Definition good_cell (od : option date) : bool :=
  match od with Some d => valid_date d && in_ts_range d | None => true end.

Lemma date_compare_eq a b : date_compare a b = Eq <-> a = b.
Proof.
  destruct a as [y m d], b as [y' m' d']; unfold date_compare; simpl.
  split; [|intros [= -> -> ->]; by rewrite !Z.compare_refl].
  destruct (Z.compare_spec y y'), (Z.compare_spec m m'), (Z.compare_spec d d');
    intros; subst; done.
Qed.

(** [date_leb] as lexicographic order on the triple, for [lia]. *)
Lemma date_leb_spec a b :
  date_leb a b = true <->
  (year a < year b \/ year a = year b /\
     (month a < month b \/ month a = month b /\ day a <= day b)).
Proof.
  unfold date_leb, date_compare.
  destruct (Z.compare_spec (year a) (year b)),
           (Z.compare_spec (month a) (month b)),
           (Z.compare_spec (day a) (day b)); split; intros;
    try reflexivity; try discriminate; lia.
Qed.

Lemma date_leb_refl a : date_leb a a = true.
Proof. apply date_leb_spec. lia. Qed.

Lemma date_leb_trans a b c :
  date_leb a b = true -> date_leb b c = true -> date_leb a c = true.
Proof. rewrite !date_leb_spec. lia. Qed.

Lemma date_leb_total a b : date_leb a b = false -> date_leb b a = true.
Proof.
  intros H%not_true_iff_false. rewrite date_leb_spec in H. apply date_leb_spec. lia.
Qed.

Lemma date_leb_antisym a b : date_leb a b = true -> date_leb b a = true -> a = b.
Proof.
  destruct a, b. rewrite !date_leb_spec. simpl. intros. f_equal; lia.
Qed.

#[export] Hint Resolve date_leb_refl date_leb_trans date_leb_total : pd.

(** ** Digits *)

Lemma digit_digit_char k : 0 <= k < 10 -> digit (digit_char k) = Some k.
Proof.
  intros Hk. assert (k = 0 \/ k = 1 \/ k = 2 \/ k = 3 \/ k = 4 \/ k = 5 \/
                     k = 6 \/ k = 7 \/ k = 8 \/ k = 9) as Hc by lia.
  repeat destruct Hc as [->|Hc]; try reflexivity; subst; reflexivity.
Qed.

Lemma digit_char_digit c k : digit c = Some k -> digit_char k = c /\ 0 <= k < 10.
Proof.
  unfold digit, digit_char. set (n := Z.of_N (N_of_ascii c)).
  destruct ((48 <=? n) && (n <=? 57)) eqn:E; [|done]. intros [= <-].
  apply andb_true_iff in E as [E1 E2]. apply Z.leb_le in E1, E2.
  split; [|lia]. replace (48 + (n - 48)) with n by lia.
  subst n. by rewrite N2Z.id, ascii_N_embedding.
Qed.

Lemma read_digits_app acc l1 l2 :
  read_digits acc (l1 ++ l2) =
  match read_digits acc l1 with Some a => read_digits a l2 | None => None end.
Proof.
  revert acc; induction l1 as [|c l1 IH]; intros acc; simpl; [done|].
  destruct (digit c); [apply IH | done].
Qed.

Lemma read_show_digits w n :
  0 <= n < 10 ^ Z.of_nat w -> read_digits 0 (show_digits w n) = Some n.
Proof.
  revert n; induction w as [|w IH]; intros n Hn; simpl.
  - f_equal. simpl in Hn. lia.
  - rewrite Nat2Z.inj_succ, Z.pow_succ_r in Hn by lia.
    rewrite read_digits_app, IH by (split; [apply Z.div_pos|apply Z.div_lt_upper_bound]; lia).
    simpl. rewrite digit_digit_char by (apply Z.mod_pos_bound; lia).
    f_equal. pose proof (Z.div_mod n 10). lia.
Qed.

Lemma show_read_digits l n :
  read_digits 0 l = Some n -> show_digits (length l) n = l.
Proof.
  revert n; induction l as [|c l IH] using rev_ind; intros n; [done|].
  rewrite read_digits_app, length_app, Nat.add_1_r. simpl.
  destruct (read_digits 0 l) as [a|] eqn:Ea; [|done]. simpl.
  destruct (digit c) as [k|] eqn:Ek; [|done]. intros [= <-].
  apply digit_char_digit in Ek as [<- Hk].
  replace ((10 * a + k) / 10) with a by (apply Z.div_unique with k; lia).
  replace ((10 * a + k) mod 10) with k by (apply Z.mod_unique with a; lia).
  by rewrite IH.
Qed.

Lemma length_show_digits w n : length (show_digits w n) = w.
Proof.
  revert n; induction w as [|w IH]; intros n; simpl; [done|].
  rewrite length_app, IH. simpl. lia.
Qed.

(** Every list of digits of the right length can be named cell by cell. *)
Ltac destruct_digits l :=
  let H := fresh in
  pose proof (length_show_digits _ _ : length l = _) as H;
  destruct l as [|? [|? [|? [|? [|]]]]]; simpl in H; try discriminate H; clear H.

(** Printing a date and parsing the text back gives the date. *)
Lemma read_format_iso d :
  0 <= year d < 10000 -> 0 <= month d < 100 -> 0 <= day d < 100 ->
  parse_iso (format_iso d) = Some d.
Proof.
  intros Hy Hm Hd. unfold parse_iso, format_iso.
  rewrite list_ascii_of_string_of_list_ascii.
  pose proof (read_show_digits 4 (year d) Hy) as Ry.
  pose proof (read_show_digits 2 (month d) Hm) as Rm.
  pose proof (read_show_digits 2 (day d) Hd) as Rd.
  destruct_digits (show_digits 4 (year d)).
  destruct_digits (show_digits 2 (month d)).
  destruct_digits (show_digits 2 (day d)).
  simpl app. cbn match. rewrite Ry, Rm, Rd. by destruct d.
Qed.

(** Printing a date and parsing the text back gives the date. *)
Theorem parse_format_iso : forall d,
  0 <= year d < 10000 -> 0 <= month d < 100 -> 0 <= day d < 100 ->
  parse_iso (format_iso d) = Some d.
Proof. exact read_format_iso. Qed.

(** A string that parses is the canonical text of its date. *)
Lemma format_parse_iso s d : parse_iso s = Some d -> format_iso d = s.
Proof.
  unfold parse_iso, format_iso.
  destruct (list_ascii_of_string s)
    as [|y1 [|y2 [|y3 [|y4 [|h1 [|m1 [|m2 [|h2 [|d1 [|d2 [|]]]]]]]]]]] eqn:E;
    try discriminate.
  destruct (Ascii.eqb_spec h1 dash), (Ascii.eqb_spec h2 dash); try discriminate.
  subst h1 h2. simpl andb. cbn iota.
  destruct (read_digits 0 [y1; y2; y3; y4]) as [y|] eqn:Ey; [|discriminate].
  destruct (read_digits 0 [m1; m2]) as [m|] eqn:Em; [|discriminate].
  destruct (read_digits 0 [d1; d2]) as [dd|] eqn:Ed; [|discriminate].
  intros [= <-].
  apply show_read_digits in Ey, Em, Ed. cbn [length] in Ey, Em, Ed.
  cbn [year month day]. rewrite Ey, Em, Ed. cbn [app]. rewrite <- E. apply string_of_list_ascii_of_string.
Qed.

(** ** The converted column *)

Lemma to_datetime_Ok col ds :
  to_datetime col = Ok ds <-> Forall2 (fun c d => to_datetime_cell c = Ok d) col ds.
Proof.
  revert ds; induction col as [|c col IH]; intros ds; simpl.
  - split; [intros [= <-]; constructor | intros H; inversion H; reflexivity].
  - split.
    + intros H. res_inv. constructor; [done | by apply IH].
    + intros H. inversion H as [|? d ? ds' Hc Hrest]; subst.
      rewrite Hc. simpl. by rewrite (proj2 (IH ds') Hrest).
Qed.

Lemma to_datetime_cell_good c d : to_datetime_cell c = Ok d -> good_cell d = true.
Proof.
  destruct c as [s|]; simpl; [|by intros [= <-]].
  destruct (parse_iso s) as [d'|]; [|done].
  destruct (valid_date d' && in_ts_range d') eqn:E; [|done]. by intros [= <-].
Qed.

Lemma to_datetime_cell_null c d : to_datetime_cell c = Ok d -> (d = None <-> c = None).
Proof.
  destruct c as [s|]; simpl; [|by intros [= <-]].
  destruct (parse_iso s) as [d'|]; [|done].
  destruct (valid_date d' && in_ts_range d'); [|done]. by intros [= <-].
Qed.

Lemma days_in_month_le y m : days_in_month y m <= 31.
Proof. unfold days_in_month. repeat case_match; lia. Qed.

(** A good cell is printed with four, two and two digits. *)
Lemma good_date_bounds d :
  valid_date d && in_ts_range d = true ->
  0 <= year d < 10000 /\ 0 <= month d < 100 /\ 0 <= day d < 100.
Proof.
  unfold valid_date, in_ts_range. rewrite !andb_true_iff, !Z.leb_le, !date_leb_spec.
  pose proof (days_in_month_le (year d) (month d)). simpl. lia.
Qed.

Lemma max_date_None col : max_date col = None <-> Forall (eq None) col.
Proof.
  induction col as [|[d|] col IH]; simpl.
  - split; [constructor | reflexivity].
  - rewrite Forall_cons.
    split; [destruct (max_date col); discriminate | intros [H _]; discriminate].
  - rewrite Forall_cons, IH. split; [intros; split; auto | intros [_ H]; exact H].
Qed.

(** df['date'].max() skips NaT and returns a date of the column that is at least every date of the column. *)
Lemma max_date_Some col m :
  max_date col = Some m ->
  In (Some m) col /\ Forall (fun od => match od with Some d => date_leb d m = true
                                                  | None => True end) col.
Proof.
  revert m; induction col as [|[d|] col IH]; intros m; simpl; [done| |].
  - destruct (max_date col) as [m'|] eqn:E.
    + destruct (IH m' eq_refl) as [Hin Hall]. intros [= <-].
      destruct (date_leb m' d) eqn:Hle.
      * split; [by left|]. constructor; [apply date_leb_refl|].
        eapply Forall_impl; [exact Hall|]. intros [x|]; eauto using date_leb_trans.
      * split; [by right|]. constructor; [by apply date_leb_total|done].
    + intros [= <-]. split; [by left|]. constructor; [apply date_leb_refl|].
      apply max_date_None in E. eapply Forall_impl; [exact E|]. by intros ? <-.
  - intros H. destruct (IH m H) as [Hin Hall]. split; [by right|]. by constructor.
Qed.

(** A bad cell anywhere in the column makes the whole conversion raise. *)
Lemma to_datetime_Err col :
  (exists e, to_datetime col = Err e) <->
  Exists (fun c => exists e, to_datetime_cell c = Err e) col.
Proof.
  induction col as [|c col IH]; simpl.
  - split; [intros [e He]; discriminate | inversion 1].
  - rewrite Exists_cons, <- IH.
    destruct (to_datetime_cell c) as [d|e]; simpl; [|naive_solver].
    destruct (to_datetime col) as [ds|e]; simpl; naive_solver.
Qed.

(** C39. Round trip on the column: printing well-formed datetimes in the
    OWID format and converting them back with [pd.to_datetime] gives the
    same column, NaT cells included. *)
Lemma to_datetime_format ds :
  Forall (fun od => good_cell od = true) ds ->
  to_datetime (map (option_map format_iso) ds) = Ok ds.
Proof.
  induction 1 as [|[d|] ds Hd _ IH]; simpl; [done| |by rewrite IH].
  simpl in Hd. destruct (good_date_bounds d Hd) as (Hy & Hm & Hdd).
  rewrite read_format_iso, Hd by done. simpl. by rewrite IH.
Qed.

(** The only exception of [pd.to_datetime] is a parse error on one of the
    column's strings. *)
Lemma to_datetime_Err_cell col e :
  to_datetime col = Err e -> exists s, e = DateParseError s /\ In (Some s) col.
Proof.
  induction col as [|c col IH]; simpl; [done|].
  destruct (to_datetime_cell c) as [d|e'] eqn:Ec; simpl.
  - destruct (to_datetime col) as [ds|e''] eqn:E; simpl; [done|].
    intros [= <-]. destruct (IH eq_refl) as (s & -> & Hin). eauto.
  - intros [= <-]. destruct c as [s|]; simpl in Ec; [|done].
    exists s. split; [|by left]. destruct (parse_iso s); [|congruence].
    destruct (valid_date d && in_ts_range d); congruence.
Qed.

(** ** Witnesses *)

Lemma parse_format_iso_witness : parse_iso (format_iso (mkdate 2021 5 1)) = Some (mkdate 2021 5 1).
Proof. apply parse_format_iso; simpl; lia. Defined.

Lemma format_parse_iso_witness : format_iso (mkdate 2021 5 1) = "2021-05-01"%string.
Proof. apply format_parse_iso. reflexivity. Defined.

Lemma to_datetime_format_witness :
  to_datetime (map (option_map format_iso) [Some (mkdate 2021 5 1); None]) =
  Ok [Some (mkdate 2021 5 1); None].
Proof. apply to_datetime_format. repeat constructor. Defined.

Lemma max_date_Some_witness :
  In (Some (mkdate 2021 5 1)) [Some (mkdate 2021 4 30); None; Some (mkdate 2021 5 1)] /\
  Forall (fun od => match od with Some d => date_leb d (mkdate 2021 5 1) = true | None => True end)
    [Some (mkdate 2021 4 30); None; Some (mkdate 2021 5 1)].
Proof. apply max_date_Some. reflexivity. Defined.
