(* ===== verification/Series.v ===== *)
(** * Series: the pandas column operations the script applies

    A numeric Series is a [list num] in index order; an object (string)
    Series is a [list (option string)] ([None] is NaN); a datetime Series
    is a [list (option date)] ([None] is NaT).  The operations are the
    element-wise ones of lines 63, 66, 69-74, 94-95, 98 and 166 of
    src/covid_traker.py: [isin], [notna], [fillna(0)], [fillna(method=
    'ffill')], Series division and scaling, equality with a scalar date,
    and the null counts of the report (lines 47, 78). *)

From Stdlib Require Import List QArith String ZArith Lia Sorted.
From stdpp Require Import base tactics list.
From S2P Require Import Prelude Num Dates.
Import ListNotations.

(** [Series.isnull().sum()] *)
Definition count_null (s : list num) : nat := length (List.filter isnull s).

Definition count_none {A} (s : list (option A)) : nat :=
  length (List.filter (fun o => match o with None => true | Some _ => false end) s).

(** [Series.fillna(v)] *)
Definition fillna (v : num) (s : list num) : list num := map (fill_value v) s.

(** [Series.fillna(method='ffill')]: every NaN takes the last non-NaN
    value above it; a NaN with none above it stays NaN. [last] is the
    value carried so far (NaN at the start). *)
Fixpoint ffill_from (last : num) (s : list num) : list num :=
  match s with
  | [] => []
  | x :: s' =>
      let y := if isnull x then last else x in
      y :: ffill_from y s'
  end.

Definition ffill (s : list num) : list num := ffill_from NaN s.

(** [a / b] for two Series of the same table (aligned on the index). *)
Definition div_series (a b : list num) : list num := zip_with num_div a b.

(** [s * c] for a scalar [c]. *)
Definition mul_scalar (s : list num) (c : num) : list num := map (fun x => num_mul x c) s.

(** [Series.isin(values)]: a missing cell is never in the list. *)
Definition isin (s : list (option string)) (vals : list string) : list bool :=
  map (fun o => match o with
                | Some x => if in_dec string_dec x vals then true else false
                | None => false
                end) s.

(** [Series.notna()] on an object or datetime column. *)
Definition notna {A} (s : list (option A)) : list bool :=
  map (fun o => match o with Some _ => true | None => false end) s.

(** [Series == v] for a datetime scalar [v]: NaT equals nothing. *)
Definition eq_date (s : list (option date)) (v : option date) : list bool :=
  map (fun o => match o, v with
                | Some d, Some m => if decide (d = m) then true else false
                | _, _ => false
                end) s.

(** Pandas' [<=] on float values (false as soon as one side is NaN). *)
Definition num_le (x y : num) : Prop :=
  match x, y with
  | Fin a, Fin b => (a <= b)%Q
  | NInf, NaN | NaN, _ => False
  | NInf, _ => True
  | _, PInf => True
  | _, _ => False
  end.

(** The non-missing values of a Series (what [dropna()] keeps). *)
Definition present (s : list num) : list num := List.filter (fun x => negb (isnull x)) s.

(** The last non-missing value of a Series, NaN if there is none. *)
Definition last_valid (s : list num) : num :=
  match last_where (fun x => negb (isnull x)) s with Some x => x | None => NaN end.

(** The value carried after reading [s] from the value [last]. *)
Definition carry (last : num) (s : list num) : num :=
  match last_where (fun x => negb (isnull x)) s with Some x => x | None => last end.

(** The reference definition: cell [i] is the last non-missing value among
    cells [0..i]. *)
Definition ffill_ref (s : list num) : list num :=
  map (fun i => last_valid (take (S i) s)) (seq 0 (length s)).

(** The number of missing values before the first present one. *)
Fixpoint leading_missing (s : list num) : nat :=
  match s with
  | [] => 0
  | x :: s' => if isnull x then S (leading_missing s') else 0
  end.

(** ** Lengths *)

Lemma length_ffill_from last s : length (ffill_from last s) = length s.
Proof. revert last; induction s; intros; simpl; auto. Qed.

Lemma length_ffill s : length (ffill s) = length s.
Proof. apply length_ffill_from. Qed.

Lemma length_fillna v s : length (fillna v s) = length s.
Proof. apply length_map. Qed.

Lemma length_div_series a b : length a = length b -> length (div_series a b) = length a.
Proof. intros H. unfold div_series. rewrite length_zip_with. lia. Qed.

Lemma length_mul_scalar s c : length (mul_scalar s c) = length s.
Proof. apply length_map. Qed.

#[export] Hint Rewrite length_ffill length_fillna length_mul_scalar : pd_rw.

(** ** fillna *)

(** After [fillna(v)] with a non-missing [v], no cell of the Series is
    missing, and every cell that was present is unchanged. *)
Lemma fillna_spec v s :
  isnull v = false ->
  count_null (fillna v s) = 0 /\
  Forall2 (fun x y => y = if isnull x then v else x) s (fillna v s).
Proof.
  intros Hv. unfold count_null, fillna. split.
  - induction s as [|x s IH]; simpl; [done|]. by rewrite isnull_fill_value.
  - induction s as [|x s IH]; simpl; constructor; auto.
Qed.

(** ** Forward fill *)

Lemma carry_cons last x s : carry last (x :: s) = carry (if isnull x then last else x) s.
Proof.
  unfold carry. simpl. destruct (last_where _ s); [done|]. by destruct (isnull x).
Qed.

Lemma ffill_from_app last s1 s2 :
  ffill_from last (s1 ++ s2) = ffill_from last s1 ++ ffill_from (carry last s1) s2.
Proof.
  revert last; induction s1 as [|x s1 IH]; intros last; simpl; [done|].
  by rewrite IH, carry_cons.
Qed.

(** Forward fill of two blocks of rows: the second block starts from the
    last value of the first.  This is how values cross from one location
    to the next in the cleaned table. *)
Lemma ffill_app s1 s2 : ffill (s1 ++ s2) = ffill s1 ++ ffill_from (last_valid s1) s2.
Proof. apply ffill_from_app. Qed.

Lemma ffill_from_lookup last s i :
  i < length s -> ffill_from last s !! i = Some (carry last (take (S i) s)).
Proof.
  revert last i; induction s as [|x s IH]; intros last [|i] Hi; simpl in *; try lia.
  - by rewrite carry_cons, take_0.
  - rewrite IH by lia. by rewrite carry_cons.
Qed.

(** C15. The single pass of [ffill] computes the reference definition. *)
Lemma ffill_eq_ref s : ffill s = ffill_ref s.
Proof.
  apply list_eq. intros i. unfold ffill_ref. rewrite list_lookup_fmap.
  destruct (decide (i < length s)) as [Hi|Hi].
  - rewrite lookup_seq_lt by done. unfold ffill. by rewrite ffill_from_lookup.
  - rewrite lookup_seq_ge by lia. apply lookup_ge_None_2. rewrite length_ffill. lia.
Qed.

(** A present cell is left as it is. *)
Lemma ffill_keeps_present s i x :
  s !! i = Some x -> isnull x = false -> ffill s !! i = Some x.
Proof.
  intros Hx Hn. pose proof (lookup_lt_Some _ _ _ Hx) as Hi.
  unfold ffill. rewrite ffill_from_lookup by done. f_equal.
  rewrite (take_S_r _ _ _ Hx). unfold carry. by rewrite last_where_snoc, Hn.
Qed.

(** A cell is still missing after the fill exactly when no cell at or
    above it was present. *)
Lemma ffill_missing_iff s i :
  i < length s ->
  (ffill s !! i = Some NaN <-> Forall (fun x => isnull x = true) (take (S i) s)).
Proof.
  intros Hi. unfold ffill. rewrite ffill_from_lookup by done. unfold carry.
  split.
  - intros [= H]. destruct (last_where _ _) as [y|] eqn:E.
    + apply last_where_Some in E as [_ Hy]. subst. done.
    + apply last_where_None in E. eapply Forall_impl; [exact E|].
      intros x Hx. by apply negb_false_iff.
  - intros Hall. rewrite (proj2 (last_where_None _ _)); [done|].
    eapply Forall_impl; [exact Hall|]. intros x ->. done.
Qed.

Lemma ffill_from_idem last s :
  ffill_from last (ffill_from last s) = ffill_from last s.
Proof.
  revert last; induction s as [|x s IH]; intros last; simpl; [done|].
  destruct (isnull x) eqn:Hx; simpl.
  - destruct (isnull last); by rewrite IH.
  - rewrite Hx. by rewrite IH.
Qed.

(** Filling twice is filling once. *)
Lemma ffill_idem s : ffill (ffill s) = ffill s.
Proof. apply ffill_from_idem. Qed.

Lemma count_null_zero s : Forall (fun x => isnull x = false) s -> count_null s = 0.
Proof. unfold count_null. induction 1 as [|x s Hx _ IH]; simpl; [done|]. by rewrite Hx. Qed.

(** Only the missing values before the first present one stay missing. *)
Lemma count_null_ffill_from last s :
  count_null (ffill_from last s) = if isnull last then leading_missing s else 0.
Proof.
  unfold count_null. revert last; induction s as [|x s IH]; intros last; simpl.
  - by destruct (isnull last).
  - destruct (isnull x) eqn:Hx; simpl.
    + destruct (isnull last) eqn:Hl; simpl; rewrite IH, Hl; done.
    + rewrite Hx, IH, Hx. by destruct (isnull last).
Qed.

Lemma count_null_ffill s : count_null (ffill s) = leading_missing s.
Proof. apply count_null_ffill_from. Qed.

(** The spec's example (section 8): [100, NaN, NaN, 400] becomes
    [100, 100, 100, 400]. *)
Example ffill_spec_example :
  ffill [Fin 100; NaN; NaN; Fin 400] = [Fin 100; Fin 100; Fin 100; Fin 400].
Proof. reflexivity. Qed.

(** ** Order of the filled values *)

Lemma num_le_refl x : isnull x = false -> num_le x x.
Proof. destruct x; simpl; try done. intros _. apply Qle_refl. Qed.

Lemma num_le_trans x y z : num_le x y -> num_le y z -> num_le x z.
Proof.
  destruct x, y, z; simpl; try done. apply Qle_trans.
Qed.

#[export] Instance num_le_Transitive : Transitive num_le.
Proof. intros ???. apply num_le_trans. Qed.

Lemma num_le_notnull x y : num_le x y -> isnull x = false /\ isnull y = false.
Proof. destruct x, y; simpl; done. Qed.

Lemma present_ffill_from_sorted last s :
  isnull last = false ->
  Sorted num_le (last :: present s) ->
  Sorted num_le (last :: present (ffill_from last s)).
Proof.
  revert last; induction s as [|x s IH]; intros last Hl Hs; simpl; [done|].
  unfold present in *; simpl in *.
  destruct (isnull x) eqn:Hx; simpl.
  - rewrite Hl. simpl. constructor; [apply IH; auto|]. constructor. by apply num_le_refl.
  - apply Sorted_inv in Hs as [Hs Hhd]. apply HdRel_inv in Hhd.
    simpl in Hs. rewrite Hx. simpl.
    constructor; [apply IH; auto|]. by constructor.
Qed.

(** C16. Spec section 8: if the present values of a cumulative column are
    non-decreasing, they still are after the forward fill, filled cells
    included. *)
Lemma ffill_sorted s :
  Sorted num_le (present s) -> Sorted num_le (present (ffill s)).
Proof.
  unfold ffill. induction s as [|x s IH]; simpl; [done|].
  unfold present in *; simpl.
  destruct (isnull x) eqn:Hx; simpl; [auto|].
  intros Hs. apply (present_ffill_from_sorted x s Hx) in Hs.
  by rewrite Hx.
Qed.

(** ** Forward fill over blocks of rows *)

Lemma ffill_from_head_present v x s :
  isnull x = false -> ffill_from v (x :: s) = ffill (x :: s).
Proof. intros Hx. unfold ffill. simpl. by rewrite Hx. Qed.

(** One pass over consecutive blocks (the rows of one location after the
    rows of another) fills each block on its own, which is what a
    [groupby('location').ffill()] does on location-sorted rows, as soon
    as every block after the first starts with a present value. *)
Lemma ffill_blocks b bs :
  Forall (fun blk => exists x s, blk = x :: s /\ isnull x = false) bs ->
  ffill (b ++ concat bs) = ffill b ++ concat (map ffill bs).
Proof.
  intros Hbs. revert b. induction Hbs as [|blk bs (x & s & -> & Hx) _ IH]; intros b; simpl.
  - by rewrite !app_nil_r.
  - rewrite ffill_app. f_equal.
    rewrite (ffill_from_head_present _ _ _ Hx). apply (IH (x :: s)).
Qed.

(** ** Witnesses on small series *)

Lemma ffill_sorted_witness :
  Sorted num_le (present (ffill [Fin 100; NaN; NaN; Fin 400])).
Proof. apply ffill_sorted. vm_compute. repeat constructor; vm_compute; discriminate. Defined.
