(* ===== verification/Frame.v ===== *)
(** * Frame: the DataFrame [df] of the script

    A DataFrame is its number of rows and its columns, in order, each a
    Series of one dtype: float64 ([ColNum]), object strings ([ColStr]) or
    datetime64 ([ColDate]).  [df['c']] looks a column up (KeyError when it
    is absent), [df['c'] = s] replaces it or appends it, [df[mask]] keeps
    the rows of a boolean mask in every column, and [df.dropna(subset=..)]
    drops the rows with a missing cell in one of the named columns. *)

From Stdlib Require Import List String QArith Lia.
From stdpp Require Import base tactics list.
From S2P Require Import Prelude Num Dates Series.
Import ListNotations.

Inductive column : Type :=
  | ColNum (s : list num)
  | ColStr (s : list (option string))
  | ColDate (s : list (option date)).

Record frame : Type := mkframe { nrows : nat; cols : list (string * column) }.

Definition col_length (c : column) : nat :=
  match c with ColNum s => length s | ColStr s => length s | ColDate s => length s end.

(** Every column has one cell per row. *)
Definition frame_wf (df : frame) : Prop :=
  Forall (fun nc => col_length nc.2 = nrows df) (cols df).

Fixpoint lookup_col (name : string) (cs : list (string * column)) : option column :=
  match cs with
  | [] => None
  | (n, c) :: cs' => if String.eqb n name then Some c else lookup_col name cs'
  end.

(** [df[name]] *)
Definition get_col (name : string) (df : frame) : result column :=
  match lookup_col name (cols df) with Some c => Ok c | None => Err (KeyError name) end.

Definition get_num (name : string) (df : frame) : result (list num) :=
  c <-? get_col name df ;;
  match c with ColNum s => Ok s | _ => Err (TypeError name) end.

Definition get_str (name : string) (df : frame) : result (list (option string)) :=
  c <-? get_col name df ;;
  match c with ColStr s => Ok s | _ => Err (TypeError name) end.

Definition get_date (name : string) (df : frame) : result (list (option date)) :=
  c <-? get_col name df ;;
  match c with ColDate s => Ok s | _ => Err (TypeError name) end.

Fixpoint set_in (name : string) (c : column) (cs : list (string * column))
  : list (string * column) :=
  match cs with
  | [] => [(name, c)]
  | (n, c') :: cs' => if String.eqb n name then (n, c) :: cs' else (n, c') :: set_in name c cs'
  end.

(** [df[name] = c] *)
Definition set_col (name : string) (c : column) (df : frame) : frame :=
  mkframe (nrows df) (set_in name c (cols df)).

Definition filter_col (m : list bool) (c : column) : column :=
  match c with
  | ColNum s => ColNum (filter_mask m s)
  | ColStr s => ColStr (filter_mask m s)
  | ColDate s => ColDate (filter_mask m s)
  end.

(** [df[mask]] *)
Definition mask_frame (m : list bool) (df : frame) : frame :=
  mkframe (count_true m) (map (fun nc => (nc.1, filter_col m nc.2)) (cols df)).

(** [df[name].notna()] *)
Definition col_notna (c : column) : list bool :=
  match c with
  | ColNum s => map (fun x => negb (isnull x)) s
  | ColStr s => notna s
  | ColDate s => notna s
  end.

Fixpoint notna_all (df : frame) (names : list string) : result (list bool) :=
  match names with
  | [] => Ok (repeat true (nrows df))
  | n :: names' =>
      c <-? get_col n df ;;
      m <-? notna_all df names' ;;
      Ok (zip_with andb (col_notna c) m)
  end.

(** [df.dropna(subset=names)] *)
Definition dropna_subset (names : list string) (df : frame) : result frame :=
  m <-? notna_all df names ;; Ok (mask_frame m df).

(** [df[names]]: the listed columns, in the listed order. *)
Fixpoint select_cols (names : list string) (df : frame) : result (list (string * column)) :=
  match names with
  | [] => Ok []
  | n :: names' =>
      c <-? get_col n df ;;
      cs <-? select_cols names' df ;;
      Ok ((n, c) :: cs)
  end.

(** [df[names].isnull().sum()]: the missing-value report of lines 47, 78. *)
Definition col_null_count (c : column) : nat := count_true (map negb (col_notna c)).

Definition null_counts (names : list string) (df : frame) : result (list (string * nat)) :=
  cs <-? select_cols names df ;;
  Ok (map (fun nc => (nc.1, col_null_count nc.2)) cs).

(** ** Column predicates and column updates *)

(** Column [n] exists and satisfies [P]. *)
Definition has_col (n : string) (P : column -> Prop) (df : frame) : Prop :=
  exists c, get_col n df = Ok c /\ P c.

Definition num_col (P : num -> Prop) (c : column) : Prop :=
  match c with ColNum s => Forall P s | _ => False end.

Definition str_col (P : option string -> Prop) (c : column) : Prop :=
  match c with ColStr s => Forall P s | _ => False end.

Definition date_col (P : option date -> Prop) (c : column) : Prop :=
  match c with ColDate s => Forall P s | _ => False end.

(** A property of every cell survives row selection. *)
Definition filter_stable (P : column -> Prop) : Prop :=
  forall m c, P c -> P (filter_col m c).

Definition update_num (f : list num -> list num) (c : string) (df : frame) : result frame :=
  s <-? get_num c df ;;
  Ok (set_col c (ColNum (f s)) df).

Definition any_col : column -> Prop := fun _ => True.

Definition is_num : column -> Prop := num_col (fun _ => True).

Definition is_str : column -> Prop := str_col (fun _ => True).

Definition is_date : column -> Prop := date_col (fun _ => True).

(** Two frames with the same columns up to a row selection [keep]. *)
Definition rows_of (keep : list bool) (d d' : frame) : Prop :=
  nrows d' = count_true keep /\
  forall c, get_col c d' = res_map (filter_col keep) (get_col c d).

Fixpoint update_all (ups : list ((list num -> list num) * string)) (d : frame) : result frame :=
  match ups with
  | [] => Ok d
  | (f, c) :: ups' => d' <-? update_num f c d ;; update_all ups' d'
  end.

(** ** Column access *)

Lemma lookup_set_in n name c cs :
  lookup_col n (set_in name c cs) = if String.eqb name n then Some c else lookup_col n cs.
Proof.
  induction cs as [|[n' c'] cs IH]; simpl; [by rewrite String.eqb_sym|].
  destruct (String.eqb_spec n' name) as [->|Hne]; simpl.
  - destruct (String.eqb name n); done.
  - rewrite IH. destruct (String.eqb_spec n' n), (String.eqb_spec name n); subst; done.
Qed.

Lemma get_col_set_col n name c df :
  get_col n (set_col name c df) = if String.eqb name n then Ok c else get_col n df.
Proof. unfold get_col, set_col. simpl. rewrite lookup_set_in. by destruct (String.eqb name n). Qed.

(** A map over the cells of every column commutes with column lookup. *)
Lemma lookup_col_map (f : column -> column) n cs :
  lookup_col n (map (fun nc => (nc.1, f nc.2)) cs) = f <$> lookup_col n cs.
Proof.
  induction cs as [|[n' c'] cs IH]; simpl; [done|]. by destruct (String.eqb n' n).
Qed.

Lemma lookup_col_map_filter m n cs :
  lookup_col n (map (fun nc => (nc.1, filter_col m nc.2)) cs) = filter_col m <$> lookup_col n cs.
Proof. apply (lookup_col_map (filter_col m)). Qed.

Lemma get_col_mask m n df : get_col n (mask_frame m df) = res_map (filter_col m) (get_col n df).
Proof.
  unfold get_col, mask_frame. simpl. rewrite lookup_col_map_filter.
  by destruct (lookup_col n (cols df)).
Qed.

Lemma get_num_mask m n df : get_num n (mask_frame m df) = res_map (filter_mask m) (get_num n df).
Proof.
  unfold get_num. rewrite get_col_mask. by destruct (get_col n df) as [[]|].
Qed.

Lemma get_str_mask m n df : get_str n (mask_frame m df) = res_map (filter_mask m) (get_str n df).
Proof.
  unfold get_str. rewrite get_col_mask. by destruct (get_col n df) as [[]|].
Qed.

Lemma get_date_mask m n df : get_date n (mask_frame m df) = res_map (filter_mask m) (get_date n df).
Proof.
  unfold get_date. rewrite get_col_mask. by destruct (get_col n df) as [[]|].
Qed.

Lemma get_num_set_col_eq name s df : get_num name (set_col name (ColNum s) df) = Ok s.
Proof. unfold get_num. rewrite get_col_set_col, String.eqb_refl. done. Qed.

Lemma get_col_set_col_ne n name c df :
  name <> n -> get_col n (set_col name c df) = get_col n df.
Proof. intros Hne. rewrite get_col_set_col. by destruct (String.eqb_spec name n). Qed.

#[export] Hint Rewrite get_col_mask get_num_mask get_str_mask get_date_mask
  get_num_set_col_eq : pd_rw.

(** ** Well-formedness is preserved *)

Lemma get_col_length df n c : frame_wf df -> get_col n df = Ok c -> col_length c = nrows df.
Proof.
  unfold frame_wf, get_col. destruct df as [r cs]; simpl.
  induction cs as [|[n' c'] cs IH]; simpl; [done|]. rewrite Forall_cons.
  intros [Hc Hcs]. destruct (String.eqb n' n); [by intros [= <-]|]. auto.
Qed.

Lemma set_in_wf r name c cs :
  col_length c = r -> Forall (fun nc => col_length nc.2 = r) cs ->
  Forall (fun nc => col_length nc.2 = r) (set_in name c cs).
Proof.
  intros Hc. induction 1 as [|[n' c'] cs Hc' Hcs IH]; simpl; [by constructor|].
  destruct (String.eqb n' name); constructor; auto.
Qed.

Lemma set_col_wf name c df :
  frame_wf df -> col_length c = nrows df -> frame_wf (set_col name c df).
Proof. intros Hwf Hc. by apply set_in_wf. Qed.

Lemma col_length_filter m c :
  length m = col_length c -> col_length (filter_col m c) = count_true m.
Proof. destruct c; simpl; apply length_filter_mask. Qed.

Lemma mask_frame_wf m df :
  frame_wf df -> length m = nrows df -> frame_wf (mask_frame m df).
Proof.
  unfold frame_wf, mask_frame. simpl. intros Hwf Hm.
  apply Forall_fmap, (Forall_impl _ _ _ Hwf). intros [n c] Hc. simpl in *.
  apply col_length_filter. lia.
Qed.

Lemma length_col_notna c : length (col_notna c) = col_length c.
Proof. destruct c; simpl; unfold notna; apply length_map. Qed.

Lemma notna_all_length df names m :
  frame_wf df -> notna_all df names = Ok m -> length m = nrows df.
Proof.
  intros Hwf. revert m; induction names as [|n names IH]; intros m H; simpl in H.
  - injection H as <-. apply repeat_length.
  - res_inv. rewrite length_zip_with, length_col_notna, (get_col_length df n x) by done.
    rewrite (IH x0) by done. lia.
Qed.

Lemma dropna_subset_wf names df df' :
  frame_wf df -> dropna_subset names df = Ok df' -> frame_wf df'.
Proof.
  unfold dropna_subset. intros Hwf H. res_inv.
  apply mask_frame_wf; [done|]. by eapply notna_all_length.
Qed.

#[export] Hint Resolve set_col_wf mask_frame_wf dropna_subset_wf : pd.

(** ** dropna *)

Lemma notna_all_implies df names m n c :
  frame_wf df -> notna_all df names = Ok m -> In n names -> get_col n df = Ok c ->
  Forall2 (fun b x => b = true -> x = true) m (col_notna c).
Proof.
  intros Hwf. revert m; induction names as [|n' names IH]; intros m Hm Hin Hc; [done|].
  simpl in Hm. res_inv. pose proof (notna_all_length _ _ _ Hwf H0) as Hl.
  assert (length (col_notna x) = length x0).
  { rewrite length_col_notna, Hl. by eapply get_col_length. }
  destruct Hin as [<-|Hin].
  - rewrite Hc in H. injection H as ->. apply Forall2_zip_with_andb_l; [done|].
    apply Forall2_impl_refl.
  - apply Forall2_zip_with_andb_r; [done|]. by apply IH.
Qed.

Lemma col_notna_filter m c : col_notna (filter_col m c) = filter_mask m (col_notna c).
Proof. destruct c; simpl; unfold notna; by rewrite filter_mask_map. Qed.

(** After [dropna(subset=names)], the named columns have no missing cell. *)
Lemma dropna_subset_cols_notna names df df' n c :
  frame_wf df -> dropna_subset names df = Ok df' -> In n names -> get_col n df' = Ok c ->
  Forall (fun b => b = true) (col_notna c).
Proof.
  unfold dropna_subset. intros Hwf H Hin Hc. res_inv.
  rewrite get_col_mask in Hc. res_inv.
  rewrite col_notna_filter. apply filter_mask_Forall2.
  by eapply notna_all_implies.
Qed.

(** ** Properties of the cells of one column *)

Lemma num_col_stable P : filter_stable (num_col P).
Proof. intros m []; simpl; auto with pd. Qed.
Lemma str_col_stable P : filter_stable (str_col P).
Proof. intros m []; simpl; auto with pd. Qed.
Lemma date_col_stable P : filter_stable (date_col P).
Proof. intros m []; simpl; auto with pd. Qed.

#[export] Hint Resolve num_col_stable str_col_stable date_col_stable : pd.

Lemma has_col_set_eq n P c df : P c -> has_col n P (set_col n c df).
Proof. intros Hc. exists c. by rewrite get_col_set_col, String.eqb_refl. Qed.

Lemma has_col_set_ne n n' P c df : n' <> n -> has_col n P df -> has_col n P (set_col n' c df).
Proof. intros Hne. unfold has_col. by rewrite get_col_set_col_ne. Qed.

Lemma has_col_mask n P m df : filter_stable P -> has_col n P df -> has_col n P (mask_frame m df).
Proof.
  intros HP [c [Hc Pc]]. exists (filter_col m c). rewrite get_col_mask, Hc. auto.
Qed.

Lemma has_col_dropna n P names df df' :
  filter_stable P -> dropna_subset names df = Ok df' -> has_col n P df -> has_col n P df'.
Proof. unfold dropna_subset. intros HP H Hn. res_inv. by apply has_col_mask. Qed.

Lemma has_col_weaken n (P Q : column -> Prop) df :
  (forall c, P c -> Q c) -> has_col n P df -> has_col n Q df.
Proof. intros HPQ [c [Hc Pc]]. exists c. auto. Qed.

#[export] Hint Resolve has_col_set_eq has_col_set_ne has_col_mask has_col_dropna : pd.

(** ** [df[c] = f(df[c])] on a numeric column *)

Lemma get_num_col c df s : get_num c df = Ok s -> get_col c df = Ok (ColNum s).
Proof. unfold get_num. intros H. res_inv. by destruct x; simplify_eq. Qed.

Lemma has_col_update_ne f c n P df df' :
  c <> n -> update_num f c df = Ok df' -> has_col n P df -> has_col n P df'.
Proof. unfold update_num. intros Hne H. res_inv. by apply has_col_set_ne. Qed.

Lemma has_col_update_eq f c (P : num -> Prop) df df' :
  (forall s, Forall P (f s)) -> update_num f c df = Ok df' -> has_col c (num_col P) df'.
Proof. unfold update_num. intros Hf H. res_inv. apply has_col_set_eq. apply Hf. Qed.

Lemma update_num_wf f c df df' :
  (forall s, length (f s) = length s) ->
  frame_wf df -> update_num f c df = Ok df' -> frame_wf df'.
Proof.
  unfold update_num. intros Hf Hwf H. res_inv. apply set_col_wf; [done|].
  simpl. rewrite Hf. apply (get_col_length df c (ColNum x)); [done|]. by apply get_num_col.
Qed.

Lemma update_num_get f c df df' :
  update_num f c df = Ok df' -> exists s, get_num c df = Ok s /\ get_num c df' = Ok (f s).
Proof. unfold update_num. intros H. res_inv. eexists; split; [done|]. apply get_num_set_col_eq. Qed.

#[export] Hint Resolve has_col_update_ne update_num_wf : pd.

Lemma get_str_col c df s : get_str c df = Ok s -> get_col c df = Ok (ColStr s).
Proof. unfold get_str. intros H. res_inv. by destruct x; simplify_eq. Qed.

Lemma get_date_col c df s : get_date c df = Ok s -> get_col c df = Ok (ColDate s).
Proof. unfold get_date. intros H. res_inv. by destruct x; simplify_eq. Qed.

Lemma get_num_length c df s : frame_wf df -> get_num c df = Ok s -> length s = nrows df.
Proof. intros Hwf H. apply (get_col_length _ c (ColNum s) Hwf). by apply get_num_col. Qed.

Lemma get_str_length c df s : frame_wf df -> get_str c df = Ok s -> length s = nrows df.
Proof. intros Hwf H. apply (get_col_length _ c (ColStr s) Hwf). by apply get_str_col. Qed.

Lemma get_date_length c df s : frame_wf df -> get_date c df = Ok s -> length s = nrows df.
Proof. intros Hwf H. apply (get_col_length _ c (ColDate s) Hwf). by apply get_date_col. Qed.

(** ** When the calls succeed *)

Lemma any_col_stable : filter_stable any_col.
Proof. done. Qed.
Lemma is_num_stable : filter_stable is_num.
Proof. apply num_col_stable. Qed.
Lemma is_str_stable : filter_stable is_str.
Proof. apply str_col_stable. Qed.
Lemma is_date_stable : filter_stable is_date.
Proof. apply date_col_stable. Qed.

#[export] Hint Resolve any_col_stable is_num_stable is_str_stable is_date_stable : pd.

Lemma has_num_get n df : has_col n is_num df -> exists s, get_num n df = Ok s.
Proof. intros [[s| |] [Hc P]]; try done. exists s. unfold get_num. by rewrite Hc. Qed.

Lemma has_str_get n df : has_col n is_str df -> exists s, get_str n df = Ok s.
Proof. intros [[|s|] [Hc P]]; try done. exists s. unfold get_str. by rewrite Hc. Qed.

Lemma has_date_get n df : has_col n is_date df -> exists s, get_date n df = Ok s.
Proof. intros [[| |s] [Hc P]]; try done. exists s. unfold get_date. by rewrite Hc. Qed.

Lemma has_col_any n P df : has_col n P df -> has_col n any_col df.
Proof. intros [c [Hc _]]. by exists c. Qed.

Lemma update_num_Ok f c df :
  has_col c is_num df -> exists df', update_num f c df = Ok df'.
Proof. intros (s & Hs)%has_num_get. unfold update_num. rewrite Hs. by eexists. Qed.

Lemma has_col_update_num f c df df' :
  update_num f c df = Ok df' -> has_col c is_num df'.
Proof. apply has_col_update_eq. intros s. apply Forall_true. done. Qed.

Lemma select_cols_Ok names df :
  Forall (fun n => has_col n any_col df) names -> exists cs, select_cols names df = Ok cs.
Proof.
  induction 1 as [|n names [c [Hc _]] _ [cs IH]]; simpl; [by eexists|].
  rewrite Hc. simpl. rewrite IH. by eexists.
Qed.

Lemma null_counts_Ok names df :
  Forall (fun n => has_col n any_col df) names -> exists r, null_counts names df = Ok r.
Proof. intros (cs & Hcs)%select_cols_Ok. unfold null_counts. rewrite Hcs. by eexists. Qed.

Lemma null_counts_cons n names df :
  null_counts (n :: names) df =
  (c <-? get_col n df ;; r <-? null_counts names df ;; Ok ((n, col_null_count c) :: r)).
Proof.
  unfold null_counts. simpl. destruct (get_col n df); simpl; [|done].
  by destruct (select_cols names df).
Qed.

Lemma col_null_count_num s : col_null_count (ColNum s) = count_null s.
Proof.
  unfold col_null_count, count_true, count_null. simpl.
  induction s as [|x s IH]; simpl; [done|]. by destruct (isnull x); simpl; rewrite IH.
Qed.

Lemma col_null_count_zero c : Forall (fun b => b = true) (col_notna c) -> col_null_count c = 0.
Proof.
  unfold col_null_count, count_true. induction (col_notna c) as [|b l IH]; simpl; [done|].
  intros [-> Hl]%Forall_cons_1. by apply IH.
Qed.

Lemma num_col_notna (P : num -> Prop) c :
  (forall x, P x -> isnull x = false) -> num_col P c -> Forall (fun b => b = true) (col_notna c).
Proof.
  intros HP Hc. destruct c as [s|s|s]; simpl in *; try contradiction.
  apply Forall_map. eapply Forall_impl; [exact Hc|]. intros x Hx. by rewrite HP.
Qed.

Lemma notna_Forall {A} (P : option A -> Prop) (s : list (option A)) :
  (forall o, P o -> o <> None) -> Forall P s -> Forall (fun b => b = true) (notna s).
Proof.
  intros HP Hs. apply Forall_map. eapply Forall_impl; [exact Hs|].
  intros [x|] Hx; [done|]. by destruct (HP None Hx).
Qed.

Lemma str_col_notna (P : option string -> Prop) c :
  (forall o, P o -> o <> None) -> str_col P c -> Forall (fun b => b = true) (col_notna c).
Proof. intros HP Hc. destruct c; simpl in *; try contradiction. by eapply notna_Forall. Qed.

Lemma date_col_notna (P : option date -> Prop) c :
  (forall o, P o -> o <> None) -> date_col P c -> Forall (fun b => b = true) (col_notna c).
Proof. intros HP Hc. destruct c; simpl in *; try contradiction. by eapply notna_Forall. Qed.

(** A column whose cells all satisfy a property that excludes the missing
    value has no missing cell. *)
Lemma has_col_no_null n P df :
  (forall c, P c -> Forall (fun b => b = true) (col_notna c)) -> has_col n P df ->
  exists c, get_col n df = Ok c /\ col_null_count c = 0.
Proof. intros HP (c & Hc & Pc). exists c. split; [done|]. by apply col_null_count_zero, HP. Qed.

Lemma notna_all_Ok names df :
  Forall (fun n => has_col n any_col df) names -> exists m, notna_all df names = Ok m.
Proof.
  induction 1 as [|n names [c [Hc _]] _ [m IH]]; simpl; [by eexists|].
  rewrite Hc. simpl. rewrite IH. by eexists.
Qed.

Lemma dropna_subset_Ok names df :
  Forall (fun n => has_col n any_col df) names -> exists df', dropna_subset names df = Ok df'.
Proof. intros (m & Hm)%notna_all_Ok. unfold dropna_subset. rewrite Hm. by eexists. Qed.

#[export] Hint Resolve has_col_any has_col_update_num : pd.

(** Updating a numeric column keeps every numeric column numeric. *)
Lemma update_num_keeps_num f c cols df df' :
  update_num f c df = Ok df' ->
  Forall (fun c' => has_col c' is_num df) cols -> Forall (fun c' => has_col c' is_num df') cols.
Proof.
  intros H Hall. eapply Forall_impl; [exact Hall|]. intros c' Hc'.
  destruct (string_dec c c') as [<-|Hne]; [by eapply has_col_update_num | by eapply has_col_update_ne].
Qed.

Lemma Forall_has_col_mask cols P m df :
  filter_stable P -> Forall (fun c => has_col c P df) cols ->
  Forall (fun c => has_col c P (mask_frame m df)) cols.
Proof. intros HP H. eapply Forall_impl; [exact H|]. eauto with pd. Qed.

Lemma Forall_has_col_dropna cols P names df df' :
  filter_stable P -> dropna_subset names df = Ok df' ->
  Forall (fun c => has_col c P df) cols -> Forall (fun c => has_col c P df') cols.
Proof. intros HP Hd H. eapply Forall_impl; [exact H|]. eauto with pd. Qed.

Lemma str_col_is_str P c : str_col P c -> is_str c.
Proof. destruct c; simpl; try done. intros H. eapply Forall_impl; [exact H|done]. Qed.
Lemma date_col_is_date P c : date_col P c -> is_date c.
Proof. destruct c; simpl; try done. intros H. eapply Forall_impl; [exact H|done]. Qed.
Lemma num_col_is_num P c : num_col P c -> is_num c.
Proof. destruct c; simpl; try done. intros H. eapply Forall_impl; [exact H|done]. Qed.

Lemma has_col_same n P df df' : get_col n df' = get_col n df -> has_col n P df -> has_col n P df'.
Proof. intros E [c [Hc Pc]]. exists c. by rewrite E. Qed.

Lemma has_num_set n s df : has_col n is_num (set_col n (ColNum s) df).
Proof. apply has_col_set_eq. apply Forall_true. done. Qed.

(** [df[names]] raises on the first listed column that is absent. *)
Lemma select_cols_missing pre c post df :
  Forall (fun n => has_col n any_col df) pre -> lookup_col c (cols df) = None ->
  select_cols (pre ++ c :: post) df = Err (KeyError c).
Proof.
  intros Hpre Hc. induction Hpre as [|n pre [c' [Hc' _]] _ IH]; simpl.
  - unfold get_col. by rewrite Hc.
  - rewrite Hc'. simpl. by rewrite IH.
Qed.

Lemma null_counts_missing pre c post df :
  Forall (fun n => has_col n any_col df) pre -> lookup_col c (cols df) = None ->
  null_counts (pre ++ c :: post) df = Err (KeyError c).
Proof. intros Hpre Hc. unfold null_counts. by rewrite select_cols_missing. Qed.

(** ** Selecting rows twice *)

Lemma filter_col_twice m1 m2 c :
  length m1 = length m2 -> length m1 = col_length c ->
  filter_col (filter_mask m1 m2) (filter_col m1 c) = filter_col (zip_with andb m1 m2) c.
Proof. intros H1 H2. destruct c; simpl in *; f_equal; by apply filter_mask_filter_mask. Qed.

Lemma rows_of_mask_mask m1 m2 d :
  frame_wf d -> length m1 = nrows d -> length m2 = nrows d ->
  rows_of (zip_with andb m1 m2) d (mask_frame (filter_mask m1 m2) (mask_frame m1 d)).
Proof.
  intros Hwf H1 H2. split.
  - simpl. apply count_true_filter_mask. lia.
  - intros c. rewrite !get_col_mask. destruct (get_col c d) as [col|e] eqn:Hc; simpl; [|done].
    rewrite filter_col_twice; [done|lia|]. rewrite (get_col_length _ _ _ Hwf Hc). lia.
Qed.

Lemma get_str_set_col_ne n name c df :
  name <> n -> get_str n (set_col name c df) = get_str n df.
Proof. intros Hne. unfold get_str. by rewrite get_col_set_col_ne. Qed.

(** ** A sequence of numeric column updates *)

Lemma update_num_other f c n d d' : update_num f c d = Ok d' -> c <> n -> get_col n d' = get_col n d.
Proof. unfold update_num. intros H Hne. res_inv. by apply get_col_set_col_ne. Qed.

Lemma update_num_nrows f c d d' : update_num f c d = Ok d' -> nrows d' = nrows d.
Proof. unfold update_num. intros H. by res_inv. Qed.

Lemma update_all_other ups c d d' :
  update_all ups d = Ok d' -> ~ In c (map snd ups) -> get_col c d' = get_col c d /\ nrows d' = nrows d.
Proof.
  revert d; induction ups as [|[f c'] ups IH]; intros d H Hc; simpl in *; [by injection H as <-|].
  res_inv. destruct (IH _ H0) as [-> ->]; [tauto|].
  split; [apply (update_num_other f c'); [done|tauto] | by eapply update_num_nrows].
Qed.

Lemma get_num_same c d d' : get_col c d' = get_col c d -> get_num c d' = get_num c d.
Proof. unfold get_num. by intros ->. Qed.

Lemma update_all_self ups f c d d' :
  update_all ups d = Ok d' -> NoDup (map snd ups) -> In (f, c) ups ->
  exists s, get_num c d = Ok s /\ get_num c d' = Ok (f s).
Proof.
  revert d; induction ups as [|[g c'] ups IH]; intros d H Hnd Hin; simpl in *; [done|].
  res_inv. apply NoDup_cons in Hnd as [Hnotin Hnd].
  destruct Hin as [[= <- <-]|Hin].
  - destruct (update_num_get _ _ _ _ H) as (s & Hs & Hs'). exists s. split; [done|].
    rewrite <- Hs'. apply get_num_same. apply (update_all_other _ _ _ _ H0).
    by intros ?%list_elem_of_In.
  - destruct (IH _ H0 Hnd Hin) as (s & Hs & Hs'). exists s. split; [|done].
    rewrite <- Hs. symmetry. apply get_num_same, (update_num_other g c'); [done|].
    intros ->. apply Hnotin. apply list_elem_of_In, in_map_iff. by exists (f, c).
Qed.
