(* ===== verification/Report.v ===== *)
(** * Report: what sections 2 and 4 print about the table

    [print(df.head())] (line 34) shows the first five rows,
    [print(df.columns.tolist())] (38) the column names, [df.info()] (42)
    one line per column with its non-null count and dtype, and
    [print(df[key_columns[2:]].describe())] (91) the count, mean, standard
    deviation, minimum, quartiles and maximum of each numeric column.

    The statistics are those of pandas' [describe_numeric_1d]: [count] is
    the number of non-NaN cells, [mean] and [std] skip NaN ([nanops]),
    [std] has [ddof=1], and the quartiles are numpy's [percentile] with
    linear interpolation over the sorted non-NaN values.  Values are exact
    rationals, so the model keeps the variance and not its square root:
    the printed [std] is the square root of [st_var].  A column holding an
    infinity is outside the model ([describe_col] gives [None]). *)

From Stdlib Require Import List String QArith Qround Qminmax Lqa Lia.
From stdpp Require Import base tactics list sorting.
From S2P Require Import Prelude Num Series Frame.
Import ListNotations.

Module Report.

(** ** [head], [columns], [info] *)

(** The first [n] cells of a column. *)
Definition col_take (n : nat) (c : column) : column :=
  match c with
  | ColNum s => ColNum (take n s)
  | ColStr s => ColStr (take n s)
  | ColDate s => ColDate (take n s)
  end.

(** [df.head(n)]: the first [n] rows (all of them when there are fewer). *)
Definition head (n : nat) (df : frame) : frame :=
  mkframe (Nat.min n (nrows df)) (map (fun nc => (nc.1, col_take n nc.2)) (cols df)).

(** [df.columns.tolist()] *)
Definition columns (df : frame) : list string := map fst (cols df).

(** The dtype [df.info()] shows for a column. *)
Definition dtype (c : column) : string :=
  match c with
  | ColNum _ => "float64"
  | ColStr _ => "object"
  | ColDate _ => "datetime64[ns]"
  end.

(** The table of [df.info()]: per column, its name, non-null count and
    dtype (the memory footprint it also prints is not modelled). *)
Definition info (df : frame) : list (string * nat * string) :=
  map (fun nc => (nc.1, count_true (col_notna nc.2), dtype nc.2)) (cols df).

(** ** [describe()] *)

Local Open Scope Q_scope.

Record stats : Type := mkstats {
  st_count : nat;
  st_mean : option Q;
  st_var : option Q;
  st_min : option Q;
  st_q25 : option Q;
  st_q50 : option Q;
  st_q75 : option Q;
  st_max : option Q
}.

(** The non-NaN values of a column, when all of them are finite. *)
Fixpoint finite_values (s : list num) : option (list Q) :=
  match s with
  | [] => Some []
  | Fin q :: s' => option_map (cons q) (finite_values s')
  | NaN :: s' => finite_values s'
  | _ :: _ => None
  end.

Definition qsum (qs : list Q) : Q := fold_right Qplus 0 qs.

Definition qlen (qs : list Q) : Q := inject_Z (Z.of_nat (length qs)).

(** [nanmean]: the sum over the count; NaN (here [None]) without values. *)
Definition qmean (qs : list Q) : option Q :=
  match qs with [] => None | _ => Some (qsum qs / qlen qs) end.

(** [nanvar] with [ddof=1]: the squared deviations from the mean over
    [count - 1]; NaN when [count <= 1]. *)
Definition qvar (qs : list Q) : option Q :=
  match qs with
  | [] | [_] => None
  | _ =>
      let m := qsum qs / qlen qs in
      Some (qsum (map (fun x => (m - x) * (m - x)) qs) /
            inject_Z (Z.of_nat (length qs - 1)))
  end.

Definition qmin (qs : list Q) : option Q :=
  match qs with [] => None | q :: qs' => Some (fold_left Qmin qs' q) end.

Definition qmax (qs : list Q) : option Q :=
  match qs with [] => None | q :: qs' => Some (fold_left Qmax qs' q) end.

(** The order numpy sorts by. *)
Definition qle (x y : Q) : Prop := Qle_bool x y = true.

#[export] Instance qle_dec : RelDecision qle := fun x y => decide (Qle_bool x y = true).

Definition qsort (qs : list Q) : list Q := merge_sort qle qs.

(** numpy's [_lerp]: [a + (b - a) t], computed from [b] when [t >= 1/2]. *)
Definition lerp (a b t : Q) : Q :=
  if Qle_bool (1 # 2) t then b - (b - a) * (1 - t) else a + (b - a) * t.

(** numpy's [percentile(v, 100 p, method='linear')] on sorted values [v]:
    the virtual index [h = (n - 1) p], the values at [floor h] and the next
    index (the last one at the top), interpolated by [h - floor h]. *)
Definition quantile (p : Q) (v : list Q) : option Q :=
  match v with
  | [] => None
  | _ =>
      let h := inject_Z (Z.of_nat (length v - 1)) * p in
      let lo := Z.to_nat (Qfloor h) in
      Some (lerp (nth lo v 0) (nth (Nat.min (S lo) (length v - 1)) v 0)
                 (h - inject_Z (Qfloor h)))
  end.

(** [describe_numeric_1d] on one float column. *)
Definition describe_col (s : list num) : option stats :=
  match finite_values s with
  | None => None
  | Some qs =>
      let v := qsort qs in
      Some (mkstats (length qs) (qmean qs) (qvar qs) (qmin qs)
              (quantile (1 # 4) v) (quantile (1 # 2) v) (quantile (3 # 4) v) (qmax qs))
  end.

(** [df[names].describe()]: [KeyError] on an absent name; the numeric
    columns among them, in order. *)
Definition describe (names : list string) (df : frame)
  : result (list (string * option stats)) :=
  cs <-? select_cols names df ;;
  Ok (omap (fun nc => match nc.2 with
                      | ColNum s => Some (nc.1, describe_col s)
                      | _ => None
                      end) cs).

(** ** [head] *)

Lemma col_length_take n c : col_length (col_take n c) = Nat.min n (col_length c).
Proof. destruct c; simpl; apply length_take. Qed.

(** [df.head(n)] is a well-formed table of [min n rows] rows whose every
    column is the first [n] cells of the column of [df]. *)
Theorem head_spec n df :
  frame_wf df ->
  frame_wf (head n df) /\ nrows (head n df) = Nat.min n (nrows df) /\
  forall c, get_col c (head n df) = res_map (col_take n) (get_col c df).
Proof.
  intros Hwf. split_and!; [|done|].
  - unfold frame_wf, head in *. simpl. apply Forall_fmap, (Forall_impl _ _ _ Hwf).
    intros [nm c] Hc. simpl in *. by rewrite col_length_take, Hc.
  - intros c. unfold get_col, head. simpl. rewrite (lookup_col_map (col_take n)).
    by destruct (lookup_col c (cols df)).
Qed.

(** ** Interpolation *)

(** The two branches of numpy's [_lerp] compute the same value. *)
Lemma lerp_affine a b t : lerp a b t == a + (b - a) * t.
Proof. unfold lerp. destruct (Qle_bool _ _); ring. Qed.

(** The two branches of numpy's [_lerp] compute the same value. *)
Theorem lerp_eq : forall a b t,
  lerp a b t == a + (b - a) * t.
Proof. exact lerp_affine. Qed.

Lemma lerp_between a b t : a <= b -> 0 <= t <= 1 -> a <= lerp a b t <= b.
Proof. intros Hab Ht. rewrite lerp_affine. split; nra. Qed.

Lemma lerp_mono a b t1 t2 : a <= b -> t1 <= t2 -> lerp a b t1 <= lerp a b t2.
Proof. intros Hab Ht. rewrite !lerp_affine. nra. Qed.

(** ** Sorting *)

#[export] Instance qle_trans : Transitive qle.
Proof. intros x y z. unfold qle. rewrite !Qle_bool_iff. apply Qle_trans. Qed.

#[export] Instance qle_total : Total qle.
Proof.
  intros x y. unfold qle. rewrite !Qle_bool_iff.
  destruct (Qlt_le_dec x y); [left; lra|right; lra].
Qed.

Lemma qsort_sorted qs : StronglySorted qle (qsort qs).
Proof. apply StronglySorted_merge_sort; apply _. Qed.

Lemma qsort_perm qs : qsort qs ≡ₚ qs.
Proof. apply merge_sort_Permutation. Qed.

Lemma length_qsort qs : length (qsort qs) = length qs.
Proof. apply Permutation_length, qsort_perm. Qed.

(** In a sorted list, a cell is at most every later cell. *)
Lemma sorted_nth v i j :
  StronglySorted qle v -> (i <= j < length v)%nat -> nth i v 0 <= nth j v 0.
Proof.
  intros Hs. revert i j. induction Hs as [|x v _ IH Hall]; intros i j Hij; simpl in *; [lia|].
  destruct i as [|i], j as [|j]; try lra; try lia.
  - apply Qle_bool_iff. rewrite List.Forall_forall in Hall. apply Hall, nth_In. lia.
  - apply IH. lia.
Qed.

(** ** The quartiles *)

Lemma qfloor_nat h : 0 <= h -> inject_Z (Z.of_nat (Z.to_nat (Qfloor h))) == inject_Z (Qfloor h).
Proof.
  intros Hh. rewrite Z2Nat.id; [reflexivity|].
  pose proof (Qfloor_resp_le 0 h Hh) as H. change (Qfloor 0) with 0%Z in H. lia.
Qed.

(** The interpolation point of [quantile p v]: a lower index [lo] and a
    weight [t] in [[0, 1)] with [lo + t = (n - 1) p]. *)
Lemma quantile_spec p v :
  v <> [] -> 0 <= p <= 1 ->
  exists lo t, (lo <= length v - 1)%nat /\ 0 <= t < 1 /\
    inject_Z (Z.of_nat lo) + t == inject_Z (Z.of_nat (length v - 1)) * p /\
    quantile p v = Some (lerp (nth lo v 0) (nth (Nat.min (S lo) (length v - 1)) v 0) t).
Proof.
  intros Hv Hp. destruct v as [|x v']; [done|]. set (v := x :: v').
  set (n1 := inject_Z (Z.of_nat (length v - 1))).
  assert (Hn1 : 0 <= n1) by (unfold n1; change 0 with (inject_Z 0); rewrite <- Zle_Qle; lia).
  assert (Hh : 0 <= n1 * p) by nra.
  exists (Z.to_nat (Qfloor (n1 * p))), (n1 * p - inject_Z (Qfloor (n1 * p))).
  pose proof (Qfloor_le (n1 * p)). pose proof (Qlt_floor (n1 * p)).
  rewrite inject_Z_plus in *. change (inject_Z 1) with 1 in *. split_and!.
  - assert (inject_Z (Qfloor (n1 * p)) <= n1) by nra.
    unfold n1 in *. rewrite <- Zle_Qle in *. lia.
  - lra.
  - lra.
  - rewrite qfloor_nat by done. lra.
  - reflexivity.
Qed.

Lemma quantile_between v lo t :
  StronglySorted qle v -> (lo <= length v - 1)%nat -> 0 <= t < 1 ->
  nth lo v 0 <= lerp (nth lo v 0) (nth (Nat.min (S lo) (length v - 1)) v 0) t <=
  nth (Nat.min (S lo) (length v - 1)) v 0.
Proof.
  intros Hs Hlo Ht. destruct v as [|x v];
    [simpl in Hlo; assert (lo = 0)%nat as -> by lia; simpl; rewrite lerp_affine; lra|].
  apply lerp_between; [apply sorted_nth; [done|cbn [length] in *; lia]|lra].
Qed.

(** Quantiles grow with [p]. *)
Lemma quantile_mono p1 p2 v q1 q2 :
  StronglySorted qle v -> v <> [] -> 0 <= p1 -> p1 <= p2 -> p2 <= 1 ->
  quantile p1 v = Some q1 -> quantile p2 v = Some q2 -> q1 <= q2.
Proof.
  intros Hs Hv H0 H12 H1 E1 E2.
  destruct (quantile_spec p1 v Hv ltac:(lra)) as (lo1 & t1 & Hlo1 & Ht1 & Hh1 & Q1).
  destruct (quantile_spec p2 v Hv ltac:(lra)) as (lo2 & t2 & Hlo2 & Ht2 & Hh2 & Q2).
  rewrite Q1 in E1. rewrite Q2 in E2. apply (inj Some) in E1, E2. subst q1 q2.
  assert (Hn : 0 <= inject_Z (Z.of_nat (length v - 1))).
  { change 0 with (inject_Z 0). rewrite <- Zle_Qle. lia. }
  assert (Hle : inject_Z (Z.of_nat lo1) + t1 <= inject_Z (Z.of_nat lo2) + t2) by nra.
  destruct (Nat.lt_trichotomy lo1 lo2) as [Hlt|[<-|Hgt]].
  - pose proof (quantile_between _ _ _ Hs Hlo1 Ht1) as [_ B1].
    pose proof (quantile_between _ _ _ Hs Hlo2 Ht2) as [B2 _].
    assert (nth (Nat.min (S lo1) (length v - 1)) v 0 <= nth lo2 v 0)
      by (apply sorted_nth; [done|destruct v; [done|cbn [length] in *; lia]]).
    lra.
  - apply lerp_mono; [apply sorted_nth; [done|destruct v; [done|cbn [length] in *; lia]]|lra].
  - exfalso. assert (H21 : inject_Z (Z.of_nat lo2 + 1) <= inject_Z (Z.of_nat lo1))
      by (rewrite <- Zle_Qle; lia).
    rewrite inject_Z_plus in H21. change (inject_Z 1) with 1 in H21. lra.
Qed.

(** ** Minimum, maximum, sum *)

Lemma fold_min_le qs : forall q x, In x (q :: qs) -> fold_left Qmin qs q <= x.
Proof.
  induction qs as [|y qs IH]; intros q x Hx; simpl in *.
  - destruct Hx as [<-|[]]. lra.
  - pose proof (IH (Qmin q y) (Qmin q y) (or_introl eq_refl)) as Hm.
    destruct Hx as [<-|[<-|Hx]].
    + pose proof (Q.le_min_l q y). lra.
    + pose proof (Q.le_min_r q y). lra.
    + apply IH. by right.
Qed.

Lemma fold_max_ge qs : forall q x, In x (q :: qs) -> x <= fold_left Qmax qs q.
Proof.
  induction qs as [|y qs IH]; intros q x Hx; simpl in *.
  - destruct Hx as [<-|[]]. lra.
  - pose proof (IH (Qmax q y) (Qmax q y) (or_introl eq_refl)) as Hm.
    destruct Hx as [<-|[<-|Hx]].
    + pose proof (Q.le_max_l q y). lra.
    + pose proof (Q.le_max_r q y). lra.
    + apply IH. by right.
Qed.

Lemma qmin_le qs m x : qmin qs = Some m -> In x qs -> m <= x.
Proof. destruct qs; simpl; [done|]. intros [= <-]. apply fold_min_le. Qed.

Lemma qmax_ge qs m x : qmax qs = Some m -> In x qs -> x <= m.
Proof. destruct qs; simpl; [done|]. intros [= <-]. apply fold_max_ge. Qed.





Lemma qsum_nonneg qs : Forall (fun x => 0 <= x) qs -> 0 <= qsum qs.
Proof. induction 1; unfold qsum in *; cbn [fold_right] in *; lra. Qed.

(** ** The values described *)

Lemma finite_values_length s qs :
  finite_values s = Some qs -> length qs = (length s - count_null s)%nat.
Proof.
  unfold count_null. revert qs. induction s as [|[q| | |] s IH]; intros qs H; simpl in *;
    try discriminate.
  - by injection H as <-.
  - destruct (finite_values s) as [qs'|]; [|done]. injection H as <-. simpl.
    rewrite (IH qs') by done.
    assert (length (List.filter isnull s) <= length s)%nat
      by (clear; induction s as [|y s IH]; simpl; [lia|destruct (isnull y); simpl; lia]).
    lia.
  - rewrite (IH qs H). lia.
Qed.

Lemma finite_values_None s : finite_values s = None <-> In PInf s \/ In NInf s.
Proof.
  induction s as [|x s IH]; simpl; [split; [discriminate|tauto]|].
  destruct x as [q| | |]; simpl.
  - assert (option_map (cons q) (finite_values s) = None <-> finite_values s = None) as ->
      by (destruct (finite_values s); simpl; split; congruence).
    rewrite IH. split; [intros [H|H]; [left|right]; by right|].
    intros [[H|H]|[H|H]]; [discriminate|by left|discriminate|by right].
  - split; [left; by left|done].
  - split; [right; by left|done].
  - rewrite IH. split; [intros [H|H]; [left|right]; by right|].
    intros [[H|H]|[H|H]]; [discriminate|by left|discriminate|by right].
Qed.

Lemma in_qsort x qs : In x (qsort qs) <-> In x qs.
Proof. split; apply Permutation_in; [|symmetry]; apply qsort_perm. Qed.

(** A quantile lies between two values of the data. *)
Lemma quantile_in_range p qs q :
  qs <> [] -> 0 <= p <= 1 -> quantile p (qsort qs) = Some q ->
  exists a b, In a qs /\ In b qs /\ a <= q <= b.
Proof.
  intros Hqs Hp Hq. assert (Hv : qsort qs <> []).
  { intros E. apply Hqs, length_zero_iff_nil. rewrite <- length_qsort, E. done. }
  destruct (quantile_spec p _ Hv Hp) as (lo & t & Hlo & Ht & _ & E).
  rewrite E in Hq. apply (inj Some) in Hq. subst q.
  destruct (quantile_between _ _ _ (qsort_sorted qs) Hlo Ht) as [B1 B2].
  assert (Hn : (0 < length (qsort qs))%nat) by (destruct (qsort qs); [done|simpl; lia]).
  eexists _, _. split_and!; [| |exact B1|exact B2]; apply in_qsort, nth_In; lia.
Qed.

(** ** What [describe()] prints for a column *)

Lemma describe_col_Some s st :
  describe_col s = Some st ->
  exists qs, finite_values s = Some qs /\
    st = mkstats (length qs) (qmean qs) (qvar qs) (qmin qs) (quantile (1 # 4) (qsort qs))
           (quantile (1 # 2) (qsort qs)) (quantile (3 # 4) (qsort qs)) (qmax qs).
Proof.
  unfold describe_col. destruct (finite_values s) as [qs|]; [|done]. intros [= <-]. by exists qs.
Qed.

Lemma describe_col_count s st :
  describe_col s = Some st -> st_count st = (length s - count_null s)%nat.
Proof. intros (qs & Hqs & ->)%describe_col_Some. by apply finite_values_length. Qed.

(** C25. [count] is the number of non-NaN cells, and a column is described
    (within the model) exactly when it holds no infinity. *)
Theorem describe_count s :
  (forall st, describe_col s = Some st -> st_count st = (length s - count_null s)%nat) /\
  (describe_col s = None <-> In PInf s \/ In NInf s).
Proof.
  split.
  - apply describe_col_count.
  - rewrite <- finite_values_None. unfold describe_col.
    destruct (finite_values s); split; done.
Qed.

(** C22. The printed statistics are ordered: min <= 25% <= 50% <= 75% <= max. *)
Theorem describe_ordered s st :
  describe_col s = Some st -> (0 < st_count st)%nat ->
  exists mn q1 q2 q3 mx,
    st_min st = Some mn /\ st_q25 st = Some q1 /\ st_q50 st = Some q2 /\
    st_q75 st = Some q3 /\ st_max st = Some mx /\
    mn <= q1 /\ q1 <= q2 /\ q2 <= q3 /\ q3 <= mx.
Proof.
  intros (qs & _ & ->)%describe_col_Some. simpl. intros Hn.
  assert (Hqs : qs <> []) by (destruct qs; [simpl in Hn; lia|done]).
  assert (Hv : qsort qs <> []).
  { intros E. apply Hqs, length_zero_iff_nil. rewrite <- length_qsort, E. done. }
  destruct qs as [|x qs']; [done|]. set (qs := x :: qs') in *.
  assert (Qu : forall p, 0 <= p <= 1 -> exists q, quantile p (qsort qs) = Some q).
  { intros p Hp. destruct (quantile_spec p _ Hv Hp) as (? & ? & _ & _ & _ & E). by eexists. }
  destruct (Qu (1 # 4) ltac:(split; discriminate)) as [q1 E1].
  destruct (Qu (1 # 2) ltac:(split; discriminate)) as [q2 E2].
  destruct (Qu (3 # 4) ltac:(split; discriminate)) as [q3 E3].
  exists (fold_left Qmin qs' x), q1, q2, q3, (fold_left Qmax qs' x).
  rewrite E1, E2, E3. split_and!; try done.
  - destruct (quantile_in_range (1 # 4) _ _ Hqs ltac:(split; discriminate) E1) as (a & _ & Ha & _ & Hq & _).
    pose proof (fold_min_le qs' x a Ha). lra.
  - apply (quantile_mono (1 # 4) (1 # 2) (qsort qs)); try done; [apply qsort_sorted|discriminate..].
  - apply (quantile_mono (1 # 2) (3 # 4) (qsort qs)); try done; [apply qsort_sorted|discriminate..].
  - destruct (quantile_in_range (3 # 4) _ _ Hqs ltac:(split; discriminate) E3) as (_ & b & _ & Hb & _ & Hq).
    pose proof (fold_max_ge qs' x b Hb). lra.
Qed.


(** C24. The variance is NaN for fewer than two values, and is otherwise a
    non-negative number (so the printed [std] is defined). *)
Theorem describe_var s st :
  describe_col s = Some st ->
  ((st_count st <= 1)%nat /\ st_var st = None) \/
  ((2 <= st_count st)%nat /\ exists v, st_var st = Some v /\ 0 <= v).
Proof.
  intros (qs & _ & ->)%describe_col_Some. simpl.
  destruct qs as [|x [|y qs']]; [left; split; [simpl; lia|reflexivity]..|right].
  split; [simpl; lia|].
  eexists; split; [reflexivity|]. apply Qle_shift_div_l.
  - change 0 with (inject_Z 0). rewrite <- Zlt_Qlt. simpl. lia.
  - rewrite Qmult_0_l. apply qsum_nonneg. apply Forall_map, Forall_true.
    intros z. cbv beta. set (d := _ - z). nra.
Qed.

(** On float columns, [describe] describes each of them, in order. *)
Lemma describe_Ok names df :
  Forall (fun n => has_col n is_num df) names ->
  exists r, describe names df = Ok r /\
    Forall2 (fun n x => exists s, get_num n df = Ok s /\ x = (n, describe_col s)) names r.
Proof.
  unfold describe. induction 1 as [|n names Hn _ (r & Hr & Hall)]; simpl; [by eexists|].
  destruct (has_num_get _ _ Hn) as [s Hs]. rewrite (get_num_col _ _ _ Hs). cbn [res_bind].
  destruct (select_cols names df) as [cs|e]; simpl in Hr; [|done]. injection Hr as <-. simpl.
  eexists; split; [reflexivity|]. constructor; [by exists s|done].
Qed.

(** ** Witnesses *)

(** Four values and a NaN: count 4, quartiles 1.75, 2.5, 3.25. *)
Local Notation sample_stats :=
  (match describe_col [Fin 4; Fin 1; NaN; Fin 3; Fin 2] with
   | Some st => st
   | None => mkstats 0 None None None None None None None
   end).

Lemma describe_ordered_witness :
  exists mn q1 q2 q3 mx,
    st_min sample_stats = Some mn /\ st_q25 sample_stats = Some q1 /\
    st_q50 sample_stats = Some q2 /\ st_q75 sample_stats = Some q3 /\
    st_max sample_stats = Some mx /\ mn <= q1 /\ q1 <= q2 /\ q2 <= q3 /\ q3 <= mx.
Proof. apply (describe_ordered [Fin 4; Fin 1; NaN; Fin 3; Fin 2]); vm_compute; [reflexivity|lia]. Defined.


Lemma describe_var_witness :
  ((st_count sample_stats <= 1)%nat /\ st_var sample_stats = None) \/
  ((2 <= st_count sample_stats)%nat /\ exists v, st_var sample_stats = Some v /\ 0 <= v).
Proof. apply (describe_var [Fin 4; Fin 1; NaN; Fin 3; Fin 2]). vm_compute. reflexivity. Defined.

Lemma head_spec_witness :
  let df := mkframe 2 [("a"%string, ColNum [Fin 1; Fin 2])] in
  frame_wf (head 1 df) /\ nrows (head 1 df) = Nat.min 1 (nrows df) /\
  forall c, get_col c (head 1 df) = res_map (col_take 1) (get_col c df).
Proof. intros df. apply head_spec. repeat constructor. Defined.

End Report.
