(* ===== verification/Samples.v ===== *)
(** * Samples: small tables in the shape of owid-covid-data.csv

    Test data for the witnesses: the column layout [pd.read_csv] produces
    for the OWID file (strings for [location] and [date], float64 for the
    counts), rows ordered by location and then date as in the file. *)

From Stdlib Require Import List String QArith.
From stdpp Require Import base tactics list.
From S2P Require Import Prelude Num Dates Series Frame.
Import ListNotations.

Local Open Scope string_scope.
Local Open Scope Q_scope.

Module Samples.

(** Seven rows: India on two days, Kenya on two days (no data on the
    first, zero counts on the second), Spain (not a target country), and
    the United States on one dated and one undated row. *)
Definition owid : frame :=
  mkframe 7
    [("location", ColStr [Some "India"; Some "India"; Some "Kenya"; Some "Kenya";
                          Some "Spain"; Some "United States"; Some "United States"]);
     ("date", ColStr [Some "2021-04-30"; Some "2021-05-01"; Some "2021-04-30";
                      Some "2021-05-01"; Some "2021-05-01"; Some "2021-05-01"; None]);
     ("total_cases", ColNum [Fin 19000000; Fin 20000000; NaN; Fin 0;
                             Fin 3500000; Fin 32000000; Fin 32100000]);
     ("new_cases", ColNum [NaN; Fin 1000000; NaN; Fin 0; Fin 1000; Fin 50000; NaN]);
     ("total_deaths", ColNum [Fin 210000; Fin 220000; NaN; Fin 0;
                              Fin 78000; Fin 570000; Fin 571000]);
     ("new_deaths", ColNum [NaN; Fin 10000; NaN; Fin 0; Fin 10; Fin 700; NaN]);
     ("total_vaccinations", ColNum [Fin 150000000; NaN; NaN; NaN;
                                    Fin 15000000; Fin 245000000; NaN]);
     ("people_vaccinated", ColNum [Fin 120000000; NaN; NaN; NaN;
                                   Fin 11000000; Fin 147000000; NaN]);
     ("population", ColNum [Fin 1380004385; Fin 1380004385; Fin 53771300; Fin 53771300;
                            Fin 46754783; Fin 331002647; Fin 331002647])].

(** The same table without its [location] column. *)
Definition no_location : frame := mkframe 7 (tl (cols owid)).

(** The same table without its last column, [population]. *)
Definition no_population : frame := mkframe 7 (removelast (cols owid)).

(** The same table with an impossible date on the Spain row. *)
Definition bad_spain_date : frame :=
  set_col "date" (ColStr [Some "2021-04-30"; Some "2021-05-01"; Some "2021-04-30";
                          Some "2021-05-01"; Some "2021-02-30"; Some "2021-05-01"; None]) owid.

(** The same table where India's first row has no [people_vaccinated]. *)
Definition late_vaccination : frame :=
  set_col "people_vaccinated" (ColNum [NaN; Fin 100000000; NaN; NaN;
                                       Fin 11000000; Fin 147000000; NaN]) owid.

(** The same table where Kenya reports [total_vaccinations] on its first
    row: every location's run of rows starts with a figure. *)
Definition kenya_reports : frame :=
  set_col "total_vaccinations" (ColNum [Fin 150000000; NaN; Fin 1000; NaN;
                                        Fin 15000000; Fin 245000000; NaN]) owid.

(** The same table where Kenya's [people_vaccinated] starts on its second
    row, below India's figure: each location's own figures never decrease. *)
Definition kenya_late : frame :=
  set_col "people_vaccinated" (ColNum [Fin 120000000; NaN; NaN; Fin 1000000;
                                       Fin 11000000; Fin 147000000; NaN]) owid.

(** The two count columns of lines 94-95 on three rows: no cases and no
    deaths, deaths reported without cases, and one death in four cases. *)
Definition counts : frame :=
  mkframe 3 [("total_cases", ColNum [Fin 0; Fin 0; Fin 4]);
             ("total_deaths", ColNum [Fin 0; Fin 5; Fin 1])].

(** Two rows: Kenya on 2021-05-01, India only on 2021-04-30. *)
Definition two_rows : frame :=
  mkframe 2
    [("location", ColStr [Some "Kenya"; Some "India"]);
     ("date", ColDate [Some (mkdate 2021 5 1); Some (mkdate 2021 4 30)]);
     ("total_cases", ColNum [Fin 10; Fin 20])].

Lemma owid_wf : frame_wf owid.
Proof. repeat constructor. Qed.

End Samples.
