(* ===== verification/GroupBy.v ===== *)
(** * GroupBy: [df.groupby('location')[cols].last()] (lines 98-103, 167)

    pandas factorizes the key column (missing keys are dropped, the group
    keys are sorted), then makes one pass over the rows: for each row and
    each aggregated column, a non-missing value overwrites the group's
    current value ([group_last] in pandas' libgroupby).  A group with no
    non-missing value gets NaN.  [group_last_ref] states the result
    directly; [group_last] is the one-pass computation with a [gmap].
    [ffill_by] is the per-location forward fill
    [df.groupby('location')[c].ffill()] that spec section 4.2 asks for;
    [ffill_by_agrees] says when the script's ungrouped fill equals it. *)

From Stdlib Require Import List String Lia Sorted.
From stdpp Require Import base tactics list gmap strings.
From S2P Require Import Prelude Num Series Frame.
Import ListNotations.

Module GroupBy.

(** Insert a key into a strictly increasing list of keys, once. *)
Fixpoint insert_key (k : string) (ks : list string) : list string :=
  match ks with
  | [] => [k]
  | k' :: ks' =>
      match String.compare k k' with
      | Lt => k :: ks
      | Eq => ks
      | Gt => k' :: insert_key k ks'
      end
  end.

(** The sorted, distinct, non-missing keys ([sort=True, dropna=True]). *)
Definition group_keys (keys : list (option string)) : list string :=
  fold_left (fun acc o => match o with Some k => insert_key k acc | None => acc end) keys [].

(** The values of the rows whose key is [k], in row order. *)
Definition group_rows (k : string) (keys : list (option string)) (vals : list num) : list num :=
  filter_mask (map (fun o => if decide (o = Some k) then true else false) keys) vals.

(** Reference: each group's last non-missing value. *)
Definition group_last_ref (keys : list (option string)) (vals : list num) : list (string * num) :=
  map (fun k => (k, last_valid (group_rows k keys vals))) (group_keys keys).

(** One pass: a present value of a row overwrites its group's entry. *)
Fixpoint last_pass (acc : gmap string num) (keys : list (option string)) (vals : list num)
  : gmap string num :=
  match keys, vals with
  | Some k :: keys', v :: vals' =>
      last_pass (if isnull v then acc else <[k := v]> acc) keys' vals'
  | None :: keys', _ :: vals' => last_pass acc keys' vals'
  | _, _ => acc
  end.

Definition group_last (keys : list (option string)) (vals : list num) : list (string * num) :=
  let m := last_pass ∅ keys vals in
  map (fun k => (k, match m !! k with Some v => v | None => NaN end)) (group_keys keys).

(** The forward fill spec section 4.2 asks for,
    [df.groupby('location')[c].ffill()]: a missing cell takes the last
    present value among the rows above it of the same location; a row
    without a location gets NaN. *)
Definition ffill_by (keys : list (option string)) (s : list num) : list num :=
  map (fun i =>
         match keys !! i, s !! i with
         | Some (Some k), Some x =>
             if isnull x then last_valid (group_rows k (take i keys) (take i s)) else x
         | _, _ => NaN
         end) (seq 0 (length s)).

(** ** The one pass computes the reference *)

Definition str_lt (a b : string) : Prop := String.compare a b = Lt.

Lemma last_pass_lookup acc keys vals k :
  last_pass acc keys vals !! k =
  match last_where (fun x => negb (isnull x)) (group_rows k keys vals) with
  | Some v => Some v
  | None => acc !! k
  end.
Proof.
  unfold group_rows. revert acc vals.
  induction keys as [|[k'|] keys IH]; intros acc [|v vals]; simpl; try done.
  - rewrite IH. destruct (decide (Some k' = Some k)) as [[= ->]|Hne]; simpl.
    + destruct (last_where _ _); [done|]. destruct (isnull v); simpl; [done|].
      by rewrite lookup_insert_eq.
    + destruct (last_where _ _); [done|]. destruct (isnull v); [done|].
      rewrite lookup_insert_ne; [done|]. congruence.
Qed.

(** The entry of a group after the pass is its last present value. *)
Lemma last_pass_value keys vals k :
  match last_pass ∅ keys vals !! k with Some v => v | None => NaN end =
  last_valid (group_rows k keys vals).
Proof.
  rewrite last_pass_lookup, lookup_empty. unfold last_valid. by destruct (last_where _ _).
Qed.

(** C9. The single pass over the rows that pandas makes gives, for every
    group, its last non-missing value: the optimised computation equals
    the reference definition. *)
Theorem group_last_eq_ref keys vals : group_last keys vals = group_last_ref keys vals.
Proof.
  unfold group_last, group_last_ref. apply map_ext. intros k. f_equal. apply last_pass_value.
Qed.

(** ** The script's fill and the per-location fill *)

Lemma last_valid_snoc l x : last_valid (l ++ [x]) = if isnull x then last_valid l else x.
Proof. unfold last_valid. rewrite last_where_snoc. by destruct (isnull x). Qed.

Lemma group_rows_snoc k keys vals o x :
  length keys = length vals ->
  group_rows k (keys ++ [o]) (vals ++ [x]) =
  group_rows k keys vals ++ (if decide (o = Some k) then [x] else []).
Proof.
  intros Hl. unfold group_rows. rewrite map_app, filter_mask_app by (rewrite length_map; done).
  simpl. by case_decide.
Qed.

Lemma ffill_by_lookup keys s i k x :
  keys !! i = Some (Some k) -> s !! i = Some x ->
  ffill_by keys s !! i =
  Some (if isnull x then last_valid (group_rows k (take i keys) (take i s)) else x).
Proof.
  intros Hk Hx. unfold ffill_by. rewrite list_lookup_fmap, lookup_seq_lt
    by (eapply lookup_lt_Some; eauto). simpl. by rewrite Hk, Hx.
Qed.

(** Filling a missing cell repeats the fill of the cell above it. *)
Lemma ffill_missing_above s i x :
  s !! S i = Some x -> isnull x = true -> ffill s !! S i = ffill s !! i.
Proof.
  intros Hx Hn. pose proof (lookup_lt_Some _ _ _ Hx) as Hi. unfold ffill.
  rewrite !ffill_from_lookup by lia. f_equal.
  rewrite (take_S_r _ _ _ Hx). unfold carry. by rewrite last_where_snoc, Hn.
Qed.

(** The script's ungrouped fill is the per-location fill as long as no
    missing cell opens a run of rows of one location: every missing cell
    below the first row has the location of the row above it. *)
Lemma ffill_by_agrees keys s :
  length keys = length s -> Forall (fun o => o <> None) keys ->
  (forall i x, s !! S i = Some x -> isnull x = true -> keys !! i = keys !! S i) ->
  ffill s = ffill_by keys s.
Proof.
  intros Hl Hkeys Hrun. apply list_eq. intros i.
  destruct (s !! i) as [x|] eqn:Hx;
    [|rewrite !lookup_ge_None_2; [done|unfold ffill_by; rewrite length_map, length_seq
      |rewrite length_ffill]; by apply lookup_ge_None_1].
  destruct (keys !! i) as [[k|]|] eqn:Hk;
    [|exfalso; by apply (Forall_lookup_1 _ _ _ _ Hkeys Hk)
     |apply lookup_ge_None_1 in Hk; apply lookup_lt_Some in Hx; lia].
  rewrite (ffill_by_lookup _ _ _ _ _ Hk Hx).
  revert k x Hk Hx. induction i as [|i IH]; intros k x Hk Hx.
  - destruct (isnull x) eqn:Hn; [|by apply ffill_keeps_present].
    apply ffill_missing_iff; [by eapply lookup_lt_Some|]. rewrite (take_S_r _ _ _ Hx), take_0. by constructor.
  - destruct (isnull x) eqn:Hn; [|by apply ffill_keeps_present].
    rewrite (ffill_missing_above _ _ _ Hx Hn).
    pose proof (Hrun _ _ Hx Hn) as Hki. rewrite Hk in Hki.
    destruct (lookup_lt_is_Some_2 s i) as [y Hy]; [apply lookup_lt_Some in Hx; lia|].
    rewrite (IH k y Hki Hy).
    rewrite (take_S_r _ _ _ Hki), (take_S_r _ _ _ Hy), group_rows_snoc
      by (rewrite !length_take; lia).
    rewrite decide_True by done. rewrite last_valid_snoc. done.
Qed.

(** ** The group keys *)

Lemma ascii_compare_trans a b c :
  Ascii.compare a b = Lt -> Ascii.compare b c = Lt -> Ascii.compare a c = Lt.
Proof. unfold Ascii.compare. rewrite !N.compare_lt_iff. lia. Qed.

Lemma ascii_compare_eq a b : Ascii.compare a b = Eq -> a = b.
Proof. apply Ascii.compare_eq_iff. Qed.

Lemma str_lt_trans a b c : str_lt a b -> str_lt b c -> str_lt a c.
Proof.
  unfold str_lt. revert b c; induction a as [|x a IH]; intros [|y b] [|z c]; simpl; try done.
  intros H1 H2. destruct (Ascii.compare x y) eqn:Exy; try discriminate.
  - apply ascii_compare_eq in Exy. subst y.
    destruct (Ascii.compare x z); try discriminate; eauto.
  - destruct (Ascii.compare y z) eqn:Eyz; try discriminate.
    + apply ascii_compare_eq in Eyz. subst z. by rewrite Exy.
    + by rewrite (ascii_compare_trans _ _ _ Exy Eyz).
Qed.

#[export] Instance str_lt_Transitive : Transitive str_lt.
Proof. intros ???. apply str_lt_trans. Qed.

Lemma str_lt_irrefl a : ~ str_lt a a.
Proof.
  unfold str_lt. intros H. pose proof (String.compare_antisym a a) as E.
  rewrite H in E. discriminate.
Qed.

Lemma insert_key_in k ks x : In x (insert_key k ks) <-> k = x \/ In x ks.
Proof.
  induction ks as [|k' ks IH]; simpl; [tauto|].
  destruct (String.compare k k') eqn:E; simpl.
  - apply String.compare_eq_iff in E. subst. tauto.
  - tauto.
  - rewrite IH. tauto.
Qed.

Lemma insert_key_sorted k ks : Sorted str_lt ks -> Sorted str_lt (insert_key k ks).
Proof.
  induction 1 as [|k' ks Hs IH Hhd]; simpl; [repeat constructor|].
  destruct (String.compare k k') eqn:E.
  - by constructor.
  - constructor; [by constructor|]. by constructor.
  - constructor; [done|]. destruct ks as [|k'' ks]; simpl.
    + constructor. unfold str_lt. rewrite String.compare_antisym, E. done.
    + apply HdRel_inv in Hhd. destruct (String.compare k k''); constructor; try done.
      unfold str_lt. rewrite String.compare_antisym, E. done.
Qed.

Lemma group_keys_fold_spec keys acc :
  Sorted str_lt acc ->
  Sorted str_lt (fold_left (fun acc o => match o with Some k => insert_key k acc | None => acc end) keys acc) /\
  forall x, In x (fold_left (fun acc o => match o with Some k => insert_key k acc | None => acc end) keys acc) <->
            In x acc \/ In (Some x) keys.
Proof.
  revert acc; induction keys as [|[k|] keys IH]; intros acc Hacc; simpl.
  - split; [done|]. tauto.
  - destruct (IH (insert_key k acc) (insert_key_sorted _ _ Hacc)) as [Hs Hin].
    split; [done|]. intros x. rewrite Hin, insert_key_in. intuition congruence.
  - destruct (IH acc Hacc) as [Hs Hin]. split; [done|]. intros x. rewrite Hin. intuition congruence.
Qed.

(** The group keys are the present keys of the column, each once, in
    increasing order. *)
Lemma group_keys_exact keys :
  StronglySorted str_lt (group_keys keys) /\ NoDup (group_keys keys) /\
  forall k, In k (group_keys keys) <-> In (Some k) keys.
Proof.
  destruct (group_keys_fold_spec keys [] (Sorted_nil _)) as [Hs Hin].
  assert (StronglySorted str_lt (group_keys keys)) as Hss by (apply Sorted_StronglySorted; [exact str_lt_Transitive|exact Hs]).
  assert (forall k, In k (group_keys keys) <-> In (Some k) keys) as Hk.
  { intros k. unfold group_keys. rewrite Hin. simpl. tauto. }
  split; [done|]. split; [|done].
  clear - Hss. induction Hss as [|k ks _ IH Hall]; constructor; [|exact IH].
  intros Hin%list_elem_of_In. rewrite List.Forall_forall in Hall. exact (str_lt_irrefl k (Hall k Hin)).
Qed.

(** C10. The group keys are the present keys of the column, each once, in
    increasing order. *)
Theorem group_keys_spec : forall keys,
  StronglySorted str_lt (group_keys keys) /\ NoDup (group_keys keys) /\
  forall k, In k (group_keys keys) <-> In (Some k) keys.
Proof. exact group_keys_exact. Qed.

End GroupBy.
