(* ===== verification/Cleaner.v ===== *)
(** * Cleaner: section 3 of the script (lines 58-74)

    [clean] is the sequence of assignments the script makes to [df]:
    convert [date] with [pd.to_datetime] (line 59), keep the rows whose
    [location] is one of the three countries (62-63), drop the rows with a
    missing [date] or [location] (66), fill the four case/death columns
    with 0 (69-72) and forward-fill the two vaccination columns (73-74).
    Each step is a pandas call on the whole table and may raise. *)

From Stdlib Require Import List String QArith Lia.
From stdpp Require Import base tactics list strings.
From S2P Require Import Prelude Num Dates Series Frame Samples GroupBy.
Import ListNotations.

Local Open Scope string_scope.

Module Cleaner.

(** [countries] (line 62) *)
Definition countries : list string := ["Kenya"; "United States"; "India"].

(** [df['date'] = pd.to_datetime(df['date'])] (line 59) *)
Definition convert_dates (df : frame) : result frame :=
  s <-? get_str "date" df ;;
  ds <-? to_datetime s ;;
  Ok (set_col "date" (ColDate ds) df).

(** [df = df[df['location'].isin(countries)]] (line 63) *)
Definition filter_countries (df : frame) : result frame :=
  locs <-? get_str "location" df ;;
  Ok (mask_frame (isin locs countries) df).

(** [df[c] = df[c].fillna(0)] (lines 69-72) *)
Definition fill_zero (c : string) (df : frame) : result frame :=
  update_num (fillna (Fin 0%Q)) c df.

(** [df[c] = df[c].fillna(method='ffill')] (lines 73-74): one pass over
    the whole column, in row order, across all locations. *)
Definition ffill_col (c : string) (df : frame) : result frame :=
  update_num ffill c df.

(** Lines 58-74, in the order of the script. *)
Definition clean (df : frame) : result frame :=
  df <-? convert_dates df ;;
  df <-? filter_countries df ;;
  df <-? dropna_subset ["date"; "location"] df ;;
  df <-? fill_zero "total_cases" df ;;
  df <-? fill_zero "new_cases" df ;;
  df <-? fill_zero "total_deaths" df ;;
  df <-? fill_zero "new_deaths" df ;;
  df <-? ffill_col "total_vaccinations" df ;;
  ffill_col "people_vaccinated" df.

(** ** The cleaned table *)

Definition in_countries (o : option string) : Prop := exists x, o = Some x /\ In x countries.

Definition count_cols : list string := ["total_cases"; "new_cases"; "total_deaths"; "new_deaths"].

(** What section 3 promises of the table it leaves (spec sections 3, 8). *)
Definition cleaned (df : frame) : Prop :=
  frame_wf df /\
  has_col "location" (str_col in_countries) df /\
  has_col "date" (date_col (fun o => exists d, o = Some d /\ good_cell o = true)) df /\
  Forall (fun c => has_col c (num_col (fun x => isnull x = false)) df) count_cols.

(** The table after the dropna step, with the columns of [filled] already
    filled with 0. *)
Definition cleaned_upto (filled : list string) (df : frame) : Prop :=
  frame_wf df /\
  has_col "location" (str_col in_countries) df /\
  has_col "date" (date_col (fun o => exists d, o = Some d /\ good_cell o = true)) df /\
  Forall (fun c => has_col c (num_col (fun x => isnull x = false)) df) filled.

Definition filled_cols : list string :=
  ["total_cases"; "new_cases"; "total_deaths"; "new_deaths"; "total_vaccinations"; "people_vaccinated"].

(** The columns section 3 needs, with the dtypes it needs: [date] as text
    that [pd.to_datetime] accepts, [location] as text, the six count
    columns as floats. *)
Definition clean_schema (df : frame) : Prop :=
  (exists strs ds, get_str "date" df = Ok strs /\ to_datetime strs = Ok ds) /\
  has_col "location" is_str df /\
  Forall (fun c => has_col c is_num df) filled_cols.

(** The rows kept by lines 63 and 66: a target location and a date. *)
Definition keep (locs : list (option string)) (ds : list (option date)) : list bool :=
  zip_with andb (isin locs countries) (zip_with andb (notna ds) (notna locs)).

Definition filled_updates : list ((list num -> list num) * string) :=
  [(fillna (Fin 0%Q), "total_cases"); (fillna (Fin 0%Q), "new_cases");
   (fillna (Fin 0%Q), "total_deaths"); (fillna (Fin 0%Q), "new_deaths");
   (ffill, "total_vaccinations"); (ffill, "people_vaccinated")].

Lemma convert_dates_spec df df' :
  frame_wf df -> convert_dates df = Ok df' ->
  frame_wf df' /\ has_col "date" (date_col (fun o => good_cell o = true)) df' /\
  (forall n P, n <> "date" -> has_col n P df -> has_col n P df').
Proof.
  unfold convert_dates. intros Hwf H. res_inv.
  apply to_datetime_Ok in H0. split_and!.
  - apply set_col_wf; [done|]. simpl. rewrite <- (Forall2_length _ _ _ H0).
    apply (get_col_length df "date" (ColStr x)); [done|].
    unfold get_str in H. res_inv. by destruct x1; simplify_eq.
  - apply has_col_set_eq. simpl. apply Forall_forall. intros od Hin.
    apply list_elem_of_In, (Forall2_in_r _ _ _ _ H0) in Hin as [c [_ Hc]].
    by eapply to_datetime_cell_good.
  - intros n P Hn. by apply has_col_set_ne.
Qed.

Lemma filter_countries_spec df df' :
  frame_wf df -> filter_countries df = Ok df' ->
  frame_wf df' /\ has_col "location" (str_col in_countries) df' /\
  (forall n P, filter_stable P -> has_col n P df -> has_col n P df').
Proof.
  unfold filter_countries. intros Hwf H. res_inv. split_and!.
  - apply mask_frame_wf; [done|]. unfold isin. rewrite length_map.
    apply (get_col_length df "location" (ColStr x)); [done|]. by apply get_str_col.
  - exists (ColStr (filter_mask (isin x countries) x)).
    rewrite get_col_mask, (get_str_col _ _ _ H). split; [done|]. simpl.
    unfold isin. rewrite filter_mask_self. apply Forall_forall.
    intros o Hin. apply list_elem_of_In, filter_In in Hin as [_ Hin].
    destruct o as [l|]; [|done]. destruct (in_dec string_dec l countries); [|done].
    by exists l.
  - intros n P HP Hn. by apply has_col_mask.
Qed.

Lemma date_col_present c :
  date_col (fun o => good_cell o = true) c -> Forall (fun b => b = true) (col_notna c) ->
  date_col (fun o => exists d, o = Some d /\ good_cell o = true) c.
Proof.
  destruct c as [| |s]; simpl; try done. unfold notna. rewrite Forall_map.
  intros H1 H2. pose proof (proj2 (Forall_and _ _) (conj H1 H2)) as H.
  eapply Forall_impl; [exact H|]. intros [d|] [? ?]; [eauto|done].
Qed.

Lemma dropna_cleaned df df' :
  frame_wf df -> has_col "location" (str_col in_countries) df ->
  has_col "date" (date_col (fun o => good_cell o = true)) df ->
  dropna_subset ["date"; "location"] df = Ok df' -> cleaned_upto [] df'.
Proof.
  intros Hwf Hloc Hdate H. split_and!; [by eapply dropna_subset_wf | by eapply has_col_dropna;
    eauto with pd | | constructor].
  eapply has_col_dropna in Hdate as [c [Hc Pc]]; [|auto with pd|exact H].
  exists c. split; [done|]. apply date_col_present; [done|].
  eapply dropna_subset_cols_notna; [exact Hwf|exact H|by left|exact Hc].
Qed.

Lemma fill_zero_cleaned filled c df df' :
  c <> "location" -> c <> "date" ->
  cleaned_upto filled df -> fill_zero c df = Ok df' -> cleaned_upto (c :: filled) df'.
Proof.
  intros Hl Hd (Hwf & Hloc & Hdate & Hf) H. unfold fill_zero in H.
  assert (Hc : has_col c (num_col (fun x => isnull x = false)) df').
  { eapply has_col_update_eq; [|exact H]. intros s. apply Forall_forall.
    intros x Hx. apply list_elem_of_In, in_map_iff in Hx as [y [<- _]]. by apply isnull_fill_value. }
  split_and!; eauto using update_num_wf, length_fillna with pd.
  constructor; [done|]. eapply Forall_impl; [exact Hf|]. intros c' Hc'.
  destruct (string_dec c c') as [<-|Hne]; [done|]. eauto with pd.
Qed.

Lemma ffill_col_cleaned filled c df df' :
  c <> "location" -> c <> "date" -> ~ In c filled ->
  cleaned_upto filled df -> ffill_col c df = Ok df' -> cleaned_upto filled df'.
Proof.
  intros Hl Hd Hnf (Hwf & Hloc & Hdate & Hf) H. unfold ffill_col in H.
  split_and!; eauto using update_num_wf, length_ffill with pd.
  apply Forall_forall. intros c' Hc'%list_elem_of_In.
  rewrite Forall_forall in Hf. apply list_elem_of_In in Hc'.
  assert (c <> c') by (intros ->; apply Hnf; by apply list_elem_of_In).
  eauto with pd.
Qed.

(** Split the first pandas call off a successful sequence. *)
Ltac res_step H d Hd := apply res_bind_Ok in H as (d & Hd & H).

(** Section 3 leaves a well-formed table in which every row has a
    location among [Kenya], [United States], [India], a real calendar date
    (never NaT), and no missing value in [total_cases], [new_cases],
    [total_deaths] and [new_deaths] (spec section 8, first three bullets). *)
Lemma clean_invariant df df' : frame_wf df -> clean df = Ok df' -> cleaned df'.
Proof.
  unfold clean. intros Hwf H.
  res_step H d1 H1. res_step H d2 H2. res_step H d3 H3. res_step H d4 H4.
  res_step H d5 H5. res_step H d6 H6. res_step H d7 H7. res_step H d8 H8.
  destruct (convert_dates_spec _ _ Hwf H1) as (W1 & D1 & _).
  destruct (filter_countries_spec _ _ W1 H2) as (W2 & L2 & O2).
  pose proof (dropna_cleaned _ _ W2 L2 (O2 _ _ (date_col_stable _) D1) H3) as C3.
  apply (fill_zero_cleaned _ "total_cases" _ _ ltac:(discriminate) ltac:(discriminate) C3) in H4.
  apply (fill_zero_cleaned _ "new_cases" _ _ ltac:(discriminate) ltac:(discriminate) H4) in H5.
  apply (fill_zero_cleaned _ "total_deaths" _ _ ltac:(discriminate) ltac:(discriminate) H5) in H6.
  apply (fill_zero_cleaned _ "new_deaths" _ _ ltac:(discriminate) ltac:(discriminate) H6) in H7.
  apply (ffill_col_cleaned ["new_deaths"; "total_deaths"; "new_cases"; "total_cases"] "total_vaccinations" _ _ ltac:(discriminate) ltac:(discriminate)
    ltac:(simpl; intuition discriminate) H7) in H8.
  apply (ffill_col_cleaned ["new_deaths"; "total_deaths"; "new_cases"; "total_cases"] "people_vaccinated" _ _ ltac:(discriminate) ltac:(discriminate)
    ltac:(simpl; intuition discriminate) H8) in H.
  destruct H as (W & L & D & F). split_and!; try done.
  rewrite Forall_forall in F |- *. intros c Hc. apply F.
  apply list_elem_of_In in Hc. apply list_elem_of_In. simpl in *. intuition.
Qed.

(** C1. Section 3 leaves a well-formed table in which every row has a
    location among [Kenya], [United States], [India], a real calendar date
    (never NaT), and no missing value in [total_cases], [new_cases],
    [total_deaths] and [new_deaths] (spec section 8, first three bullets). *)
Theorem clean_cleaned : forall df df',
  frame_wf df -> clean df = Ok df' -> cleaned df'.
Proof. exact clean_invariant. Qed.

(** ** When section 3 runs to its end *)

Ltac num_step :=
  match goal with
  | Hn : Forall (fun c' => has_col c' is_num ?d) filled_cols
    |- context [update_num ?f ?c ?d] =>
      let d' := fresh "d" in let Hd := fresh "Hd" in
      destruct (update_num_Ok f c d) as [d' Hd];
        [rewrite Forall_forall in Hn; apply Hn; apply list_elem_of_In; simpl; tauto|];
      rewrite Hd; cbn [res_bind]; apply (update_num_keeps_num _ _ _ _ _ Hd) in Hn
  end.

(** Section 3 raises no exception on a table with the columns it
    uses, of the right dtypes, whose dates all parse. *)
Lemma clean_total df :
  frame_wf df -> clean_schema df -> exists df', clean df = Ok df'.
Proof.
  intros Hwf ((strs & ds & Hs & Hds) & Hloc & Hn). unfold clean, convert_dates.
  rewrite Hs. cbn [res_bind]. rewrite Hds. cbn [res_bind]. set (d1 := set_col "date" (ColDate ds) df).
  assert (Hloc1 : has_col "location" is_str d1) by (apply has_col_set_ne; [done|exact Hloc]).
  assert (Hn1 : Forall (fun c => has_col c is_num d1) filled_cols).
  { eapply Forall_impl; [exact Hn|]. intros c Hc. apply has_col_set_ne; [|done].
    intros <-. destruct Hc as [[] [Hc Hk]]; try done. unfold get_col in Hc. clear - Hs Hc.
    unfold get_str, get_col in Hs. rewrite Hc in Hs. discriminate. }
  destruct (has_str_get _ _ Hloc1) as [locs Hl]. unfold filter_countries. rewrite Hl. cbn [res_bind].
  set (d2 := mask_frame (isin locs countries) d1).
  destruct (dropna_subset_Ok ["date"; "location"] d2) as [d3 Hd3].
  { repeat constructor.
    - apply has_col_mask; [done|]. exists (ColDate ds). split; [|done].
      unfold d1. by rewrite get_col_set_col, String.eqb_refl.
    - apply has_col_mask; [done|]. eauto with pd. }
  rewrite Hd3. cbn [res_bind].
  apply (Forall_has_col_mask _ _ (isin locs countries)) in Hn1; [|auto with pd].
  apply (Forall_has_col_dropna _ _ _ _ _ is_num_stable Hd3) in Hn1.
  unfold fill_zero, ffill_col.
  do 6 num_step. by eexists.
Qed.

(** Follow a column back through the numeric updates that made it. *)
Ltac upd_back :=
  match goal with
  | H : update_num _ ?c ?d = Ok ?d' |- has_col ?n _ ?d' =>
      first [ exact (has_col_update_num _ c d d' H)
            | apply (has_col_update_ne _ c n _ d d' ltac:(discriminate) H) ]
  end.

(** What section 3 leaves of the other columns: the six filled columns
    are float columns, and a column it does not assign keeps every
    row-wise property (on the rows it keeps). *)
Lemma clean_keeps df df' :
  frame_wf df -> clean df = Ok df' ->
  Forall (fun c => has_col c is_num df') filled_cols /\
  forall n P, filter_stable P -> n <> "date" -> ~ In n filled_cols ->
    has_col n P df -> has_col n P df'.
Proof.
  unfold clean. intros Hwf H.
  res_step H d1 H1. res_step H d2 H2. res_step H d3 H3. res_step H d4 H4.
  res_step H d5 H5. res_step H d6 H6. res_step H d7 H7. res_step H d8 H8.
  destruct (convert_dates_spec _ _ Hwf H1) as (W1 & _ & O1).
  destruct (filter_countries_spec _ _ W1 H2) as (W2 & _ & O2).
  split.
  - unfold fill_zero, ffill_col in *. repeat constructor; repeat upd_back.
  - intros n P HP Hd Hn Hc. unfold fill_zero, ffill_col in *.
    assert (forall c, In c filled_cols -> c <> n) as Hne by (intros c Hc' ->; tauto).
    eapply has_col_update_ne; [|exact H|]; [apply Hne; simpl; tauto|].
    eapply has_col_update_ne; [|exact H8|]; [apply Hne; simpl; tauto|].
    eapply has_col_update_ne; [|exact H7|]; [apply Hne; simpl; tauto|].
    eapply has_col_update_ne; [|exact H6|]; [apply Hne; simpl; tauto|].
    eapply has_col_update_ne; [|exact H5|]; [apply Hne; simpl; tauto|].
    eapply has_col_update_ne; [|exact H4|]; [apply Hne; simpl; tauto|].
    eapply has_col_dropna; [exact HP|exact H3|]. eauto.
Qed.

(** ** Which rows section 3 keeps, and what their cells become *)

Lemma to_datetime_length strs ds : to_datetime strs = Ok ds -> length ds = length strs.
Proof. intros H%to_datetime_Ok. symmetry. by eapply Forall2_length. Qed.

Lemma clean_rows df df' :
  frame_wf df -> clean df = Ok df' ->
  exists strs ds locs d3,
    get_str "date" df = Ok strs /\ to_datetime strs = Ok ds /\ get_str "location" df = Ok locs /\
    rows_of (keep locs ds) (set_col "date" (ColDate ds) df) d3 /\
    (d4 <-? fill_zero "total_cases" d3 ;;
     d5 <-? fill_zero "new_cases" d4 ;;
     d6 <-? fill_zero "total_deaths" d5 ;;
     d7 <-? fill_zero "new_deaths" d6 ;;
     d8 <-? ffill_col "total_vaccinations" d7 ;;
     ffill_col "people_vaccinated" d8) = Ok df'.
Proof.
  unfold clean. intros Hwf H. res_step H d1 H1. res_step H d2 H2. res_step H d3 H3.
  unfold convert_dates in H1. res_step H1 strs Hs. res_step H1 ds Hds. injection H1 as <-.
  unfold filter_countries in H2. res_step H2 locs Hl. injection H2 as <-.
  rewrite get_str_set_col_ne in Hl by done.
  set (d1 := set_col "date" (ColDate ds) df) in *.
  pose proof (get_str_length _ _ _ Hwf Hs) as Hls.
  pose proof (get_str_length _ _ _ Hwf Hl) as Hll.
  pose proof (to_datetime_length _ _ Hds) as Hld.
  assert (Hwf1 : frame_wf d1) by (apply set_col_wf; [done|]; simpl; lia).
  exists strs, ds, locs, d3. split_and!; try done.
  unfold dropna_subset in H3. res_step H3 m2 Hm2. injection H3 as <-.
  cbn [notna_all] in Hm2. rewrite !get_col_mask in Hm2.
  assert (Gd : get_col "date" d1 = Ok (ColDate ds))
    by (unfold d1; by rewrite get_col_set_col, String.eqb_refl).
  assert (Gl : get_col "location" d1 = Ok (ColStr locs))
    by (unfold d1; rewrite get_col_set_col_ne by done; by apply get_str_col).
  rewrite Gd, Gl in Hm2. cbn [res_map res_bind col_notna filter_col nrows mask_frame] in Hm2.
  injection Hm2 as <-.
  assert (Hm1 : length (isin locs countries) = nrows df) by (unfold isin; rewrite length_map; lia).
  unfold notna. rewrite <- !filter_mask_map, repeat_true_filter_mask, Hm1.
  rewrite (zip_with_andb_filter_mask _ (map _ locs)) by (rewrite ?length_map, ?repeat_length; lia).
  rewrite zip_with_andb_filter_mask by (rewrite ?length_map, ?length_zip_with, ?length_map, ?repeat_length; lia).
  rewrite (zip_with_andb_repeat_true (map _ locs)) by (rewrite length_map; lia).
  apply rows_of_mask_mask; [done|simpl; lia|].
  rewrite length_zip_with, !length_map. simpl. lia.
Qed.

Lemma filled_updates_nodup : NoDup (map snd filled_updates).
Proof. apply (bool_decide_unpack _). vm_compute. exact I. Qed.

Lemma get_num_rows_of keep d d' c :
  rows_of keep d d' -> get_num c d' = res_map (filter_mask keep) (get_num c d).
Proof.
  intros [_ Hc]. unfold get_num. rewrite Hc. by destruct (get_col c d) as [[]|].
Qed.

(** Section 3, column by column: it keeps, in their order, the rows
    whose location is a target country and whose date is present; on
    those rows [date] is the converted date, the four case and death
    columns have their gaps replaced by 0, the two vaccination columns are
    forward-filled as one series over all kept rows (not per location),
    and every other column is unchanged. *)
Lemma clean_refines df df' :
  frame_wf df -> clean df = Ok df' ->
  exists strs ds locs,
    get_str "date" df = Ok strs /\ to_datetime strs = Ok ds /\ get_str "location" df = Ok locs /\
    let k := keep locs ds in
    nrows df' = count_true k /\
    get_date "date" df' = Ok (filter_mask k ds) /\
    get_str "location" df' = Ok (filter_mask k locs) /\
    (forall f c, In (f, c) filled_updates ->
       exists s, get_num c df = Ok s /\ get_num c df' = Ok (f (filter_mask k s))) /\
    (forall c, c <> "date" -> ~ In c filled_cols ->
       get_col c df' = res_map (filter_col k) (get_col c df)).
Proof.
  intros Hwf H. destruct (clean_rows _ _ Hwf H) as (strs & ds & locs & d3 & Hs & Hds & Hl & [Hn Hrows] & Hup).
  assert (Hup' : update_all filled_updates d3 = Ok df').
  { unfold fill_zero, ffill_col in Hup.
    res_step Hup e4 E4. res_step Hup e5 E5. res_step Hup e6 E6. res_step Hup e7 E7. res_step Hup e8 E8.
    cbn [update_all filled_updates]. rewrite E4. cbn [res_bind]. rewrite E5. cbn [res_bind].
    rewrite E6. cbn [res_bind]. rewrite E7. cbn [res_bind]. rewrite E8. cbn [res_bind].
    by rewrite Hup. }
  clear Hup. rename Hup' into Hup.
  assert (Hother : forall c, ~ In c filled_cols -> get_col c df' = get_col c d3 /\ nrows df' = nrows d3)
    by (intros c Hc; by apply (update_all_other _ _ _ _ Hup)).
  exists strs, ds, locs. cbv zeta. split_and!; try done.
  - rewrite (proj2 (Hother "date" ltac:(simpl; intuition discriminate))). done.
  - unfold get_date. rewrite (proj1 (Hother "date" ltac:(simpl; intuition discriminate))), Hrows.
    by rewrite get_col_set_col, String.eqb_refl.
  - unfold get_str. rewrite (proj1 (Hother "location" ltac:(simpl; intuition discriminate))), Hrows.
    rewrite get_col_set_col_ne by done. rewrite (get_str_col _ _ _ Hl). done.
  - intros f c Hin. destruct (update_all_self _ _ _ _ _ Hup filled_updates_nodup Hin)
      as (s & Hs3 & Hs').
    rewrite (get_num_rows_of _ _ _ _ (conj Hn Hrows)) in Hs3.
    destruct (get_num c (set_col "date" (ColDate ds) df)) as [s0|] eqn:E; [|done].
    injection Hs3 as <-. exists s0. split; [|done].
    rewrite <- E. unfold get_num. rewrite get_col_set_col_ne; [done|].
    intros <-. simpl in Hin. intuition discriminate.
  - intros c Hc Hf. rewrite (proj1 (Hother c Hf)), Hrows, get_col_set_col_ne; done.
Qed.

(** C2. Section 3, column by column: it keeps, in their order, the rows
    whose location is a target country and whose date is present; on
    those rows [date] is the converted date, the four case and death
    columns have their gaps replaced by 0, the two vaccination columns are
    forward-filled as one series over all kept rows (not per location),
    and every other column is unchanged. *)
Theorem clean_spec : forall df df',
  frame_wf df -> clean df = Ok df' ->
  exists strs ds locs,
    get_str "date" df = Ok strs /\ to_datetime strs = Ok ds /\ get_str "location" df = Ok locs /\
    let k := keep locs ds in
    nrows df' = count_true k /\
    get_date "date" df' = Ok (filter_mask k ds) /\
    get_str "location" df' = Ok (filter_mask k locs) /\
    (forall f c, In (f, c) filled_updates ->
       exists s, get_num c df = Ok s /\ get_num c df' = Ok (f (filter_mask k s))) /\
    (forall c, c <> "date" -> ~ In c filled_cols ->
       get_col c df' = res_map (filter_col k) (get_col c df)).
Proof. exact clean_refines. Qed.

(** The sample table cleans, and the result satisfies [cleaned]. *)
Lemma clean_cleaned_witness :
  exists df', clean Samples.owid = Ok df' /\ cleaned df'.
Proof.
  exists (match clean Samples.owid with Ok d => d | Err _ => Samples.owid end).
  split; [vm_compute; reflexivity|].
  apply (clean_cleaned Samples.owid); [apply Samples.owid_wf | vm_compute; reflexivity].
Defined.


(** C27. When, among the rows section 3 keeps, every missing vaccination
    figure has the location of the row above it, the ungrouped forward fill
    of lines 73-74 is the per-location fill of spec section 4.2. *)
Theorem clean_ffill_grouped df df' strs ds locs c s :
  frame_wf df -> clean df = Ok df' ->
  get_str "date" df = Ok strs -> to_datetime strs = Ok ds -> get_str "location" df = Ok locs ->
  In c ["total_vaccinations"; "people_vaccinated"] -> get_num c df = Ok s ->
  let k := keep locs ds in
  (forall i x, filter_mask k s !! S i = Some x -> isnull x = true ->
     filter_mask k locs !! i = filter_mask k locs !! S i) ->
  get_str "location" df' = Ok (filter_mask k locs) /\
  get_num c df' = Ok (GroupBy.ffill_by (filter_mask k locs) (filter_mask k s)).
Proof.
  intros Hwf H Hs Hds Hl Hc Hsc k Hrun. subst k.
  destruct (clean_refines _ _ Hwf H) as (strs' & ds' & locs' & Hs' & Hds' & Hl' & Hspec).
  rewrite Hs in Hs'. injection Hs' as <-. rewrite Hds in Hds'. injection Hds' as <-.
  rewrite Hl in Hl'. injection Hl' as <-. cbv zeta in Hspec.
  destruct Hspec as (_ & _ & HL & Hup & _).
  destruct (Hup ffill c ltac:(simpl in Hc |- *; intuition congruence)) as (s' & Hs'' & Hc').
  rewrite Hsc in Hs''. injection Hs'' as <-. split; [done|]. rewrite Hc'. f_equal.
  destruct (clean_invariant _ _ Hwf H) as (W & (cl & Hcl & Pl) & _).
  apply GroupBy.ffill_by_agrees; [| |exact Hrun].
  - rewrite (get_str_length _ _ _ W HL), <- (get_num_length _ _ _ W Hc'). by rewrite length_ffill.
  - apply get_str_col in HL. rewrite HL in Hcl. injection Hcl as <-. simpl in Pl.
    eapply Forall_impl; [exact Pl|]. by intros o (x & -> & _).
Qed.


(** The sample table: its rows kept by section 3 are those [keep] selects. *)
Lemma clean_spec_witness :
  exists strs ds locs, get_str "date" Samples.owid = Ok strs /\ to_datetime strs = Ok ds /\
    get_str "location" Samples.owid = Ok locs /\
    exists df', clean Samples.owid = Ok df' /\ nrows df' = count_true (keep locs ds).
Proof.
  destruct (clean_spec Samples.owid (match clean Samples.owid with Ok d => d | Err _ => Samples.owid end)
              Samples.owid_wf ltac:(vm_compute; reflexivity))
    as (strs & ds & locs & Hs & Hd & Hl & Hn & _).
  exists strs, ds, locs. split_and!; try done.
  eexists. split; [|exact Hn]. vm_compute. reflexivity.
Defined.

(** On [Samples.kenya_reports] each location's rows start with a figure,
    and the script's fill is the per-location one. *)
Lemma clean_ffill_grouped_witness :
  exists df', clean Samples.kenya_reports = Ok df' /\
    get_num "total_vaccinations" df' =
      Ok (GroupBy.ffill_by [Some "India"; Some "India"; Some "Kenya"; Some "Kenya"; Some "United States"]
            [Fin 150000000; NaN; Fin 1000; NaN; Fin 245000000]).
Proof.
  set (out := match clean Samples.kenya_reports with Ok d => d | Err _ => Samples.kenya_reports end).
  assert (E : clean Samples.kenya_reports = Ok out) by (vm_compute; reflexivity).
  exists out. split; [exact E|].
  refine (proj2 (clean_ffill_grouped Samples.kenya_reports out _ _ _ "total_vaccinations" _
    ltac:(repeat constructor) E ltac:(vm_compute; reflexivity) ltac:(vm_compute; reflexivity)
    ltac:(vm_compute; reflexivity) ltac:(simpl; tauto) ltac:(vm_compute; reflexivity) _)).
  intros [|[|[|[|[|i]]]]] x; vm_compute; intros Hx; try discriminate; injection Hx as <-; done.
Defined.

End Cleaner.
