(* ===== verification/Metrics.v ===== *)
(** * Metrics: the derived columns [death_rate] and [percent_vaccinated]

    Lines 94-95 divide [total_deaths] by [total_cases] and replace the NaN
    results by 0; line 166 divides [people_vaccinated] by [population] and
    scales by 100, with no replacement.  Both are element-wise float64
    operations on columns of the cleaned table. *)

From Stdlib Require Import List String QArith Qreduction Lqa Lia.
From stdpp Require Import base tactics list.
From S2P Require Import Prelude Num Dates Series Frame Samples.
Import ListNotations.

Local Open Scope string_scope.

Module Metrics.

(** Lines 94-95, on one row. *)
Definition death_rate_cell (total_deaths total_cases : num) : num :=
  fill_value (Fin 0) (num_div total_deaths total_cases).

(** Line 166, on one row. *)
Definition percent_cell (people_vaccinated population : num) : num :=
  num_mul (num_div people_vaccinated population) (Fin 100).

(** [df['death_rate'] = df['total_deaths'] / df['total_cases']] (line 94)
    then [df['death_rate'] = df['death_rate'].fillna(0)] (line 95). *)
Definition add_death_rate (df : frame) : result frame :=
  td <-? get_num "total_deaths" df ;;
  tc <-? get_num "total_cases" df ;;
  let df := set_col "death_rate" (ColNum (div_series td tc)) df in
  dr <-? get_num "death_rate" df ;;
  Ok (set_col "death_rate" (ColNum (fillna (Fin 0) dr)) df).

(** [df['percent_vaccinated'] = df['people_vaccinated'] / df['population'] * 100]
    (line 166). *)
Definition add_percent_vaccinated (df : frame) : result frame :=
  pv <-? get_num "people_vaccinated" df ;;
  pop <-? get_num "population" df ;;
  Ok (set_col "percent_vaccinated" (ColNum (mul_scalar (div_series pv pop) (Fin 100))) df).

Local Open Scope Q_scope.

(** ** The death rate of one row *)

(** The death rate is never missing: the NaN of [0/0] (and of a missing
    count) is replaced by 0. *)
Lemma death_rate_notnull td tc : isnull (death_rate_cell td tc) = false.
Proof. unfold death_rate_cell. by apply isnull_fill_value. Qed.

(** With cases, the rate of a row is exactly deaths / cases. *)
Lemma death_rate_cell_ratio d c : ~ c == 0 -> death_rate_cell (Fin d) (Fin c) = Fin (d / c).
Proof. intros Hc. unfold death_rate_cell. by rewrite num_div_fin. Qed.

(** No cases and no deaths: 0 rather than NaN. *)
Lemma death_rate_cell_no_cases d c : c == 0 -> d == 0 -> death_rate_cell (Fin d) (Fin c) = Fin 0.
Proof.
  intros Hc Hd. unfold death_rate_cell. rewrite num_div_by_zero, signed_inf_zero by done.
  reflexivity.
Qed.

(** No cases but some deaths: [d / 0] is [inf] in float64, which is not
    NaN, so [fillna(0)] leaves it. *)
Lemma death_rate_cell_inf d c : c == 0 -> 0 < d -> death_rate_cell (Fin d) (Fin c) = PInf.
Proof.
  intros Hc Hd. unfold death_rate_cell. rewrite num_div_by_zero, signed_inf_pos by done.
  reflexivity.
Qed.

(** A death count between 0 and the case count gives a rate in [[0, 1]]. *)
Lemma death_rate_bounds d c :
  0 <= d -> d <= c -> 0 < c -> num_between 0 1 (death_rate_cell (Fin d) (Fin c)).
Proof.
  intros H0 Hdc Hc. rewrite death_rate_cell_ratio by (intros E; rewrite E in Hc; discriminate).
  simpl. split.
  - apply Qle_shift_div_l; [done|]. lra.
  - apply Qle_shift_div_r; [done|]. lra.
Qed.

(** ** The vaccination percentage of one row *)

Lemma percent_ratio pv pop :
  ~ pop == 0 -> percent_cell (Fin pv) (Fin pop) = Fin (pv / pop * 100).
Proof. intros H. unfold percent_cell. by rewrite num_div_fin. Qed.

(** C40. A population of 0 gives no number: NaN when nobody is vaccinated,
    [inf] otherwise. *)
Lemma percent_zero_population pv pop :
  pop == 0 ->
  percent_cell (Fin pv) (Fin pop) = if Qeq_bool pv 0 then NaN else if Qlt_le_dec 0 pv then PInf else NInf.
Proof.
  intros Hp. unfold percent_cell. rewrite num_div_by_zero by done.
  unfold signed_inf. destruct (Qeq_bool pv 0) eqn:E.
  - apply Qeq_bool_iff in E. by rewrite (proj2 (Qcompare_Eq pv) E).
  - apply Qeq_bool_neq in E. destruct (Qlt_le_dec 0 pv) as [Hlt|Hle].
    + rewrite (proj1 (Qgt_alt pv 0) Hlt). simpl. unfold signed_inf.
      replace (Qcompare 100 0) with Gt by reflexivity. done.
    + assert (pv < 0) as Hneg by (apply Qle_lteq in Hle as [?|?]; [done|by destruct E]).
      rewrite (proj1 (Qlt_alt pv 0) Hneg). simpl. unfold signed_inf.
      replace (Qcompare 100 0) with Gt by reflexivity. done.
Qed.

(** A missing [people_vaccinated] stays missing. *)
Lemma percent_missing pop : percent_cell NaN pop = NaN.
Proof. by destruct pop. Qed.

(** people_vaccinated between 0 and a positive population gives percent_vaccinated in [0, 100]. *)
Lemma percent_bounds pv pop :
  0 <= pv -> pv <= pop -> 0 < pop -> num_between 0 100 (percent_cell (Fin pv) (Fin pop)).
Proof.
  intros H0 Hle Hp. rewrite percent_ratio by (intros E; rewrite E in Hp; discriminate).
  simpl. assert (0 <= pv / pop <= 1) as [Hl Hu].
  { split; [apply Qle_shift_div_l|apply Qle_shift_div_r]; try done; lra. }
  split; nra.
Qed.

(** ** The columns *)

Lemma fillna_div_series v a b :
  fillna v (div_series a b) = zip_with (fun x y => fill_value v (num_div x y)) a b.
Proof.
  unfold fillna, div_series. revert b; induction a as [|x a IH]; intros [|y b]; simpl; f_equal; auto.
Qed.

(** Lines 94-95 add a [death_rate] column equal, row by row, to
    [death_rate_cell total_deaths total_cases], and change no other column;
    they raise only when one of the two count columns is absent or not
    numeric. *)
Lemma add_death_rate_cases df :
  match get_num "total_deaths" df, get_num "total_cases" df with
  | Ok td, Ok tc =>
      exists df', add_death_rate df = Ok df' /\
      get_num "death_rate" df' = Ok (zip_with death_rate_cell td tc) /\
      forall n, n <> "death_rate" -> get_col n df' = get_col n df
  | Err e, _ | Ok _, Err e => add_death_rate df = Err e
  end.
Proof.
  unfold add_death_rate. destruct (get_num "total_deaths" df) as [td|e]; [|done].
  destruct (get_num "total_cases" df) as [tc|e]; simpl; [|done].
  rewrite get_num_set_col_eq. simpl. eexists; split; [done|]. split.
  - rewrite get_num_set_col_eq, fillna_div_series. done.
  - intros n Hn. rewrite !get_col_set_col_ne by done. done.
Qed.

(** Lines 94-95 keep the rows and every other column. *)
Lemma add_death_rate_frame df df' :
  add_death_rate df = Ok df' ->
  nrows df' = nrows df /\ forall n, n <> "death_rate" -> get_col n df' = get_col n df.
Proof.
  unfold add_death_rate. intros H. res_inv. split; [done|].
  intros n Hn. by rewrite !get_col_set_col_ne.
Qed.

(** Line 166 keeps the rows and every other column. *)
Lemma add_percent_vaccinated_frame df df' :
  add_percent_vaccinated df = Ok df' ->
  nrows df' = nrows df /\ forall n, n <> "percent_vaccinated" -> get_col n df' = get_col n df.
Proof.
  unfold add_percent_vaccinated. intros H. res_inv. split; [done|].
  intros n Hn. by rewrite get_col_set_col_ne.
Qed.

Lemma add_death_rate_wf df df' :
  frame_wf df -> add_death_rate df = Ok df' -> frame_wf df'.
Proof.
  unfold add_death_rate. intros Hwf H. res_inv.
  rewrite get_num_set_col_eq in H1. injection H1 as <-.
  assert (Htd : length x = nrows df) by (eapply (get_col_length _ _ (ColNum x)); eauto using get_num_col).
  assert (Htc : length x0 = nrows df) by (eapply (get_col_length _ _ (ColNum x0)); eauto using get_num_col).
  apply set_col_wf; [apply set_col_wf; [done|]|]; simpl;
    rewrite ?length_fillna, length_div_series; lia.
Qed.

(** Line 166 adds a [percent_vaccinated] column equal, row by row, to
    [percent_cell people_vaccinated population]. *)
Lemma add_percent_vaccinated_spec df df' :
  add_percent_vaccinated df = Ok df' ->
  exists pv pop, get_num "people_vaccinated" df = Ok pv /\ get_num "population" df = Ok pop /\
    get_num "percent_vaccinated" df' = Ok (zip_with percent_cell pv pop) /\
    forall n, n <> "percent_vaccinated" -> get_col n df' = get_col n df.
Proof.
  unfold add_percent_vaccinated. intros H. res_inv. exists x, x0. split_and!; try done.
  - rewrite get_num_set_col_eq. f_equal. unfold mul_scalar, div_series, percent_cell.
    clear. revert x0; induction x as [|a x IH]; intros [|b x0]; simpl; f_equal; auto.
  - intros n Hn. by apply get_col_set_col_ne.
Qed.

Lemma add_percent_vaccinated_Ok df :
  has_col "people_vaccinated" is_num df -> has_col "population" is_num df ->
  exists df', add_percent_vaccinated df = Ok df' /\
    has_col "percent_vaccinated" is_num df' /\
    forall n, n <> "percent_vaccinated" -> get_col n df' = get_col n df.
Proof.
  intros (pv & Hpv)%has_num_get (pop & Hpop)%has_num_get.
  unfold add_percent_vaccinated. rewrite Hpv, Hpop. cbn [res_bind].
  eexists; split_and!; [done|apply has_num_set|]. intros n Hn. by apply get_col_set_col_ne.
Qed.

Lemma add_death_rate_Ok df :
  has_col "total_deaths" is_num df -> has_col "total_cases" is_num df ->
  exists df', add_death_rate df = Ok df' /\
    has_col "death_rate" is_num df' /\
    forall n, n <> "death_rate" -> get_col n df' = get_col n df.
Proof.
  intros (td & Htd)%has_num_get (tc & Htc)%has_num_get.
  pose proof (add_death_rate_cases df) as Hspec. rewrite Htd, Htc in Hspec.
  destruct Hspec as (df' & Hd & Hdr & Hother). exists df'. split_and!; [done| |done].
  exists (ColNum (zip_with death_rate_cell td tc)). split; [by apply get_num_col|].
  apply Forall_true. done.
Qed.

(** Row [i] of the [death_rate] column is the rate of row [i]'s counts. *)
Lemma add_death_rate_lookup df df' td tc i a b :
  get_num "total_deaths" df = Ok td -> get_num "total_cases" df = Ok tc ->
  add_death_rate df = Ok df' -> td !! i = Some a -> tc !! i = Some b ->
  exists dr, get_num "death_rate" df' = Ok dr /\ dr !! i = Some (death_rate_cell a b).
Proof.
  intros Htd Htc Hdf Ha Hb. pose proof (add_death_rate_cases df) as Hspec.
  rewrite Htd, Htc in Hspec. destruct Hspec as (df'' & Hd & Hdr & _).
  rewrite Hdf in Hd. injection Hd as <-. eexists; split; [exact Hdr|].
  by rewrite lookup_zip_with, Ha, Hb.
Qed.

(** C5. A row with no cases but some deaths gets an infinite [death_rate]:
    [d / 0] is [inf] in float64, which is not NaN, so the [fillna(0)] of
    line 95 leaves it. *)
Theorem death_rate_inf df df' td tc i d c :
  get_num "total_deaths" df = Ok td -> get_num "total_cases" df = Ok tc ->
  add_death_rate df = Ok df' -> td !! i = Some (Fin d) -> tc !! i = Some (Fin c) ->
  c == 0 -> 0 < d ->
  exists dr, get_num "death_rate" df' = Ok dr /\ dr !! i = Some PInf.
Proof.
  intros Htd Htc Hdf Ha Hb Hc Hd.
  destruct (add_death_rate_lookup df df' td tc i _ _ Htd Htc Hdf Ha Hb) as (dr & Hdr & Hi).
  exists dr. by rewrite death_rate_cell_inf in Hi.
Qed.

(** C6. A row with cases gets exactly deaths / cases as [death_rate]. *)
Theorem death_rate_ratio df df' td tc i d c :
  get_num "total_deaths" df = Ok td -> get_num "total_cases" df = Ok tc ->
  add_death_rate df = Ok df' -> td !! i = Some (Fin d) -> tc !! i = Some (Fin c) ->
  ~ c == 0 ->
  exists dr, get_num "death_rate" df' = Ok dr /\ dr !! i = Some (Fin (d / c)).
Proof.
  intros Htd Htc Hdf Ha Hb Hc.
  destruct (add_death_rate_lookup df df' td tc i _ _ Htd Htc Hdf Ha Hb) as (dr & Hdr & Hi).
  exists dr. by rewrite death_rate_cell_ratio in Hi.
Qed.

(** C7. A row with no cases and no deaths gets a [death_rate] of 0, not
    the NaN of [0 / 0]. *)
Theorem death_rate_no_cases df df' td tc i d c :
  get_num "total_deaths" df = Ok td -> get_num "total_cases" df = Ok tc ->
  add_death_rate df = Ok df' -> td !! i = Some (Fin d) -> tc !! i = Some (Fin c) ->
  c == 0 -> d == 0 ->
  exists dr, get_num "death_rate" df' = Ok dr /\ dr !! i = Some (Fin 0).
Proof.
  intros Htd Htc Hdf Ha Hb Hc Hd.
  destruct (add_death_rate_lookup df df' td tc i _ _ Htd Htc Hdf Ha Hb) as (dr & Hdr & Hi).
  exists dr. by rewrite death_rate_cell_no_cases in Hi.
Qed.

Lemma add_percent_vaccinated_wf df df' :
  frame_wf df -> add_percent_vaccinated df = Ok df' -> frame_wf df'.
Proof.
  unfold add_percent_vaccinated. intros Hwf H. res_inv. apply set_col_wf; [done|]. simpl.
  rewrite length_mul_scalar, length_div_series; erewrite !get_num_length by eauto; lia.
Qed.

(** ** Witnesses: the rows of spec section 8 *)

(** The table of [Samples.counts] after lines 94-95. *)
Local Notation counts_rated :=
  (match add_death_rate Samples.counts with Ok d => d | Err _ => Samples.counts end).

(** One death in four cases (row 2) gives 0.25. *)
Lemma death_rate_ratio_witness :
  exists dr, get_num "death_rate" counts_rated = Ok dr /\ dr !! 2%nat = Some (Fin (1 / 4)).
Proof.
  apply (death_rate_ratio Samples.counts _ [Fin 0; Fin 5; Fin 1] [Fin 0; Fin 0; Fin 4] 2 1 4);
    vm_compute; try reflexivity; discriminate.
Defined.

(** No cases and no deaths (row 0) give 0. *)
Lemma death_rate_no_cases_witness :
  exists dr, get_num "death_rate" counts_rated = Ok dr /\ dr !! 0%nat = Some (Fin 0).
Proof.
  apply (death_rate_no_cases Samples.counts _ [Fin 0; Fin 5; Fin 1] [Fin 0; Fin 0; Fin 4] 0 0 0);
    vm_compute; reflexivity.
Defined.

(** Five deaths without cases (row 1) give [inf]. *)
Lemma death_rate_inf_witness :
  exists dr, get_num "death_rate" counts_rated = Ok dr /\ dr !! 1%nat = Some PInf.
Proof.
  apply (death_rate_inf Samples.counts _ [Fin 0; Fin 5; Fin 1] [Fin 0; Fin 0; Fin 4] 1 5 0);
    vm_compute; reflexivity.
Defined.

Lemma death_rate_bounds_witness : num_between 0 1 (death_rate_cell (Fin 220000) (Fin 20000000)).
Proof. apply death_rate_bounds; vm_compute; try reflexivity; discriminate. Defined.

Lemma percent_zero_population_witness : percent_cell (Fin 10) (Fin 0) = PInf.
Proof. rewrite percent_zero_population by reflexivity. reflexivity. Defined.

End Metrics.
