(* ===== verification/Aggregate.v ===== *)
(** * Aggregate: the per-country summaries (lines 97-103 and 167)

    Both summaries select the rows whose [date] equals the single largest
    date of the table ([df['date'].max()]) and take, per location, the
    last present value of some columns: [latest_data] for the case, death,
    vaccination and death-rate columns (line 98), [latest_vaccination] for
    [percent_vaccinated] (line 167).  The class [GroupLast] states what
    a [last] aggregation promises; the summaries are defined and proved in
    sections over any instance of it, and [GroupBy.group_last] is the
    instance the script uses. *)

From Stdlib Require Import List String QArith Lia Sorted.
From stdpp Require Import base tactics list.
From S2P Require Import Prelude Num Dates Series Frame Samples GroupBy.
Import ListNotations.

Local Open Scope string_scope.

Module Aggregate.
Import GroupBy.

(** ** The interface of the group-by *)

(** What a [last] aggregation promises to its clients: the result of the
    reference definition.  [Aggregate] is proved against this class. *)
Class GroupLast : Type := {
  gl_last : list (option string) -> list num -> list (string * num);
  gl_last_ref : forall keys vals, gl_last keys vals = group_last_ref keys vals
}.

Section Defs.
Context {GL : GroupLast}.


(** [df.groupby(key).agg({c: 'last' for c in cols}).reset_index()]: the
    key column of the sorted group keys, then one column per aggregated
    column. *)
Definition agg_last (key : string) (agg : list string) (df : frame) : result frame :=
  keys <-? get_str key df ;;
  vals <-? res_mapM (fun c => s <-? get_num c df ;; Ok (c, s)) agg ;;
  let ks := group_keys keys in
  Ok (mkframe (length ks)
        ((key, ColStr (map Some ks)) ::
         map (fun cs => (cs.1, ColNum (map snd (gl_last keys cs.2)))) vals)).

(** The summary's value for a group: the last present value of the
    group's rows. *)
Definition group_value (keys : list (option string)) (s : list num) (k : string) : num :=
  last_valid (group_rows k keys s).


(** [df['date'] == df['date'].max()] *)
Definition latest_mask (df : frame) : result (list bool) :=
  ds <-? get_date "date" df ;;
  Ok (eq_date ds (max_date ds)).

(** [df[latest_mask].groupby('location')[agg].last().reset_index()] *)
Definition latest_agg (agg : list string) (df : frame) : result frame :=
  m <-? latest_mask df ;;
  agg_last "location" agg (mask_frame m df).

Definition latest_cols : list string :=
  ["total_cases"; "total_deaths"; "total_vaccinations"; "death_rate"].

(** [latest_data] (lines 98-103) *)
Definition latest_data (df : frame) : result frame := latest_agg latest_cols df.

(** [latest_vaccination] (line 167) *)
Definition latest_vaccination (df : frame) : result frame :=
  latest_agg ["percent_vaccinated"] df.

(** ** What a summary holds *)

(** The rows dated on the largest date of the table. *)
Definition at_latest (ds : list (option date)) : list bool := eq_date ds (max_date ds).

(** The rows of location [k]. *)
Definition loc_is (k : string) (locs : list (option string)) : list bool :=
  map (fun o => if decide (o = Some k) then true else false) locs.

End Defs.

(** The one-pass implementation of [GroupBy] discharges the interface. *)
#[export] Program Instance group_last_impl : GroupLast := {| gl_last := group_last |}.
Next Obligation.
  intros keys vals. unfold group_last, group_last_ref. apply map_ext. intros k. f_equal.
  apply last_pass_value.
Qed.

Section Proofs.
Context {GL : GroupLast}.

Lemma lookup_col_agg c df (vals : list (string * list num)) agg keys s :
  Forall2 (fun c' cs => cs = (c', match get_num c' df with Ok s => s | Err _ => [] end)) agg vals ->
  In c agg -> get_num c df = Ok s ->
  lookup_col c (map (fun cs => (cs.1, ColNum (map snd (gl_last keys cs.2)))) vals) =
  Some (ColNum (map (group_value keys s) (group_keys keys))).
Proof.
  induction 1 as [|c' cs agg vals -> _ IH]; simpl; [done|]. intros Hin Hs.
  destruct (String.eqb_spec c' c) as [->|Hne].
  - rewrite Hs, gl_last_ref. unfold group_last_ref. by rewrite map_map.
  - apply IH; [destruct Hin; [congruence|done]|done].
Qed.

(** The aggregated table has the sorted group keys as its key column and,
    for each aggregated column, each group's last present value. *)
Lemma agg_last_spec key agg df out :
  agg_last key agg df = Ok out ->
  exists keys, get_str key df = Ok keys /\
    nrows out = length (group_keys keys) /\
    get_col key out = Ok (ColStr (map Some (group_keys keys))) /\
    forall c s, c <> key -> In c agg -> get_num c df = Ok s ->
      get_col c out = Ok (ColNum (map (group_value keys s) (group_keys keys))).
Proof.
  unfold agg_last. intros Hagg. res_inv. exists x. split_and!; try done.
  - unfold get_col. simpl. by rewrite String.eqb_refl.
  - intros c s Hne Hin Hs. unfold get_col. simpl.
    destruct (String.eqb_spec key c) as [->|_]; [done|].
    erewrite lookup_col_agg; [done| |done|done].
    apply res_mapM_Ok in H0. eapply Forall2_impl; [exact H0|].
    intros c' cs Hc. apply res_bind_Ok in Hc as (s' & Hs' & [= <-]). by rewrite Hs'.
Qed.

Lemma agg_last_Ok key agg df :
  has_col key is_str df -> Forall (fun c => has_col c is_num df) agg ->
  exists out, agg_last key agg df = Ok out.
Proof.
  intros (keys & Hk)%has_str_get Hagg. unfold agg_last. rewrite Hk. cbn [res_bind].
  destruct (res_mapM_total (fun c => s <-? get_num c df ;; Ok (c, s)) agg) as [vals Hv].
  { eapply Forall_impl; [exact Hagg|]. intros c (s & Hs)%has_num_get. rewrite Hs. by eexists. }
  rewrite Hv. by eexists.
Qed.


Lemma eq_date_cell_true (d mx : option date) :
  (match d, mx with Some d, Some m => if decide (d = m) then true else false | _, _ => false end) = true <->
  exists m, mx = Some m /\ d = Some m.
Proof.
  destruct d as [d|], mx as [m|]; simpl; try (split; [done|naive_solver]).
  case_decide; split; naive_solver.
Qed.

Lemma in_latest_keys (ds : list (option date)) (locs : list (option string)) (k : string) :
  In (Some k) (filter_mask (at_latest ds) locs) <->
  exists m, max_date ds = Some m /\ In (Some m, Some k) (zip ds locs).
Proof.
  rewrite filter_mask_in_zip. unfold at_latest, eq_date. rewrite in_zip_map_l.
  split.
  - intros (d & Hd & Hin). apply eq_date_cell_true in Hd as (m & Hm & ->). eauto.
  - intros (m & Hm & Hin). exists (Some m). split; [|done]. rewrite Hm. simpl.
    by case_decide.
Qed.

(** A summary (line 98 or 167) has one row per location that has a row
    on the largest date of the whole table, in sorted order; its value in
    an aggregated column is the last present value of that column among the
    rows of that location on that date.  A location without a row on that
    exact date is absent (spec section 4.4). *)
Lemma latest_agg_rows agg df out :
  frame_wf df -> latest_agg agg df = Ok out ->
  exists ds locs,
    get_date "date" df = Ok ds /\ get_str "location" df = Ok locs /\
    let keys := group_keys (filter_mask (at_latest ds) locs) in
    get_col "location" out = Ok (ColStr (map Some keys)) /\
    (forall k, In k keys <-> exists m, max_date ds = Some m /\ In (Some m, Some k) (zip ds locs)) /\
    (forall c s, c <> "location" -> In c agg -> get_num c df = Ok s ->
       get_col c out = Ok (ColNum (map (fun k =>
         last_valid (filter_mask (zip_with andb (at_latest ds) (loc_is k locs)) s)) keys))).
Proof.
  unfold latest_agg, latest_mask. intros Hwf H.
  apply res_bind_Ok in H as (m & Hm & H).
  apply res_bind_Ok in Hm as (x & Hx & [= <-]).
  apply agg_last_spec in H as (keys & Hk & _ & Hloc & Hcols).
  rewrite get_str_mask in Hk. destruct (get_str "location" df) as [locs|e] eqn:El; [|done].
  injection Hk as <-. exists x, locs. split_and!; try done.
  - intros k. rewrite (proj2 (proj2 (group_keys_exact _))). apply in_latest_keys.
  - intros c s Hc Hin Hs. rewrite (Hcols c (filter_mask (eq_date x (max_date x)) s)); try done;
      [|by rewrite get_num_mask, Hs].
    do 2 f_equal. apply map_ext. intros k. unfold group_value, group_rows.
    pose proof (get_date_length _ _ _ Hwf Hx) as Hlx.
    pose proof (get_str_length _ _ _ Hwf El) as Hll.
    pose proof (get_num_length _ _ _ Hwf Hs) as Hls.
    unfold at_latest, loc_is, eq_date. rewrite filter_mask_twice; [done|..];
      rewrite length_map; lia.
Qed.

(** C8. A summary (line 98 or 167) has one row per location that has a row
    on the largest date of the whole table, in sorted order; its value in
    an aggregated column is the last present value of that column among the
    rows of that location on that date.  A location without a row on that
    exact date is absent (spec section 4.4). *)
Theorem latest_agg_spec : forall agg df out,
  frame_wf df -> latest_agg agg df = Ok out ->
  exists ds locs,
    get_date "date" df = Ok ds /\ get_str "location" df = Ok locs /\
    let keys := group_keys (filter_mask (at_latest ds) locs) in
    get_col "location" out = Ok (ColStr (map Some keys)) /\
    (forall k, In k keys <-> exists m, max_date ds = Some m /\ In (Some m, Some k) (zip ds locs)) /\
    (forall c s, c <> "location" -> In c agg -> get_num c df = Ok s ->
       get_col c out = Ok (ColNum (map (fun k =>
         last_valid (filter_mask (zip_with andb (at_latest ds) (loc_is k locs)) s)) keys))).
Proof. exact latest_agg_rows. Qed.

(** A summary is computed without exception when the table has a datetime
    [date], a text [location] and float aggregated columns. *)
Lemma latest_agg_Ok agg df :
  has_col "date" is_date df -> has_col "location" is_str df ->
  Forall (fun c => has_col c is_num df) agg -> exists out, latest_agg agg df = Ok out.
Proof.
  intros (ds & Hds)%has_date_get Hl Hagg. unfold latest_agg, latest_mask.
  rewrite Hds. cbn [res_bind]. apply agg_last_Ok; [by apply has_col_mask; auto with pd|].
  by apply Forall_has_col_mask; auto with pd.
Qed.

(** The locations of a summary are locations of the table, sorted and
    distinct; so a property of every location cell holds of them. *)
Lemma latest_agg_keys agg df out (P : option string -> Prop) :
  frame_wf df -> latest_agg agg df = Ok out -> has_col "location" (str_col P) df ->
  exists keys, get_col "location" out = Ok (ColStr (map Some keys)) /\
    StronglySorted str_lt keys /\ Forall (fun k => P (Some k)) keys.
Proof.
  intros Hwf H [c [Hc Pc]].
  destruct (latest_agg_rows agg df out Hwf H) as (ds & locs & _ & Hl & Hkeys & _ & _).
  apply get_str_col in Hl. rewrite Hl in Hc. injection Hc as <-. simpl in Pc.
  eexists; split; [exact Hkeys|]. destruct (group_keys_exact (filter_mask (at_latest ds) locs)) as (Hs & _ & Hin).
  split; [done|]. apply List.Forall_forall. intros k Hk. apply Hin, filter_mask_in in Hk.
  rewrite List.Forall_forall in Pc. auto.
Qed.

(** A summary has a text [location] column and a float column for each
    aggregated float column. *)
Lemma latest_agg_typed agg df out :
  frame_wf df -> latest_agg agg df = Ok out ->
  has_col "location" is_str out /\
  forall c, c <> "location" -> In c agg -> has_col c is_num df -> has_col c is_num out.
Proof.
  intros Hwf H. destruct (latest_agg_rows agg df out Hwf H) as (ds & locs & _ & _ & Hloc & _ & Hc).
  split.
  - eexists; split; [exact Hloc|]. apply Forall_true. done.
  - intros c Hne Hin (s & Hs)%has_num_get. eexists; split; [exact (Hc c s Hne Hin Hs)|].
    apply Forall_true. done.
Qed.

End Proofs.

(** India has no row on the largest date, so the summary lists Kenya only. *)
Lemma latest_agg_spec_witness :
  exists out, latest_agg ["total_cases"] Samples.two_rows = Ok out /\
    get_col "location" out = Ok (ColStr [Some "Kenya"]).
Proof.
  set (out := match latest_agg ["total_cases"] Samples.two_rows with Ok o => o | Err _ => Samples.two_rows end).
  assert (E : latest_agg ["total_cases"] Samples.two_rows = Ok out) by (vm_compute; reflexivity).
  exists out. split; [exact E|].
  destruct (latest_agg_spec ["total_cases"] Samples.two_rows out ltac:(repeat constructor) E)
    as (ds & locs & Hd & Hl & Hloc & _).
  vm_compute in Hd, Hl. injection Hd as <-. injection Hl as <-. rewrite Hloc. vm_compute. reflexivity.
Defined.

End Aggregate.
