(* ===== verification/Charts.v ===== *)
(** * Charts: the data the five charts plot (lines 118-176)

    Rendering is not modelled; what is modelled is the data handed to
    matplotlib and seaborn: one line per country of [total_cases] and of
    [total_vaccinations] against [date] (lines 123-125 and 141-143, each
    [df[df['location'] == country]]), the bars of the two summaries
    (lines 134 and 171: one bar per row, a NaN height draws no bar) and
    the values of the [new_cases] histogram (line 152: seaborn drops
    NaN). *)

From Stdlib Require Import List String QArith Lia.
From stdpp Require Import base tactics list.
From S2P Require Import Prelude Num Dates Series Frame Samples Cleaner.
Import ListNotations.

Local Open Scope string_scope.

Module Charts.

(** [df[df['location'] == country]]: the mask of one country's rows. *)
Definition country_mask (country : string) (locs : list (option string)) : list bool :=
  map (fun o => match o with Some l => String.eqb l country | None => false end) locs.

(** [plt.plot(country_data['date'], country_data[col])] for each country. *)
Definition country_lines (col : string) (df : frame) : result (list (string * list (option date * num))) :=
  locs <-? get_str "location" df ;;
  ds <-? get_date "date" df ;;
  ys <-? get_num col df ;;
  Ok (map (fun c => (c, filter_mask (country_mask c locs) (zip ds ys))) Cleaner.countries).

(** [sns.barplot(x='location', y=col, data=summary)]: the bars drawn. *)
Definition bars (col : string) (summary : frame) : result (list (string * num)) :=
  locs <-? get_str "location" summary ;;
  ys <-? get_num col summary ;;
  Ok (List.filter (fun b => negb (isnull b.2))
        (zip (map (fun o => match o with Some l => l | None => "" end) locs) ys)).

(** [sns.histplot(df['new_cases'], ...)]: the values binned. *)
Definition histogram_values (df : frame) : result (list num) :=
  s <-? get_num "new_cases" df ;;
  Ok (present s).

(** ** What the charts show *)

(** The sample table after section 3. *)
Definition cleaned_sample : frame :=
  match Cleaner.clean Samples.owid with Ok d => d | Err _ => Samples.owid end.

Lemma country_lines_Ok col df :
  has_col "location" is_str df -> has_col "date" is_date df -> has_col col is_num df ->
  exists ls, country_lines col df = Ok ls.
Proof.
  intros (l & Hl)%has_str_get (d & Hd)%has_date_get (y & Hy)%has_num_get.
  unfold country_lines. rewrite Hl, Hd, Hy. by eexists.
Qed.

Lemma bars_Ok col summary :
  has_col "location" is_str summary -> has_col col is_num summary ->
  exists bs, bars col summary = Ok bs.
Proof.
  intros (l & Hl)%has_str_get (y & Hy)%has_num_get. unfold bars. rewrite Hl, Hy. by eexists.
Qed.

Lemma histogram_values_Ok df : has_col "new_cases" is_num df -> exists v, histogram_values df = Ok v.
Proof. intros (s & Hs)%has_num_get. unfold histogram_values. rewrite Hs. by eexists. Qed.

Lemma country_mask_points {B} c locs (qs : list B) p :
  In p (filter_mask (country_mask c locs) qs) -> In (Some c, p) (zip locs qs).
Proof.
  intros Hp. apply filter_mask_in_zip in Hp. unfold country_mask in Hp.
  revert qs Hp. induction locs as [|o locs IH]; intros [|q qs]; simpl; try done.
  intros [[= Ho <-]|Hp]; [|right; by apply IH].
  left. destruct o as [l|]; [|done]. apply String.eqb_eq in Ho. by subst.
Qed.

(** The line charts of lines 123-125 and 141-143 draw one line per
    target country, in the order of [countries], and every point of a
    country's line is the (date, value) of a row of that country. *)
Theorem country_lines_spec col df ls :
  country_lines col df = Ok ls ->
  map fst ls = Cleaner.countries /\
  exists locs ds ys, get_str "location" df = Ok locs /\ get_date "date" df = Ok ds /\
    get_num col df = Ok ys /\
    forall c pts p, In (c, pts) ls -> In p pts -> In (Some c, p) (zip locs (zip ds ys)).
Proof.
  unfold country_lines. intros H. res_inv. split.
  { reflexivity. }
  exists x, x0, x1. split_and!; try done.
  intros c pts p Hin Hp.
  simpl in Hin. destruct Hin as [[= <- <-]|[[= <- <-]|[[= <- <-]|[]]]]; by apply country_mask_points.
Qed.

(** A bar is drawn only for a present value, and for a row of the
    summary: a NaN summary value (no present value on the latest date)
    draws no bar. *)
Theorem bars_spec col summary bs :
  bars col summary = Ok bs ->
  Forall (fun b => isnull b.2 = false) bs /\
  exists locs ys, get_str "location" summary = Ok locs /\ get_num col summary = Ok ys /\
    forall b, In b bs -> In b.2 ys.
Proof.
  unfold bars. intros H. res_inv. split.
  - apply List.Forall_forall. intros b Hb. apply filter_In in Hb as [_ Hb]. by apply negb_true_iff.
  - exists x, x0. split_and!; try done. intros [l y] Hb. apply filter_In in Hb as [Hb _].
    apply list_elem_of_In, elem_of_zip_r in Hb. by apply list_elem_of_In.
Qed.

(** ** Witnesses *)

Lemma country_lines_spec_witness :
  exists ls, country_lines "total_cases" cleaned_sample = Ok ls /\ map fst ls = Cleaner.countries.
Proof.
  set (ls := match country_lines "total_cases" cleaned_sample with Ok l => l | Err _ => [] end).
  assert (E : country_lines "total_cases" cleaned_sample = Ok ls) by (vm_compute; reflexivity).
  exists ls. split; [exact E|]. exact (proj1 (country_lines_spec _ _ _ E)).
Defined.

(** A two-row summary with a NaN value for Kenya: only India's bar is drawn. *)
Lemma bars_spec_witness :
  Forall (fun b => isnull b.2 = false)
    (match bars "total_cases" (mkframe 2 [("location", ColStr [Some "India"; Some "Kenya"]);
                                          ("total_cases", ColNum [Fin 5%Q; NaN])]) with
     | Ok bs => bs | Err _ => [] end).
Proof.
  apply (proj1 (bars_spec "total_cases" (mkframe 2 [("location", ColStr [Some "India"; Some "Kenya"]);
                                          ("total_cases", ColNum [Fin 5%Q; NaN])]) [("India", Fin 5%Q)]
                 ltac:(vm_compute; reflexivity))).
Defined.

End Charts.
