(* ===== verification/Pipeline.v ===== *)
(** * Pipeline: the script from top to bottom

    [run] is src/covid_traker.py as one computation: the outcome of
    [pd.read_csv] (lines 19-27: a missing file or a read error prints a
    diagnostic and calls [exit()]), the missing-value report on the raw
    table (46-47), section 3 ([Cleaner.clean]), the report after cleaning
    (78), the death rate (94-95), [latest_data] (98-103), the vaccination
    percentage (166) and [latest_vaccination] (167).  A pandas exception
    after loading is not caught by the script: it ends the run. *)

From Stdlib Require Import List String QArith Lia Sorted.
From stdpp Require Import base tactics list.
From S2P Require Import Prelude Num Dates Series Frame Report Samples Cleaner Metrics GroupBy Aggregate Charts.
Import ListNotations.

Local Open Scope string_scope.

Module Pipeline.
Import GroupBy.
Import (hints) Aggregate.

(** What [pd.read_csv('owid-covid-data.csv')] does. *)
Inductive read_outcome : Type :=
  | ReadOk (df : frame)
  | FileNotFound
  | ReadFailure (msg : string).

(** What the script computes for the console and the charts. *)
Record outputs : Type := {
  raw_nulls : list (string * nat);
  clean_nulls : list (string * nat);
  statistics : list (string * option Report.stats);
  cleaned : frame;
  latest_data : frame;
  cases_lines : list (string * list (option date * num));
  cases_bars : list (string * num);
  vaccination_lines : list (string * list (option date * num));
  new_cases_values : list num;
  latest_vaccination : frame;
  vaccination_bars : list (string * num)
}.

(** How a run ends. *)
Inductive run_result : Type :=
  | Aborted (msg : string)
  | Crashed (e : pd_error)
  | Completed (o : outputs).

(** [key_columns] (line 46) *)
Definition key_columns : list string :=
  ["date"; "location"; "total_cases"; "new_cases"; "total_deaths"; "new_deaths";
   "total_vaccinations"; "people_vaccinated"].

Definition msg_not_found : string :=
  "Error: 'owid-covid-data.csv' not found. Please download from https://covid.ourworldindata.org/data/owid-covid-data.csv".

(** Lines 29-176 on the loaded table. *)
Definition script (df : frame) : result outputs :=
  raw <-? null_counts key_columns df ;;
  df <-? Cleaner.clean df ;;
  cln <-? null_counts key_columns df ;;
  st <-? Report.describe (skipn 2 key_columns) df ;;
  df <-? Metrics.add_death_rate df ;;
  latest <-? Aggregate.latest_data df ;;
  l1 <-? Charts.country_lines "total_cases" df ;;
  b1 <-? Charts.bars "total_cases" latest ;;
  l3 <-? Charts.country_lines "total_vaccinations" df ;;
  h4 <-? Charts.histogram_values df ;;
  df <-? Metrics.add_percent_vaccinated df ;;
  lv <-? Aggregate.latest_vaccination df ;;
  b5 <-? Charts.bars "percent_vaccinated" lv ;;
  Ok {| raw_nulls := raw; clean_nulls := cln; statistics := st; cleaned := df;
        latest_data := latest; cases_lines := l1; cases_bars := b1;
        vaccination_lines := l3; new_cases_values := h4;
        latest_vaccination := lv; vaccination_bars := b5 |}.

(** Lines 19-27, then the rest of the script. *)
Definition run (r : read_outcome) : run_result :=
  match r with
  | FileNotFound => Aborted msg_not_found
  | ReadFailure e => Aborted ("Error loading dataset: " ++ e)
  | ReadOk df =>
      match script df with
      | Ok o => Completed o
      | Err e => Crashed e
      end
  end.

(** ** Runs that complete *)

(** The loaded table the script needs: well formed, with what section 3
    needs and a float [population] column. *)
Definition schema (df : frame) : Prop :=
  frame_wf df /\ Cleaner.clean_schema df /\ has_col "population" is_num df.

Lemma key_columns_eq : key_columns = "date" :: "location" :: Cleaner.filled_cols.
Proof. reflexivity. Qed.

(** Name the result of every step of a completed [script]. *)
Ltac script_steps H :=
  unfold script in H;
  apply res_bind_Ok in H as (raw & Hraw & H); apply res_bind_Ok in H as (d1 & Hd1 & H);
  apply res_bind_Ok in H as (cln & Hcln & H); apply res_bind_Ok in H as (st & Hst & H);
  apply res_bind_Ok in H as (d2 & Hd2 & H); apply res_bind_Ok in H as (latest & Hl & H);
  apply res_bind_Ok in H as (l1 & Hl1 & H); apply res_bind_Ok in H as (b1 & Hb1 & H);
  apply res_bind_Ok in H as (l3 & Hl3 & H); apply res_bind_Ok in H as (h4 & Hh4 & H);
  apply res_bind_Ok in H as (d3 & Hd3 & H); apply res_bind_Ok in H as (lv & Hlv & H);
  apply res_bind_Ok in H as (b5 & Hb5 & H);
  injection H as <-; simpl.

(** Use one member of a [Forall] over a literal list of column names. *)
Ltac pick H := apply (proj1 (Forall_forall _ _) H); apply list_elem_of_In; simpl; tauto.

(** On a loaded table with the columns section 3 needs, sections 1 to 5
    raise nothing: every pandas call up to the histogram returns. *)
Lemma script_prefix df :
  frame_wf df -> Cleaner.clean_schema df ->
  exists raw d1 cln st d2 latest l1 b1 l3 h4,
    null_counts key_columns df = Ok raw /\ Cleaner.clean df = Ok d1 /\
    null_counts key_columns d1 = Ok cln /\
    Report.describe (skipn 2 key_columns) d1 = Ok st /\
    Metrics.add_death_rate d1 = Ok d2 /\ Aggregate.latest_data d2 = Ok latest /\
    Charts.country_lines "total_cases" d2 = Ok l1 /\ Charts.bars "total_cases" latest = Ok b1 /\
    Charts.country_lines "total_vaccinations" d2 = Ok l3 /\ Charts.histogram_values d2 = Ok h4.
Proof.
  intros Hwf Hcs. pose proof Hcs as ((strs & ds & Hs & Hds) & Hloc & Hn).
  destruct (null_counts_Ok key_columns df) as [raw Hraw].
  { rewrite key_columns_eq. constructor; [exists (ColStr strs); split; [by apply get_str_col|done]|].
    constructor; [exact (has_col_any _ _ _ Hloc)|].
    eapply Forall_impl; [exact Hn|]. intros c Hc. exact (has_col_any _ _ _ Hc). }
  destruct (Cleaner.clean_total df Hwf Hcs) as [d1 Hd1].
  pose proof (Cleaner.clean_invariant _ _ Hwf Hd1) as (W1 & L1 & D1 & _).
  pose proof (Cleaner.clean_keeps _ _ Hwf Hd1) as (N1 & K1).
  apply (has_col_weaken _ _ is_str) in L1; [|apply str_col_is_str].
  apply (has_col_weaken _ _ is_date) in D1; [|apply date_col_is_date].
  destruct (null_counts_Ok key_columns d1) as [cln Hcln].
  { rewrite key_columns_eq. constructor; [exact (has_col_any _ _ _ D1)|].
    constructor; [exact (has_col_any _ _ _ L1)|].
    eapply Forall_impl; [exact N1|]. intros c Hc. exact (has_col_any _ _ _ Hc). }
  destruct (Report.describe_Ok Cleaner.filled_cols d1 N1) as (st & Hst & _).
  destruct (Metrics.add_death_rate_Ok d1) as (d2 & Hd2 & DR2 & O2); [pick N1|pick N1|].
  destruct (Aggregate.latest_agg_Ok Aggregate.latest_cols d2) as [latest Hl].
  { apply (has_col_same _ _ d1); [by apply O2|done]. }
  { apply (has_col_same _ _ d1); [by apply O2|done]. }
  { repeat constructor; try done; apply (has_col_same _ _ d1); try (by apply O2); pick N1. }
  pose proof (Metrics.add_death_rate_wf _ _ W1 Hd2) as W2.
  assert (L2 : has_col "location" is_str d2) by (apply (has_col_same _ _ d1); [by apply O2|done]).
  assert (D2 : has_col "date" is_date d2) by (apply (has_col_same _ _ d1); [by apply O2|done]).
  assert (N2 : forall c, In c Cleaner.filled_cols -> has_col c is_num d2).
  { intros c Hc. apply (has_col_same _ _ d1); [apply O2; intros ->; simpl in Hc; intuition discriminate|].
    apply (proj1 (Forall_forall _ _) N1). by apply list_elem_of_In. }
  destruct (Aggregate.latest_agg_typed _ _ _ W2 Hl) as [LL TL].
  destruct (Charts.country_lines_Ok "total_cases" d2 L2 D2 (N2 "total_cases" ltac:(simpl; tauto))) as [l1 Hl1].
  destruct (Charts.bars_Ok "total_cases" latest LL) as [b1 Hb1].
  { apply TL; [discriminate|simpl; tauto|]. apply N2. simpl. tauto. }
  destruct (Charts.country_lines_Ok "total_vaccinations" d2 L2 D2 (N2 "total_vaccinations" ltac:(simpl; tauto))) as [l3 Hl3].
  destruct (Charts.histogram_values_Ok d2 (N2 "new_cases" ltac:(simpl; tauto))) as [h4 Hh4].
  exists raw, d1, cln, st, d2, latest, l1, b1, l3, h4. by split_and!.
Qed.

(** A loaded table without [population]: line 166 raises [KeyError]. *)
Lemma percent_no_population df d1 d2 :
  frame_wf df -> Cleaner.clean df = Ok d1 -> Metrics.add_death_rate d1 = Ok d2 ->
  lookup_col "population" (cols df) = None ->
  Metrics.add_percent_vaccinated d2 = Err (KeyError "population").
Proof.
  intros Hwf Hd1 Hd2 Hnone.
  destruct (Metrics.add_death_rate_frame _ _ Hd2) as [_ O2].
  destruct (Cleaner.clean_keeps _ _ Hwf Hd1) as [N1 _].
  assert (Hpv : has_col "people_vaccinated" is_num d1) by pick N1.
  destruct (has_num_get _ _ Hpv) as [pv Hpv'].
  destruct (Cleaner.clean_refines _ _ Hwf Hd1) as (strs & ds & locs & _ & _ & _ & Hspec).
  cbv zeta in Hspec. destruct Hspec as (_ & _ & _ & _ & Hother).
  unfold Metrics.add_percent_vaccinated.
  assert (E : get_num "people_vaccinated" d2 = Ok pv) by (unfold get_num; by rewrite O2, <- Hpv').
  rewrite E. cbn [res_bind]. unfold get_num. rewrite O2 by discriminate.
  rewrite Hother; [|discriminate|simpl; intuition discriminate].
  unfold get_col. by rewrite Hnone.
Qed.

(** C11. On a loaded table with the columns and dtypes the script uses and
    dates that [pd.to_datetime] accepts, the script runs to its end: no
    pandas call raises. *)
Theorem run_completes df : schema df -> exists o, run (ReadOk df) = Completed o.
Proof.
  intros (Hwf & Hcs & Hpop).
  destruct (script_prefix df Hwf Hcs)
    as (raw & d1 & cln & st & d2 & latest & l1 & b1 & l3 & h4 & H1 & Hd1 & H3 & H4 & Hd2 & H6 & H7 & H8 & H9 & H10).
  unfold run, script.
  rewrite H1; cbn [res_bind]; rewrite Hd1; cbn [res_bind]; rewrite H3; cbn [res_bind];
  rewrite H4; cbn [res_bind]; rewrite Hd2; cbn [res_bind]; rewrite H6; cbn [res_bind];
  rewrite H7; cbn [res_bind]; rewrite H8; cbn [res_bind]; rewrite H9; cbn [res_bind];
  rewrite H10; cbn [res_bind].
  pose proof (Cleaner.clean_invariant _ _ Hwf Hd1) as (W1 & L1 & D1 & _).
  pose proof (Cleaner.clean_keeps _ _ Hwf Hd1) as (N1 & K1).
  apply (has_col_weaken _ _ is_str) in L1; [|apply str_col_is_str].
  apply (has_col_weaken _ _ is_date) in D1; [|apply date_col_is_date].
  destruct (Metrics.add_death_rate_frame _ _ Hd2) as [_ O2].
  pose proof (Metrics.add_death_rate_wf _ _ W1 Hd2) as W2.
  assert (Hpop1 : has_col "population" is_num d1).
  { apply K1; [auto with pd|done| |done]. simpl. intuition discriminate. }
  destruct (Metrics.add_percent_vaccinated_Ok d2) as (d3 & Hd3 & PV3 & O3).
  { apply (has_col_same _ _ d1); [by apply O2|]. pick N1. }
  { apply (has_col_same _ _ d1); [by apply O2|done]. }
  rewrite Hd3. cbn [res_bind].
  destruct (Aggregate.latest_agg_Ok ["percent_vaccinated"] d3) as [lv Hlv].
  { apply (has_col_same _ _ d2); [by apply O3|]. apply (has_col_same _ _ d1); [by apply O2|done]. }
  { apply (has_col_same _ _ d2); [by apply O3|]. apply (has_col_same _ _ d1); [by apply O2|done]. }
  { by repeat constructor. }
  unfold Aggregate.latest_vaccination. rewrite Hlv. cbn [res_bind].
  pose proof (Metrics.add_percent_vaccinated_wf _ _ W2 Hd3) as W3.
  destruct (Aggregate.latest_agg_typed _ _ _ W3 Hlv) as [LL5 TL5].
  destruct (Charts.bars_Ok "percent_vaccinated" lv LL5) as [b5 Hb5].
  { apply TL5; [discriminate|simpl; tauto|done]. }
  rewrite Hb5. by eexists.
Qed.

(** The OWID-shaped sample table has the schema, so its run completes. *)
Lemma run_completes_witness : exists o, run (ReadOk Samples.owid) = Completed o.
Proof.
  apply run_completes. split; [apply Samples.owid_wf|]. split.
  - split; [do 2 eexists; split; reflexivity|]. split.
    + eexists; split; [reflexivity|]. simpl. repeat constructor.
    + repeat constructor; (eexists; split; [reflexivity|]); simpl; repeat constructor.
  - eexists; split; [reflexivity|]. simpl. repeat constructor.
Defined.

(** ** What a completed run reports *)

Lemma run_Completed df o : run (ReadOk df) = Completed o -> script df = Ok o.
Proof. simpl. by destruct (script df); intros [= ->]. Qed.

(** C29. The missing-value report after cleaning (line 78) shows no missing
    [date], [location] or case and death count; a vaccination column shows
    the number of cleaned rows before its first figure (the forward fill
    has nothing to carry into them). *)
Theorem run_clean_nulls df o :
  frame_wf df -> run (ReadOk df) = Completed o ->
  exists strs ds locs tv pv,
    get_str "date" df = Ok strs /\ to_datetime strs = Ok ds /\ get_str "location" df = Ok locs /\
    get_num "total_vaccinations" df = Ok tv /\ get_num "people_vaccinated" df = Ok pv /\
    let k := Cleaner.keep locs ds in
    clean_nulls o =
      [("date", 0); ("location", 0); ("total_cases", 0); ("new_cases", 0);
       ("total_deaths", 0); ("new_deaths", 0);
       ("total_vaccinations", leading_missing (filter_mask k tv));
       ("people_vaccinated", leading_missing (filter_mask k pv))].
Proof.
  intros Hwf H%run_Completed. script_steps H.
  destruct (Cleaner.clean_refines _ _ Hwf Hd1) as (strs & ds & locs & Hs & Hds & Hlocs & Hspec).
  cbv zeta in Hspec. destruct Hspec as (_ & _ & _ & Hup & _).
  destruct (Hup _ "total_vaccinations" ltac:(simpl; tauto)) as (tv & Htv & Htv').
  destruct (Hup _ "people_vaccinated" ltac:(simpl; tauto)) as (pv & Hpv & Hpv').
  destruct (Cleaner.clean_invariant _ _ Hwf Hd1) as (_ & HL & HD & HC).
  exists strs, ds, locs, tv, pv. split_and!; try done.
  assert (Hnum : forall c, In c Cleaner.count_cols -> exists col, get_col c d1 = Ok col /\ col_null_count col = 0).
  { intros c Hc. apply has_col_no_null with (P := num_col (fun x => isnull x = false));
      [intros col; apply num_col_notna; done|].
    apply (proj1 (Forall_forall _ _) HC). by apply list_elem_of_In. }
  destruct HD as (cd & Hcd & Nd). eapply date_col_notna, col_null_count_zero in Nd;
    [|by intros o (d & -> & _)].
  destruct HL as (cl & Hcl & Nl). eapply str_col_notna, col_null_count_zero in Nl;
    [|by intros o (x & -> & _)].
  destruct (Hnum "total_cases" ltac:(simpl; tauto)) as (c1 & Hc1 & N1).
  destruct (Hnum "new_cases" ltac:(simpl; tauto)) as (c2 & Hc2 & N2).
  destruct (Hnum "total_deaths" ltac:(simpl; tauto)) as (c3 & Hc3 & N3).
  destruct (Hnum "new_deaths" ltac:(simpl; tauto)) as (c4 & Hc4 & N4).
  unfold key_columns in Hcln. rewrite !null_counts_cons in Hcln.
  rewrite Hcd, Hcl, Hc1, Hc2, Hc3, Hc4, (get_num_col _ _ _ Htv'), (get_num_col _ _ _ Hpv') in Hcln.
  change (null_counts [] d1) with (@Ok (list (string * nat)) []) in Hcln.
  cbn [res_bind] in Hcln. injection Hcln as <-.
  by rewrite Nd, Nl, N1, N2, N3, N4, !col_null_count_num, !count_null_ffill.
Qed.

(** C26. The statistics of line 91 describe the six count columns of the
    cleaned table, in order; each of the four zero-filled columns is counted
    on every row. *)
Theorem run_statistics df o :
  frame_wf df -> run (ReadOk df) = Completed o ->
  Forall2 (fun c x => exists s, get_num c (cleaned o) = Ok s /\ x = (c, Report.describe_col s))
    Cleaner.filled_cols (statistics o) /\
  (forall c st, In c Cleaner.count_cols -> In (c, Some st) (statistics o) ->
     Report.st_count st = nrows (cleaned o)).
Proof.
  intros Hwf H%run_Completed. script_steps H.
  change (skipn 2 key_columns) with Cleaner.filled_cols in Hst.
  destruct (Cleaner.clean_invariant _ _ Hwf Hd1) as (W1 & _ & _ & HC).
  destruct (Cleaner.clean_keeps _ _ Hwf Hd1) as [N1 _].
  destruct (Report.describe_Ok _ _ N1) as (r & Hr & F). rewrite Hst in Hr. injection Hr as <-.
  destruct (Metrics.add_death_rate_frame _ _ Hd2) as [R2 O2].
  destruct (Metrics.add_percent_vaccinated_frame _ _ Hd3) as [R3 O3].
  assert (Same : forall c, In c Cleaner.filled_cols -> get_num c d3 = get_num c d1).
  { intros c Hc. unfold get_num. rewrite O3, O2; [done| |];
      intros ->; simpl in Hc; intuition discriminate. }
  split.
  - eapply Forall2_impl_in; [|exact F]. intros c x Hc (s & Hs & ->). exists s. by rewrite Same.
  - intros c stc Hc Hin. destruct (Forall2_in_r _ _ _ _ F Hin) as (c' & Hc' & s & Hs & E).
    injection E as <- Hd. symmetry in Hd.
    rewrite (Report.describe_col_count _ _ Hd).
    assert (Hn : has_col c (num_col (fun x => isnull x = false)) d1)
      by (apply (proj1 (Forall_forall _ _) HC); by apply list_elem_of_In).
    destruct Hn as (col & Hcol & Pc). rewrite (get_num_col _ _ _ Hs) in Hcol.
    injection Hcol as <-. simpl in Pc. rewrite count_null_zero by done.
    rewrite (get_num_length _ _ _ W1 Hs), R3, R2. lia.
Qed.

(** C12. Both summaries of a completed run (the bar charts of lines 134 and
    171) list target countries only, each once, in increasing order. *)
Theorem run_summary_countries df o :
  frame_wf df -> run (ReadOk df) = Completed o ->
  (exists keys, get_col "location" (latest_data o) = Ok (ColStr (map Some keys)) /\
     StronglySorted GroupBy.str_lt keys /\ Forall (fun k => In k Cleaner.countries) keys) /\
  (exists keys, get_col "location" (latest_vaccination o) = Ok (ColStr (map Some keys)) /\
     StronglySorted GroupBy.str_lt keys /\ Forall (fun k => In k Cleaner.countries) keys).
Proof.
  intros Hwf H%run_Completed. script_steps H.
  pose proof (Cleaner.clean_invariant _ _ Hwf Hd1) as (W1 & L1 & _).
  pose proof (Metrics.add_death_rate_wf _ _ W1 Hd2) as W2.
  assert (L2 : has_col "location" (str_col Cleaner.in_countries) d2)
    by (apply (has_col_same _ _ d1); [by apply (Metrics.add_death_rate_frame _ _ Hd2)|done]).
  destruct (Metrics.add_percent_vaccinated_spec _ _ Hd3) as (pv & pop & Hpv & Hpop & _ & O3).
  pose proof (Metrics.add_percent_vaccinated_wf _ _ W2 Hd3) as W3.
  assert (L3 : has_col "location" (str_col Cleaner.in_countries) d3) by
    (apply (has_col_same _ _ d2); [by apply O3|done]).
  assert (Hc : forall k, Cleaner.in_countries (Some k) -> In k Cleaner.countries)
    by (intros k (x & [= <-] & Hx); exact Hx).
  split; [destruct (Aggregate.latest_agg_keys _ _ _ _ W2 Hl L2) as (keys & ? & ? & Hk)
         |destruct (Aggregate.latest_agg_keys _ _ _ _ W3 Hlv L3) as (keys & ? & ? & Hk)].
  all: exists keys; split; [done|]; split; [done|exact (List.Forall_impl _ Hc Hk)].
Qed.

(** Destruct the run of a concrete table, discarding the outcomes that
    evaluation rules out. *)
Ltac concrete_run df o E :=
  destruct (run (ReadOk df)) as [?m|?e|o] eqn:E;
    [vm_compute in E; discriminate E | vm_compute in E; discriminate E |].

Lemma run_summary_countries_witness :
  exists o, run (ReadOk Samples.owid) = Completed o /\
  (exists keys, get_col "location" (latest_data o) = Ok (ColStr (map Some keys)) /\
     StronglySorted GroupBy.str_lt keys /\ Forall (fun k => In k Cleaner.countries) keys).
Proof.
  concrete_run Samples.owid o E. exists o. split; [reflexivity|].
  exact (proj1 (run_summary_countries Samples.owid o Samples.owid_wf E)).
Defined.

(** On a table whose first kept row has no [people_vaccinated], the
    report after cleaning counts that one row. *)
Lemma run_clean_nulls_witness :
  exists o, run (ReadOk Samples.late_vaccination) = Completed o /\
    clean_nulls o =
      [("date", 0); ("location", 0); ("total_cases", 0); ("new_cases", 0);
       ("total_deaths", 0); ("new_deaths", 0);
       ("total_vaccinations", 0); ("people_vaccinated", 1)].
Proof.
  concrete_run Samples.late_vaccination o E. exists o. split; [reflexivity|].
  destruct (run_clean_nulls Samples.late_vaccination o ltac:(repeat constructor) E)
    as (strs & ds & locs & tv & pv & Hs & Hds & Hl & Htv & Hpv & Hn).
  vm_compute in Hs. injection Hs as <-. vm_compute in Hds. injection Hds as <-.
  vm_compute in Hl. injection Hl as <-. vm_compute in Htv. injection Htv as <-.
  vm_compute in Hpv. injection Hpv as <-. rewrite Hn. vm_compute. reflexivity.
Defined.

Lemma run_statistics_witness :
  exists o, run (ReadOk Samples.owid) = Completed o /\
  Forall2 (fun c x => exists s, get_num c (cleaned o) = Ok s /\ x = (c, Report.describe_col s))
    Cleaner.filled_cols (statistics o) /\
  (forall c st, In c Cleaner.count_cols -> In (c, Some st) (statistics o) ->
     Report.st_count st = nrows (cleaned o)).
Proof.
  concrete_run Samples.owid o E. exists o. split; [reflexivity|].
  exact (run_statistics Samples.owid o Samples.owid_wf E).
Defined.

(** ** Runs that crash *)

(** C13. A loaded table without one of the [key_columns] makes the report
    of line 47 raise [KeyError] on the first absent one, before any
    cleaning (the unhandled crash of spec section 7). *)
Theorem run_missing_key_column df (pre : list string) (c : string) (post : list string) :
  key_columns = (pre ++ c :: post)%list ->
  Forall (fun n => has_col n any_col df) pre -> lookup_col c (cols df) = None ->
  run (ReadOk df) = Crashed (KeyError c).
Proof.
  intros Hk Hpre Hc. unfold run, script. rewrite Hk, null_counts_missing by done. done.
Qed.

(** C14. A [date] string that [pd.to_datetime] rejects, in any row of the
    loaded table, ends the run with a parse error on one of the date
    strings; the conversion (line 59) runs before the rows are restricted
    to the three countries (line 63), so a bad date of another country is
    enough. *)
Theorem run_bad_date df strs :
  Forall (fun n => has_col n any_col df) key_columns ->
  get_str "date" df = Ok strs -> (exists e, to_datetime strs = Err e) ->
  exists s, run (ReadOk df) = Crashed (DateParseError s) /\ In (Some s) strs.
Proof.
  intros Hk Hs [e He]. destruct (to_datetime_Err_cell _ _ He) as (s & -> & Hin).
  exists s. split; [|done]. unfold run, script.
  destruct (null_counts_Ok _ _ Hk) as [raw Hraw]. rewrite Hraw. cbn [res_bind].
  unfold Cleaner.clean, Cleaner.convert_dates. rewrite Hs. cbn [res_bind]. by rewrite He.
Qed.

Lemma run_missing_key_column_witness :
  run (ReadOk Samples.no_location) = Crashed (KeyError "location").
Proof.
  apply (run_missing_key_column _ ["date"] "location"
           ["total_cases"; "new_cases"; "total_deaths"; "new_deaths";
            "total_vaccinations"; "people_vaccinated"]).
  - reflexivity.
  - repeat constructor. eexists; split; [reflexivity|done].
  - reflexivity.
Defined.

(** The impossible date is on the Spain row, which the script would have
    dropped at line 63. *)
Lemma run_bad_date_witness :
  exists s, run (ReadOk Samples.bad_spain_date) = Crashed (DateParseError s).
Proof.
  destruct (run_bad_date Samples.bad_spain_date
              [Some "2021-04-30"; Some "2021-05-01"; Some "2021-04-30";
               Some "2021-05-01"; Some "2021-02-30"; Some "2021-05-01"; None])
    as (s & Hrun & _).
  - repeat constructor; (eexists; split; [reflexivity|done]).
  - reflexivity.
  - eexists. vm_compute. reflexivity.
  - exists s. exact Hrun.
Defined.


End Pipeline.
