(* ===== verification/Console.v ===== *)
(** * Console: what the script prints and writes, in order

    [run_io] is src/covid_traker.py with its side effects: every
    [print] (a [Print] event carrying the text, or the pandas object it
    prints), [df.info()], and the two [plt.savefig]/[plt.show] pairs.  The
    events are collected by a writer monad over [result]: a pandas
    exception stops the script, and the events emitted before it stay
    emitted.  The figure-building calls of section 5 ([plt.figure],
    [subplot], [title], ...) only configure the figure and are not events;
    the data each chart receives is in [Pipeline.outputs]. *)

From Stdlib Require Import List String QArith Ascii.
From stdpp Require Import base tactics list.
From S2P Require Import Prelude Num Dates Series Frame Report Samples Cleaner Metrics GroupBy Aggregate Charts Pipeline.
Import ListNotations.

Local Open Scope string_scope.

Module Console.
Import Pipeline.
Import (hints) Aggregate.

(** ** Events and the console monad *)

Inductive event : Type :=
  | Print (s : string)
  | PrintHead (df : frame)
  | PrintColumns (names : list string)
  | PrintInfo (rows : list (string * nat * string))
  | PrintNulls (counts : list (string * nat))
  | PrintStats (st : list (string * option Report.stats))
  | PrintTable (df : frame)
  | Savefig (file : string)
  | ShowFigure.

(** The events written so far and the value or the exception. *)
Definition io (A : Type) : Type := list event * result A.

Definition io_ret {A} (a : A) : io A := ([], Ok a).

Definition io_bind {A B} (m : io A) (k : A -> io B) : io B :=
  match m with
  | (w, Ok a) => let '(w', r) := k a in (app w w', r)
  | (w, Err e) => (w, Err e)
  end.

Declare Scope io_scope.
Delimit Scope io_scope with io.
Notation "x <-! c ;; k" := (io_bind c (fun x => k))
  (at level 100, c at next level, right associativity) : io_scope.
Notation "c ;;! k" := (io_bind c (fun _ => k))
  (at level 100, right associativity) : io_scope.
Local Open Scope io_scope.

Definition emit (ev : event) : io unit := ([ev], Ok tt).

(** [print(s)] of a literal. *)
Definition say (s : string) : io unit := emit (Print s).

(** A pandas call: no output, its value or its exception. *)
Definition lift {A} (r : result A) : io A := ([], r).

(** A string literal that starts with ["\n"]. *)
Definition nl (s : string) : string := String (ascii_of_nat 10) s.

(** ** The script *)

(** The last line the script prints (line 194). *)
Definition msg_completed : string :=
  nl "Script completed. Visualizations saved as 'covid_visualizations.png' and 'vaccination_progress.png'.".

(** Section 7 (lines 178-192): fixed text. *)
Definition insights : io unit :=
  say (nl "=== 7. Insights & Reporting ===") ;;!
  say (nl "Key Insights:") ;;!
  say "1. The USA has the highest total COVID-19 cases and deaths among the selected countries, reflecting its large population and early pandemic impact." ;;!
  say "2. India shows a high number of cases but a lower death rate, possibly due to a younger population or underreporting." ;;!
  say "3. Kenya has the lowest cases and deaths, likely due to lower testing capacity or effective early interventions." ;;!
  say "4. Vaccination progress is significant in the USA and India, with the USA leading in % vaccinated." ;;!
  say "5. Daily new cases show a right-skewed distribution, with most days having low case counts but occasional large spikes." ;;!
  say (nl "Interesting Patterns:") ;;!
  say "- Vaccination rollouts accelerated in 2021, with the USA and India showing steep increases." ;;!
  say "- Kenya's vaccination data is sparse, indicating slower rollout or data reporting issues." ;;!
  say "- Case spikes in India (e.g., 2021 Delta wave) are visible in the line chart.".

(** Lines 29-193, after a successful load. *)
Definition script_io (df : frame) : io outputs :=
  say (nl "=== 2. Data Loading & Exploration ===") ;;!
  say (nl "First 5 rows of the dataset:") ;;!
  emit (PrintHead (Report.head 5 df)) ;;!
  say (nl "Columns in dataset:") ;;!
  emit (PrintColumns (Report.columns df)) ;;!
  say (nl "Dataset Info:") ;;!
  emit (PrintInfo (Report.info df)) ;;!
  say "None" ;;!
  say (nl "Missing Values (selected columns):") ;;!
  raw <-! lift (null_counts key_columns df) ;;
  emit (PrintNulls raw) ;;!
  say (nl "Initial Observations:") ;;!
  say "- Dataset contains global COVID-19 data by date and location." ;;!
  say "- Key columns include cases, deaths, and vaccinations." ;;!
  say "- Missing values are present, especially in vaccination data (expected for early pandemic)." ;;!
  say (nl "=== 3. Data Cleaning ===") ;;!
  df <-! lift (Cleaner.clean df) ;;
  say (nl "Missing Values After Cleaning:") ;;!
  cln <-! lift (null_counts key_columns df) ;;
  emit (PrintNulls cln) ;;!
  say (nl "Cleaning Observations:") ;;!
  say "- Filtered for Kenya, USA, and India." ;;!
  say "- Converted 'date' to datetime." ;;!
  say "- Filled missing cases/deaths with 0, used forward fill for vaccinations." ;;!
  say (nl "=== 4. Exploratory Data Analysis ===") ;;!
  say (nl "Basic Statistics for Numerical Columns:") ;;!
  st <-! lift (Report.describe (skipn 2 key_columns) df) ;;
  emit (PrintStats st) ;;!
  df <-! lift (Metrics.add_death_rate df) ;;
  latest <-! lift (Aggregate.latest_data df) ;;
  say (nl "Latest Data by Country (most recent date):") ;;!
  emit (PrintTable latest) ;;!
  say (nl "EDA Observations:") ;;!
  say "- USA has the highest total cases and deaths." ;;!
  say "- India has a high number of cases but lower death rate compared to USA." ;;!
  say "- Kenya has significantly fewer cases and deaths." ;;!
  say "- Vaccination data shows progress, but coverage varies." ;;!
  say (nl "=== 5. Data Visualization ===") ;;!
  l1 <-! lift (Charts.country_lines "total_cases" df) ;;
  b1 <-! lift (Charts.bars "total_cases" latest) ;;
  l3 <-! lift (Charts.country_lines "total_vaccinations" df) ;;
  h4 <-! lift (Charts.histogram_values df) ;;
  emit (Savefig "covid_visualizations.png") ;;!
  emit ShowFigure ;;!
  say (nl "=== 6. Visualizing Vaccination Progress ===") ;;!
  df <-! lift (Metrics.add_percent_vaccinated df) ;;
  lv <-! lift (Aggregate.latest_vaccination df) ;;
  b5 <-! lift (Charts.bars "percent_vaccinated" lv) ;;
  emit (Savefig "vaccination_progress.png") ;;!
  emit ShowFigure ;;!
  insights ;;!
  say msg_completed ;;!
  io_ret {| raw_nulls := raw; clean_nulls := cln; statistics := st; cleaned := df;
            latest_data := latest; cases_lines := l1; cases_bars := b1;
            vaccination_lines := l3; new_cases_values := h4;
            latest_vaccination := lv; vaccination_bars := b5 |}.

(** Lines 15-27, then the rest: the events of the run and how it ends. *)
Definition run_io (r : read_outcome) : list event * run_result :=
  match r with
  | FileNotFound => ([Print "=== 1. Data Collection ==="; Print msg_not_found], Aborted msg_not_found)
  | ReadFailure e =>
      let m := "Error loading dataset: " ++ e in
      ([Print "=== 1. Data Collection ==="; Print m], Aborted m)
  | ReadOk df =>
      let '(w, res) := script_io df in
      (app [Print "=== 1. Data Collection ==="; Print "Dataset loaded successfully!"] w,
       match res with Ok o => Completed o | Err e => Crashed e end)
  end.

(** The events that are not fixed text: the printed tables and the files. *)
Definition reports (w : list event) : list event :=
  List.filter (fun ev => match ev with Print _ => false | _ => true end) w.

(** ** The monad laws *)

Lemma io_bind_ret_l {A B} (a : A) (k : A -> io B) : io_bind (io_ret a) k = k a.
Proof. unfold io_bind, io_ret. by destruct (k a). Qed.

Lemma io_bind_ret_r {A} (m : io A) : io_bind m io_ret = m.
Proof. destruct m as [w [a|e]]; simpl; by rewrite ?app_nil_r. Qed.

Lemma io_bind_assoc {A B C} (m : io A) (k : A -> io B) (h : B -> io C) :
  io_bind (io_bind m k) h = io_bind m (fun a => io_bind (k a) h).
Proof.
  destruct m as [w [a|e]]; simpl; [|done].
  destruct (k a) as [w1 [b|e]]; simpl; [|done].
  destruct (h b) as [w2 r]. by rewrite app_assoc.
Qed.

(** ** Forgetting the output *)

#[export] Instance res_bind_proper {A B} :
  Proper (eq ==> pointwise_relation A eq ==> eq) (@res_bind A B).
Proof. intros m ? <- k k' Hk. destruct m; simpl; [apply Hk|done]. Qed.




(** Run [script_io] step by step in hypothesis [E], splitting on the
    result of every pandas call. *)
Ltac io_steps E :=
  repeat (cbn [io_bind say emit lift io_ret app] in E;
          lazymatch type of E with
          | context [match ?r with Ok _ => _ | Err _ => _ end] =>
              let x := fresh "x" in let Ex := fresh "Ex" in
              destruct r as [x|?] eqn:Ex
          end).

(** A completed run prints, in this order: the head, the columns and the
    info of the loaded table, the missing-value reports before and after
    cleaning, the statistics, the summary table, and then writes and shows
    the two images (spec sections 4.5 and 4.6). *)
Lemma run_io_completed_reports df w o :
  run_io (ReadOk df) = (w, Completed o) ->
  reports w =
    [PrintHead (Report.head 5 df); PrintColumns (Report.columns df); PrintInfo (Report.info df);
     PrintNulls (raw_nulls o); PrintNulls (clean_nulls o); PrintStats (statistics o);
     PrintTable (latest_data o);
     Savefig "covid_visualizations.png"; ShowFigure;
     Savefig "vaccination_progress.png"; ShowFigure].
Proof.
  unfold run_io. destruct (script_io df) as [w' [o'|e]] eqn:E; intros H; [|done].
  injection H as <- <-. unfold script_io in E. io_steps E; try discriminate.
  injection E as <- <-. reflexivity.
Qed.

(** C18. A completed run prints, in this order: the head, the columns and the
    info of the loaded table, the missing-value reports before and after
    cleaning, the statistics, the summary table, and then writes and shows
    the two images (spec sections 4.5 and 4.6). *)
Theorem run_io_completed : forall df w o,
  run_io (ReadOk df) = (w, Completed o) ->
  reports w =
    [PrintHead (Report.head 5 df); PrintColumns (Report.columns df); PrintInfo (Report.info df);
     PrintNulls (raw_nulls o); PrintNulls (clean_nulls o); PrintStats (statistics o);
     PrintTable (latest_data o);
     Savefig "covid_visualizations.png"; ShowFigure;
     Savefig "vaccination_progress.png"; ShowFigure].
Proof. exact run_io_completed_reports. Qed.

(** C19. A run that crashes never writes the second image and never prints
    the completion message: both come after the last pandas call. *)
Theorem run_io_crash_files df w e :
  run_io (ReadOk df) = (w, Crashed e) ->
  ~ In (Savefig "vaccination_progress.png") w /\ ~ In (Print msg_completed) w.
Proof.
  unfold run_io. destruct (script_io df) as [w' [o'|e']] eqn:E; intros H; [done|].
  injection H as <- <-. unfold script_io in E. io_steps E; try discriminate;
    injection E as <- <-; split; simpl; intuition discriminate.
Qed.

(** C20. When section 3 raises, the script has printed the sections 1 and 2
    and the heading of section 3, and stops there: the raw missing-value
    report is the last table printed, and no image is written. *)
Theorem run_io_clean_error df raw e :
  null_counts key_columns df = Ok raw -> Cleaner.clean df = Err e ->
  exists w, run_io (ReadOk df) = (w, Crashed e) /\
    reports w = [PrintHead (Report.head 5 df); PrintColumns (Report.columns df);
                 PrintInfo (Report.info df); PrintNulls raw] /\
    last w = Some (Print (nl "=== 3. Data Cleaning ===")).
Proof.
  intros Hraw Hclean. unfold run_io, script_io. cbn [io_bind say emit lift io_ret app].
  rewrite Hraw. cbn [io_bind say emit lift io_ret app]. rewrite Hclean.
  eexists; split; [reflexivity|]. split; reflexivity.
Qed.

(** Rewrite with the result of one pandas call and run the console
    monad up to the next one. *)
Ltac io_rw H := rewrite H; cbn [io_bind say emit lift io_ret app].

(** C21. A table with the columns of section 3 but no [population] passes
    sections 1 to 5: the first image is written, and line 166 then raises
    [KeyError], so the second image is never written (spec section 6 only
    knows runs that write both images or exit at load time). *)
Theorem run_io_missing_population df :
  frame_wf df -> Cleaner.clean_schema df -> lookup_col "population" (cols df) = None ->
  exists w, run_io (ReadOk df) = (w, Crashed (KeyError "population")) /\
    In (Savefig "covid_visualizations.png") w /\ ~ In (Savefig "vaccination_progress.png") w.
Proof.
  intros Hwf Hcs Hnone.
  destruct (script_prefix df Hwf Hcs)
    as (raw & d1 & cln & st & d2 & latest & l1 & b1 & l3 & h4 & H1 & Hd1 & H3 & H4 & Hd2 & H6 & H7 & H8 & H9 & H10).
  pose proof (percent_no_population _ _ _ Hwf Hd1 Hd2 Hnone) as H11.
  unfold run_io, script_io. cbn [io_bind say emit lift io_ret app].
  io_rw H1. io_rw Hd1. io_rw H3. io_rw H4. io_rw Hd2. io_rw H6. io_rw H7. io_rw H8.
  io_rw H9. io_rw H10. io_rw H11.
  eexists; split; [reflexivity|]. split.
  - simpl. repeat (try (left; reflexivity); right).
  - simpl. intuition discriminate.
Qed.


(** ** Witnesses *)

(** [Samples.no_population] is the sample table without [population]. *)
Lemma run_io_missing_population_witness :
  exists w, run_io (ReadOk Samples.no_population) = (w, Crashed (KeyError "population")) /\
    In (Savefig "covid_visualizations.png") w /\ ~ In (Savefig "vaccination_progress.png") w.
Proof.
  apply run_io_missing_population; [repeat constructor| |vm_compute; reflexivity].
  split; [do 2 eexists; split; reflexivity|]. split.
  - eexists; split; [reflexivity|]. simpl. repeat constructor.
  - repeat constructor; (eexists; split; [reflexivity|]); simpl; repeat constructor.
Defined.

Lemma run_io_completed_witness :
  exists w o, run_io (ReadOk Samples.owid) = (w, Completed o) /\
    reports w =
      [PrintHead (Report.head 5 Samples.owid); PrintColumns (Report.columns Samples.owid);
       PrintInfo (Report.info Samples.owid);
       PrintNulls (raw_nulls o); PrintNulls (clean_nulls o); PrintStats (statistics o);
       PrintTable (latest_data o);
       Savefig "covid_visualizations.png"; ShowFigure;
       Savefig "vaccination_progress.png"; ShowFigure].
Proof.
  destruct (run_io (ReadOk Samples.owid)) as [w [m|e|o]] eqn:E;
    [vm_compute in E; discriminate E|vm_compute in E; discriminate E|].
  exists w, o. split; [reflexivity|]. exact (run_io_completed _ _ _ E).
Defined.

Lemma run_io_crash_files_witness :
  exists w e, run_io (ReadOk Samples.no_population) = (w, Crashed e) /\
    ~ In (Savefig "vaccination_progress.png") w /\ ~ In (Print msg_completed) w.
Proof.
  destruct (run_io (ReadOk Samples.no_population)) as [w [m|e|o]] eqn:E;
    [vm_compute in E; discriminate E| |vm_compute in E; discriminate E].
  exists w, e. split; [reflexivity|]. exact (run_io_crash_files _ _ _ E).
Defined.

(** The impossible date of [Samples.bad_spain_date] stops the run in
    section 3. *)
Lemma run_io_clean_error_witness :
  exists w, run_io (ReadOk Samples.bad_spain_date) = (w, Crashed (DateParseError "2021-02-30")) /\
    reports w = [PrintHead (Report.head 5 Samples.bad_spain_date);
                 PrintColumns (Report.columns Samples.bad_spain_date);
                 PrintInfo (Report.info Samples.bad_spain_date);
                 PrintNulls (match null_counts key_columns Samples.bad_spain_date with
                             | Ok r => r | Err _ => [] end)] /\
    last w = Some (Print (nl "=== 3. Data Cleaning ===")).
Proof.
  apply run_io_clean_error; vm_compute; reflexivity.
Defined.

End Console.
