(* ===== verification/Loader.v ===== *)
(** * Loader: [pd.read_csv('owid-covid-data.csv')] (source lines 19-27)

    The call on line 20 with pandas' defaults: the C tokenizer splits the
    text into lines (LF, CR LF or a lone CR end a line) and skips the
    lines that are empty or hold only spaces and tabs; the first remaining
    line is the header, split on commas, with empty names replaced by
    [Unnamed: i] and repeated names renamed by the [while count > 0] loop
    of [TextReader._get_header]; each data line is split on commas, a line
    shorter than the expected width is padded with empty fields, and a
    longer one (after the first data line, which sets the width and whose
    extra leading fields become the index) raises [ParserError].  Each
    column is then converted: a field in pandas' default NA list is
    missing; a column whose other fields all read as numbers (the int64,
    then float64 converters, [xstrtod], and the spellings of infinity) is
    float64, any other column is a column of strings.  [load] composes
    this with the [try]/[except] of lines 19-27.

    Not modelled: quoting (the model reads files without the double quote
    character, where the tokenizer never enters its quoted states), the
    boolean dtype (a column of [True]/[False] only), the index columns
    themselves (the frame has no index), and float64 rounding and overflow
    of the parsed numbers (values are exact, as in [Num]). *)

From Stdlib Require Import List String Ascii ZArith QArith Qreduction Lia.
From Stdlib Require Qcanon.
From stdpp Require Import base tactics list strings gmap.
From S2P Require Import Prelude Num Dates Frame Samples Pipeline Console.
Import ListNotations.

Module Loader.
Import Pipeline Console.

(** ** Lines and fields *)

Definition LF : ascii := "010"%char.
Definition CR : ascii := "013"%char.
Definition comma : ascii := ","%char.

(** Add a character at the front of the first piece. *)
Definition cons_hd (c : ascii) (ws : list (list ascii)) : list (list ascii) :=
  match ws with w :: ws' => (c :: w) :: ws' | [] => [[c]] end.

(** The tokenizer's line ends: LF, CR LF, or a lone CR. *)
Fixpoint split_lines (l : list ascii) : list (list ascii) :=
  match l with
  | [] => [[]]
  | c :: l' =>
      if Ascii.eqb c LF then [] :: split_lines l'
      else if Ascii.eqb c CR then
        match l' with
        | c' :: l'' => if Ascii.eqb c' LF then [] :: split_lines l'' else [] :: split_lines l'
        | [] => [[]; []]
        end
      else cons_hd c (split_lines l')
  end.

(** The fields of a line, split at each delimiter. *)
Fixpoint split_on (sep : ascii) (l : list ascii) : list (list ascii) :=
  match l with
  | [] => [[]]
  | c :: l' => if Ascii.eqb c sep then [] :: split_on sep l' else cons_hd c (split_on sep l')
  end.

(** [skip_blank_lines=True]: a line of spaces and tabs only is skipped
    (the tokenizer's [WHITESPACE_LINE] state). *)
Definition is_ws (c : ascii) : bool := Ascii.eqb c " "%char || Ascii.eqb c "009"%char.

Definition is_blank (l : list ascii) : bool := forallb is_ws l.

(** The non-blank lines with their line number in the file, from 1
    (the tokenizer's [file_lines] counts the skipped lines too). *)
Definition data_lines (text : list ascii) : list (nat * list ascii) :=
  let ls := split_lines text in
  List.filter (fun nl => negb (is_blank nl.2)) (zip (seq 1 (length ls)) ls).

(** ** Field conversion *)

(** pandas' default [na_values] ([STR_NA_VALUES]). *)
Definition na_values : list string :=
  [EmptyString; "#N/A"; "#N/A N/A"; "#NA"; "-1.#IND"; "-1.#QNAN"; "-NaN"; "-nan";
   "1.#IND"; "1.#QNAN"; "<NA>"; "N/A"; "NA"; "NULL"; "NaN"; "None"; "n/a";
   "nan"; "null"]%string.

Definition is_na (f : list ascii) : bool :=
  existsb (fun t => String.eqb t (string_of_list_ascii f)) na_values.

(** [isspace_ascii]: space, tab, LF, VT, FF, CR. *)
Definition is_space (c : ascii) : bool :=
  let n := nat_of_ascii c in (n =? 32) || ((9 <=? n) && (n <=? 13)).

Fixpoint skip_space (l : list ascii) : list ascii :=
  match l with c :: l' => if is_space c then skip_space l' else l | [] => [] end.

(** An optional sign: [-] negates, [+] is skipped. *)
Definition sign (l : list ascii) : Z * list ascii :=
  match l with
  | c :: l' => if Ascii.eqb c "-"%char then (-1, l')%Z
               else if Ascii.eqb c "+"%char then (1, l')%Z else (1, l)%Z
  | [] => (1, [])%Z
  end.

(** The longest prefix of decimal digits, as digit values. *)
Fixpoint span_digits (l : list ascii) : list Z * list ascii :=
  match l with
  | c :: l' => match digit c with
               | Some k => let '(ds, r) := span_digits l' in (k :: ds, r)
               | None => ([], l)
               end
  | [] => ([], [])
  end.

Definition digits_value (ds : list Z) : Z := fold_left (fun acc k => 10 * acc + k)%Z ds 0%Z.

(** The exponent part [e]/[E], sign, digits; without digits the [e] is
    not consumed (and is then trailing garbage). *)
Definition parse_exponent (l : list ascii) : Z * list ascii :=
  match l with
  | c :: l' =>
      if Ascii.eqb c "e"%char || Ascii.eqb c "E"%char then
        let '(s, l1) := sign l' in
        match span_digits l1 with
        | ([], _) => (0%Z, l)
        | (ds, l2) => ((s * digits_value ds)%Z, l2)
        end
      else (0%Z, l)
  | [] => (0%Z, [])
  end.

(** [precise_xstrtod] after the sign: digits, an optional fraction, an
    optional exponent, trailing spaces, and at least one digit before the
    exponent; the value is kept exact. *)
Definition parse_unsigned (s : Z) (l1 : list ascii) : option Q :=
  let '(ip, l2) := span_digits l1 in
  let '(fp, l3) := match l2 with
                   | c :: l' => if Ascii.eqb c "."%char then span_digits l' else ([], l2)
                   | [] => ([], [])
                   end in
  match ip ++ fp with
  | [] => None
  | ds => let '(e, l4) := parse_exponent l3 in
          match skip_space l4 with
          | [] => Some (Qred (inject_Z (s * digits_value ds) * Qpower 10 (e - Z.of_nat (length fp))))
          | _ => None
          end
  end.

(** [precise_xstrtod] with [skip_trailing]: leading spaces, a sign, the
    rest. *)
Definition parse_decimal (f : list ascii) : option Q :=
  let '(s, l1) := sign (skip_space f) in parse_unsigned s l1.

Definition lower (c : ascii) : ascii :=
  let n := nat_of_ascii c in if (65 <=? n) && (n <=? 90) then ascii_of_nat (n + 32) else c.

(** The fallback of [_try_double_nogil]: [inf], [+inf], [Infinity],
    [+Infinity] and [-inf], [-Infinity], compared with [strcasecmp]. *)
Definition parse_inf (f : list ascii) : option num :=
  let w := string_of_list_ascii (map lower f) in
  if existsb (String.eqb w) ["inf"; "+inf"; "infinity"; "+infinity"]%string then Some PInf
  else if existsb (String.eqb w) ["-inf"; "-infinity"]%string then Some NInf
  else None.

(** The numeric converters: int64, then float64, then infinity. *)
Definition parse_num (f : list ascii) : option num :=
  match parse_decimal f with Some q => Some (Fin q) | None => parse_inf f end.

(** ** Printing counts *)

(** The decimal digits of [z >= 0], most significant first; the fuel
    bounds the number of digits. *)
Fixpoint digits_of (fuel : nat) (z : Z) : list Z :=
  match fuel with
  | O => []
  | S f => if (z <? 10)%Z then [z] else digits_of f (z / 10) ++ [z mod 10]%Z
  end.

(** A number has at most as many decimal digits as binary ones. *)
Definition dec_digits (z : Z) : list Z := digits_of (S (Z.to_nat (Z.log2 z))) z.

(** [str(n)] of a count. *)
Definition show_nat (n : nat) : string :=
  string_of_list_ascii (map digit_char (dec_digits (Z.of_nat n))).

(** ** The header *)

(** [f"Unnamed: {i}"] for an empty header field. *)
Definition header_word (i : nat) (w : list ascii) : string :=
  match w with
  | [] => String.append "Unnamed: " (show_nat i)
  | _ => string_of_list_ascii w
  end.

(** The body of [while count > 0: counts[name] = count + 1;
    name = f"{name}.{count}"; count = counts.get(name, 0)], with fuel. *)
Fixpoint dedup_loop (fuel : nat) (counts : gmap string nat) (name : string) (count : nat)
    : gmap string nat * string * nat :=
  match fuel with
  | O => (counts, name, count)
  | S f =>
      match count with
      | O => (counts, name, O)
      | S _ =>
          let counts' := <[name := S count]> counts in
          let name' := String.append name (String.append "." (show_nat count)) in
          dedup_loop f counts' name' (default 0 (counts' !! name'))
      end
  end.

(** One more than the longest name counted so far: each turn of the loop
    lengthens the name, and a name longer than every counted one has
    count 0 (theorem [dedup_loop_terminates]). *)
Definition dedup_fuel (counts : gmap string nat) : nat :=
  S (max_list (map (fun kv => String.length kv.1) (map_to_list counts))).

(** The loop over the header fields of [_get_header]: name each field,
    rename it until its count is 0, record it with count 1. *)
Fixpoint header_names (counts : gmap string nat) (i : nat) (ws : list (list ascii))
    : list string :=
  match ws with
  | [] => []
  | w :: ws' =>
      let name := header_word i w in
      let '(counts', name', count) :=
        dedup_loop (dedup_fuel counts) counts name (default 0 (counts !! name)) in
      name' :: header_names (<[name' := S count]> counts') (S i) ws'
  end.

(** ** Columns *)

Definition numeric_field (f : list ascii) : bool :=
  is_na f || match parse_num f with Some _ => true | None => false end.

Definition num_cell (f : list ascii) : num :=
  if is_na f then NaN else default NaN (parse_num f).

Definition str_cell (f : list ascii) : option string :=
  if is_na f then None else Some (string_of_list_ascii f).

(** The dtype of a column: float64 when every field is missing or a
    number, strings otherwise; with no rows, an empty column of strings. *)
Definition infer_column (fs : list (list ascii)) : column :=
  match fs with
  | [] => ColStr []
  | _ => if forallb numeric_field fs then ColNum (map num_cell fs) else ColStr (map str_cell fs)
  end.

(** A short line gets empty fields at its end. *)
Definition pad (w : nat) (fs : list (list ascii)) : list (list ascii) :=
  fs ++ replicate (w - length fs) [].

(** The exceptions of [read_csv]: [EmptyDataError] and [ParserError]. *)
Inductive csv_error : Type :=
  | NoColumns
  | TooManyFields (expected line saw : nat).

Definition csv_message (e : csv_error) : string :=
  match e with
  | NoColumns => "No columns to parse from file"
  | TooManyFields w l m =>
      "Error tokenizing data. C error: Expected " ++ show_nat w ++ " fields in line "
        ++ show_nat l ++ ", saw " ++ show_nat m ++ String LF EmptyString
  end%string.

(** The lines after the first data line: padded to [w] fields, or the
    error of the first one with more. *)
Fixpoint check_rows (w : nat) (rows : list (nat * list (list ascii)))
    : csv_error + list (list (list ascii)) :=
  match rows with
  | [] => inr []
  | (l, fs) :: rs =>
      if w <? length fs then inl (TooManyFields w l (length fs))
      else match check_rows w rs with
           | inl e => inl e
           | inr t => inr (pad w fs :: t)
           end
  end.

(** Column [j] of the names is field [lead + j] of each row: the first
    [lead] fields are the implicit index. *)
Definition table_columns (lead : nat) (names : list string) (table : list (list (list ascii)))
    : list (string * column) :=
  imap (fun j name => (name, infer_column (map (fun r => nth (lead + j) r []) table))) names.

(** The tokenizer's records: each non-blank line, numbered, split into
    its fields. *)
Definition records (text : list ascii) : list (nat * list (list ascii)) :=
  map (fun nl => (nl.1, split_on comma nl.2)) (data_lines text).

(** [pd.read_csv(text)]: the first record is the header, the second sets
    the width, the others are checked against it. *)
Definition read_csv (text : string) : csv_error + frame :=
  match records (list_ascii_of_string text) with
  | [] => inl NoColumns
  | (_, header) :: rows =>
      let names := header_names ∅ 0 header in
      match rows with
      | [] => inr (mkframe 0 (table_columns 0 names []))
      | (_, r1) :: rest =>
          let w := Nat.max (length header) (length r1) in
          match check_rows w rest with
          | inl e => inl e
          | inr t => inr (mkframe (S (length t)) (table_columns (w - length header) names (pad w r1 :: t)))
          end
      end
  end.

(** Lines 19-27: the file, when it exists, is read; [FileNotFoundError]
    and any other exception of [read_csv] end the run. *)
Definition load (file : option string) : read_outcome :=
  match file with
  | None => FileNotFound
  | Some text => match read_csv text with
                 | inl e => ReadFailure (csv_message e)
                 | inr df => ReadOk df
                 end
  end.

(** ** Writing a frame as CSV text

    Not program code: the text a frame of integral counts and plain
    strings is read from, used to state what [read_csv] recovers. *)













(** ** The header: the renaming loop terminates, and names are distinct *)

Lemma string_length_app (s1 s2 : string) :
  String.length (String.append s1 s2) = String.length s1 + String.length s2.
Proof.
  induction s1 as [|a s1 IH]; [done|].
  change (S (String.length (String.append s1 s2)) = S (String.length s1 + String.length s2)).
  by rewrite IH.
Qed.

(** The loop's variant: every counted name is shorter than the current
    name plus the fuel left. *)
Definition loop_bound (counts : gmap string nat) (name : string) (f : nat) : Prop :=
  forall k c, counts !! k = Some (S c) -> String.length k < String.length name + f.

Lemma loop_bound_step counts name c f :
  loop_bound counts name (S f) ->
  loop_bound (<[name := S c]> counts)
             (String.append name (String.append "." (show_nat c))) f.
Proof.
  intros Hb k v Hk. rewrite !string_length_app. simpl.
  destruct (decide (k = name)) as [->|Hne]; [lia|].
  rewrite lookup_insert_ne in Hk by congruence. specialize (Hb _ _ Hk). lia.
Qed.

Lemma loop_bound_count counts name :
  loop_bound counts name 0 -> default 0 (counts !! name) = 0.
Proof.
  intros Hb. destruct (counts !! name) as [[|c]|] eqn:E; simpl; auto.
  specialize (Hb _ _ E). lia.
Qed.

(** Under the variant the loop stops on its own condition: the result
    does not depend on more fuel, and its name has count 0. *)
Lemma dedup_loop_exit f counts name :
  loop_bound counts name f ->
  forall g, f <= g ->
  dedup_loop g counts name (default 0 (counts !! name))
    = dedup_loop f counts name (default 0 (counts !! name)) /\
  (dedup_loop f counts name (default 0 (counts !! name))).2 = 0 /\
  default 0 ((dedup_loop f counts name (default 0 (counts !! name))).1.1
               !! (dedup_loop f counts name (default 0 (counts !! name))).1.2) = 0.
Proof.
  revert counts name. induction f as [|f IH]; intros counts name Hb g Hg.
  - pose proof (loop_bound_count _ _ Hb) as H0. rewrite H0.
    destruct g; simpl; auto.
  - destruct (default 0 (counts !! name)) as [|c] eqn:Hc.
    + destruct g as [|g]; [lia|]. simpl. rewrite Hc. auto.
    + destruct g as [|g]; [lia|]. cbn [dedup_loop].
      apply IH; [apply loop_bound_step; exact Hb | lia].
Qed.

Lemma dedup_fuel_bound counts name : loop_bound counts name (dedup_fuel counts).
Proof.
  intros k c Hk. unfold dedup_fuel.
  assert (String.length k <= max_list (map (fun kv => String.length kv.1) (map_to_list counts))).
  { apply max_list_elem_of_le. apply (list_elem_of_fmap_2' _ _ (k, S c)); [|done].
    by apply elem_of_map_to_list. }
  lia.
Qed.





Lemma header_names_length ws counts i : length (header_names counts i ws) = length ws.
Proof.
  revert counts i. induction ws as [|w ws IH]; intros counts i; cbn [header_names]; [done|].
  destruct (dedup_loop _ _ _ _) as [[??]?]. simpl. by rewrite IH.
Qed.

(** ** Splitting what [join] glued *)












(** ** Reading back printed numbers *)



















(** ** Reading back printed columns and headers *)
















(** C32. The renaming loop of [_get_header] terminates: from the fuel
    [dedup_fuel] on, more fuel gives the same result, and the loop stops
    by its own test [count > 0] failing, at a name that has no count. *)
Theorem dedup_loop_terminates counts name g :
  dedup_fuel counts <= g ->
  let r := dedup_loop g counts name (default 0 (counts !! name)) in
  r = dedup_loop (dedup_fuel counts) counts name (default 0 (counts !! name)) /\
  r.2 = 0 /\ default 0 (r.1.1 !! r.1.2) = 0.
Proof.
  intros Hg. destruct (dedup_loop_exit _ counts name (dedup_fuel_bound counts name) g Hg)
    as (H1 & H2 & H3).
  simpl. rewrite H1. auto.
Qed.

(** ** Errors *)

Lemma check_rows_inl w rows e :
  check_rows w rows = inl e <->
  exists pre l fs post, rows = pre ++ (l, fs) :: post /\
    Forall (fun r => length r.2 <= w) pre /\ w < length fs /\
    e = TooManyFields w l (length fs).
Proof.
  induction rows as [|[l fs] rows IH]; simpl.
  - split; [done|]. intros ([|??] & ? & ? & ? & ? & _); done.
  - destruct (w <? length fs) eqn:E.
    + apply Nat.ltb_lt in E. split.
      * intros [= <-]. exists [], l, fs, rows. auto.
      * intros ([|[l' fs'] pre] & l'' & fs'' & post & Heq & Hpre & Hlt & ->);
          simplify_eq/=; [done|].
        inversion Hpre as [|? ? Hle]; subst. simpl in Hle. lia.
    + apply Nat.ltb_ge in E. destruct (check_rows w rows) as [e'|t] eqn:Hc.
      * split.
        -- intros [= <-]. destruct (proj1 IH eq_refl) as (pre & l' & fs' & post & ? & ? & ? & ?).
           subst. exists ((l, fs) :: pre), l', fs', post. auto.
        -- intros ([|[l' fs'] pre] & l'' & fs'' & post & Heq & Hpre & Hlt & He);
             simplify_eq/=; [lia|].
           inversion Hpre; subst.
           assert (inl e' = inl (TooManyFields w l'' (length fs''))) by (apply IH; eauto 10).
           congruence.
      * split; [done|].
        intros ([|[l' fs'] pre] & l'' & fs'' & post & Heq & Hpre & Hlt & He);
          simplify_eq/=; [lia|].
        inversion Hpre; subst. assert (Hx := proj2 IH ltac:(eauto 10)). congruence.
Qed.

Lemma read_csv_inl text e :
  read_csv text = inl e <->
  records (list_ascii_of_string text) = [] /\ e = NoColumns \/
  exists lh h l1 r1 pre l fs post,
    records (list_ascii_of_string text) = (lh, h) :: (l1, r1) :: pre ++ (l, fs) :: post /\
    Forall (fun r => length r.2 <= Nat.max (length h) (length r1)) pre /\
    Nat.max (length h) (length r1) < length fs /\
    e = TooManyFields (Nat.max (length h) (length r1)) l (length fs).
Proof.
  unfold read_csv.
  destruct (records (list_ascii_of_string text)) as [|[lh h] [|[l1 r1] rest]].
  - split; [intros [= <-]; by left|]. intros [[_ ->]|(? & ? & ? & ? & ? & ? & ? & ? & ? & _)]; done.
  - split; [done|]. intros [[? _]|(? & ? & ? & ? & ? & ? & ? & ? & Heq & _)]; [done|].
    simplify_eq.
  - cbv zeta. destruct (check_rows _ rest) as [e'|t] eqn:Hc.
    + split.
      * intros [= <-]. right. apply check_rows_inl in Hc as (pre & l & fs & post & -> & ? & ? & ->).
        eexists _, _, _, _, pre, l, fs, post. eauto.
      * intros [[? _]|(? & ? & ? & ? & pre & l & fs & post & Heq & Hpre & Hlt & ->)]; [done|].
        simplify_eq. f_equal. assert (Hx := proj2 (check_rows_inl _ _ _) (ex_intro _ pre
          (ex_intro _ l (ex_intro _ fs (ex_intro _ post (conj eq_refl (conj Hpre (conj Hlt eq_refl)))))))).
        congruence.
    + split; [done|].
      intros [[? _]|(? & ? & ? & ? & pre & l & fs & post & Heq & Hpre & Hlt & ->)]; [done|].
      simplify_eq. assert (Hx := proj2 (check_rows_inl _ _ _) (ex_intro _ pre
          (ex_intro _ l (ex_intro _ fs (ex_intro _ post (conj eq_refl (conj Hpre (conj Hlt eq_refl)))))))).
      congruence.
Qed.


(** ** What [read_csv] returns *)




(** C34. Lines 19-27 with [read_csv]: on a file whose record at line [l]
    has [m] fields, more than the width set by the header and the first
    data line, the script prints the heading of section 1 and
    [Error loading dataset: Error tokenizing data. C error: Expected w
    fields in line l, saw m] and stops. *)
Theorem run_io_tokenizing_error text lh h l1 r1 pre l fs post :
  records (list_ascii_of_string text) = (lh, h) :: (l1, r1) :: pre ++ (l, fs) :: post ->
  Forall (fun r => length r.2 <= Nat.max (length h) (length r1)) pre ->
  Nat.max (length h) (length r1) < length fs ->
  run_io (load (Some text)) =
    ([Print "=== 1. Data Collection ==="; Print ("Error loading dataset: " ++
        csv_message (TooManyFields (Nat.max (length h) (length r1)) l (length fs)))],
     Aborted ("Error loading dataset: " ++
        csv_message (TooManyFields (Nat.max (length h) (length r1)) l (length fs))))%string.
Proof.
  intros Hr Hpre Hlt. unfold load.
  rewrite (proj2 (read_csv_inl text
    (TooManyFields (Nat.max (length h) (length r1)) l (length fs)))); [reflexivity|].
  right. eexists _, _, _, _, pre, l, fs, post. eauto.
Qed.

(** ** Line ends *)



(** ** Witnesses *)

Local Notation seen := (<["a.1" := 1]> (<["a" := 2]> ∅) : gmap string nat)%string.

Lemma dedup_loop_terminates_witness :
  dedup_fuel seen <= 10 /\
  (let r := dedup_loop 10 seen "a" (default 0 (seen !! "a")) in
   r = dedup_loop (dedup_fuel seen) seen "a" (default 0 (seen !! "a")) /\
   r.2 = 0 /\ default 0 (r.1.1 !! r.1.2) = 0)%string.
Proof. split; [vm_compute; lia|]. apply (dedup_loop_terminates seen "a" 10). vm_compute. lia. Defined.


(** A header with a repeated and an empty name, a CR LF line end, a line
    of spaces, a short line and a line with a spelled infinity. *)
Local Notation messy_csv :=
  ("a,b,a," ++ String LF ("1,x, 2.50e1 ," ++ String CR (String LF ("  " ++ String LF
     ("NA,,-INF,7" ++ String LF "3,4")))))%string.


Local Notation bad_csv :=
  ("a,b" ++ String LF ("1,2,3" ++ String LF ("4,5" ++ String LF "1,2,3,4")))%string.


Lemma run_io_tokenizing_error_witness :
  run_io (load (Some bad_csv)) =
    ([Print "=== 1. Data Collection ===";
      Print ("Error loading dataset: " ++ csv_message (TooManyFields 3 4 4))],
     Aborted ("Error loading dataset: " ++ csv_message (TooManyFields 3 4 4)))%string.
Proof.
  apply (run_io_tokenizing_error bad_csv 1 [["a"%char]; ["b"%char]]
           2 [["1"%char]; ["2"%char]; ["3"%char]] [(3, [["4"%char]; ["5"%char]])]
           4 [["1"%char]; ["2"%char]; ["3"%char]; ["4"%char]] []).
  all: first [ vm_compute; reflexivity | repeat constructor; simpl; lia | simpl; lia ].
Defined.

End Loader.
