(* ===== verification/Pyplot.v ===== *)
(** * Pyplot: the figures of sections 5 and 6 (lines 119-176)

    matplotlib's pyplot interface keeps a global state: the open figures,
    the current one, and in each figure its axes and the current axes.
    Every call of the script acts on that state: [plt.figure] opens a new
    current figure, [plt.subplot(2, 2, k)] selects (or adds) the axes at
    grid position [k], [plt.plot], [plt.title], [plt.xlabel], ...,
    [sns.barplot] and [sns.histplot] act on the current axes ([plt.gca()],
    which adds a [subplot(1, 1, 1)] to a figure without axes), and
    [plt.savefig] writes the current figure ([plt.gcf()], which opens one
    when none is open).  [plt.show] depends on the backend: a blocking
    window backend closes the figures once its windows are closed, the
    non-interactive backend leaves them open; the model takes it as a
    parameter [closes].

    [step] is one call, [exec] a sequence of calls with the files they
    write; [plot_cmds] is the sequence of calls of lines 119-176, built from
    the data [Pipeline.outputs] hands to each chart.  Rendering (pixels,
    tick positions, colours of the seaborn palette) is not modelled. *)

From Stdlib Require Import List String QArith ZArith Lia.
From stdpp Require Import base tactics list relations.
From S2P Require Import Prelude Num Dates Series Frame Report Samples Cleaner Metrics Charts Pipeline Console.
Import ListNotations.

Local Open Scope string_scope.

Module Pyplot.
Import Pipeline Console.

(** ** The state *)

(** What is drawn on an axes: a line of [plt.plot], the bars of
    [sns.barplot], the histogram of [sns.histplot]. *)
Inductive artist : Type :=
  | Line (label : string) (points : list (option date * num))
  | BarSet (bars : list (string * num))
  | Hist (values : list num) (bins : nat) (kde : bool) (color : string).

(** An axes: its [subplot] position (rows, columns, index), its artists in
    drawing order, its texts, its legend (the labels shown) and the
    rotation of its x tick labels. *)
Record axes : Type := mkaxes {
  ax_spec : nat * nat * nat;
  ax_artists : list artist;
  ax_title : string;
  ax_xlabel : string;
  ax_ylabel : string;
  ax_legend : option (list string);
  ax_xrotation : option Z
}.

Record figure : Type := mkfigure {
  fig_num : nat;
  fig_size : Q * Q;
  fig_axes : list axes;
  fig_current : option nat;
  fig_tight : bool
}.

(** The open figures, in creation order, and the number of the current one. *)
Record pyplot : Type := mkpyplot {
  figures : list figure;
  current : option nat
}.

Definition init : pyplot := mkpyplot [] None.

(** ** Axes *)

Definition blank_axes (spec : nat * nat * nat) : axes :=
  mkaxes spec [] EmptyString EmptyString EmptyString None None.

Definition add_artist (x : artist) (a : axes) : axes :=
  mkaxes (ax_spec a) (ax_artists a ++ [x]) (ax_title a) (ax_xlabel a) (ax_ylabel a)
         (ax_legend a) (ax_xrotation a).

Definition set_title (s : string) (a : axes) : axes :=
  mkaxes (ax_spec a) (ax_artists a) s (ax_xlabel a) (ax_ylabel a) (ax_legend a) (ax_xrotation a).

Definition set_xlabel (s : string) (a : axes) : axes :=
  mkaxes (ax_spec a) (ax_artists a) (ax_title a) s (ax_ylabel a) (ax_legend a) (ax_xrotation a).

Definition set_ylabel (s : string) (a : axes) : axes :=
  mkaxes (ax_spec a) (ax_artists a) (ax_title a) (ax_xlabel a) s (ax_legend a) (ax_xrotation a).

(** [plt.xticks(rotation=r)]. *)
Definition set_xrotation (r : Z) (a : axes) : axes :=
  mkaxes (ax_spec a) (ax_artists a) (ax_title a) (ax_xlabel a) (ax_ylabel a) (ax_legend a) (Some r).

(** The labels [plt.legend()] collects: those of the labelled lines. *)
Definition line_labels (xs : list artist) : list string :=
  omap (fun x => match x with Line l _ => Some l | _ => None end) xs.

Definition legend (a : axes) : axes :=
  mkaxes (ax_spec a) (ax_artists a) (ax_title a) (ax_xlabel a) (ax_ylabel a)
         (Some (line_labels (ax_artists a))) (ax_xrotation a).

(** [sns.barplot(x=..., y=..., data=...)]: the bars, and the variable
    names as axis labels. *)
Definition barplot (x y : string) (bs : list (string * num)) (a : axes) : axes :=
  set_ylabel y (set_xlabel x (add_artist (BarSet bs) a)).

(** [sns.histplot(series, ...)]: the histogram, the series name as x label
    and [Count] as y label. *)
Definition histplot (name : string) (vs : list num) (bins : nat) (kde : bool) (color : string)
    (a : axes) : axes :=
  set_ylabel "Count" (set_xlabel name (add_artist (Hist vs bins kde color) a)).

(** ** Figures *)

Definition set_axes (axs : list axes) (cur : option nat) (f : figure) : figure :=
  mkfigure (fig_num f) (fig_size f) axs cur (fig_tight f).

(** [plt.tight_layout()]. *)
Definition set_tight (f : figure) : figure :=
  mkfigure (fig_num f) (fig_size f) (fig_axes f) (fig_current f) true.

(** [plt.subplot(r, c, k)]: the axes at that position becomes current;
    there is a new one when the figure has none there. *)
Definition subplot (spec : nat * nat * nat) (f : figure) : figure :=
  match list_find (fun a => ax_spec a = spec) (fig_axes f) with
  | Some (i, _) => set_axes (fig_axes f) (Some i) f
  | None => set_axes (fig_axes f ++ [blank_axes spec]) (Some (length (fig_axes f))) f
  end.

(** [plt.gca()]: the current axes, a new [subplot(1, 1, 1)] when none. *)
Definition ensure_axes (f : figure) : figure :=
  match fig_current f with Some _ => f | None => subplot (1, 1, 1) f end.

(** Apply a change to the current axes. *)
Definition gca_apply (g : axes -> axes) (f : figure) : figure :=
  let f := ensure_axes f in
  match fig_current f with
  | Some i => set_axes (alter g i (fig_axes f)) (Some i) f
  | None => f
  end.

(** ** Figures of the pyplot state *)

(** [plt.figure(figsize=...)]: a new figure numbered after the largest
    open number, made current. *)
Definition new_figure (size : Q * Q) (s : pyplot) : pyplot :=
  let n := S (max_list (map fig_num (figures s))) in
  mkpyplot (figures s ++ [mkfigure n size [] None false]) (Some n).

(** matplotlib's default [figsize], 6.4 by 4.8 inches. *)
Definition default_size : Q * Q := (64 # 10, 48 # 10)%Q.

(** [plt.gcf()]: a new figure when none is current. *)
Definition ensure_figure (s : pyplot) : pyplot :=
  match current s with Some _ => s | None => new_figure default_size s end.

Definition upd (n : nat) (g : figure -> figure) (f : figure) : figure :=
  if Nat.eqb (fig_num f) n then g f else f.

(** Apply a change to the current figure. *)
Definition gcf_apply (g : figure -> figure) (s : pyplot) : pyplot :=
  let s := ensure_figure s in
  match current s with
  | Some n => mkpyplot (map (upd n g) (figures s)) (Some n)
  | None => s
  end.

Definition gcf (s : pyplot) : option figure :=
  match current s with
  | Some n => List.find (fun f => Nat.eqb (fig_num f) n) (figures s)
  | None => None
  end.

(** ** Calls *)

Inductive cmd : Type :=
  | PltFigure (size : Q * Q)
  | PltSubplot (nrows ncols index : nat)
  | PltPlot (points : list (option date * num)) (label : string)
  | PltTitle (s : string)
  | PltXlabel (s : string)
  | PltYlabel (s : string)
  | PltLegend
  | PltXticks (rotation : Z)
  | SnsBarplot (x y : string) (bars : list (string * num))
  | SnsHistplot (name : string) (values : list num) (bins : nat) (kde : bool) (color : string)
  | PltTightLayout
  | PltSavefig (file : string)
  | PltShow.

(** One call: the new state and the files it writes (name and figure). *)
Definition step (closes : bool) (s : pyplot) (c : cmd) : pyplot * list (string * figure) :=
  match c with
  | PltFigure sz => (new_figure sz s, [])
  | PltSubplot r k i => (gcf_apply (subplot (r, k, i)) s, [])
  | PltPlot pts l => (gcf_apply (gca_apply (add_artist (Line l pts))) s, [])
  | PltTitle t => (gcf_apply (gca_apply (set_title t)) s, [])
  | PltXlabel t => (gcf_apply (gca_apply (set_xlabel t)) s, [])
  | PltYlabel t => (gcf_apply (gca_apply (set_ylabel t)) s, [])
  | PltLegend => (gcf_apply (gca_apply legend) s, [])
  | PltXticks r => (gcf_apply (gca_apply (set_xrotation r)) s, [])
  | SnsBarplot x y bs => (gcf_apply (gca_apply (barplot x y bs)) s, [])
  | SnsHistplot nm vs b k col => (gcf_apply (gca_apply (histplot nm vs b k col)) s, [])
  | PltTightLayout => (gcf_apply set_tight s, [])
  | PltSavefig file =>
      let s := ensure_figure s in
      (s, match gcf s with Some f => [(file, f)] | None => [] end)
  | PltShow => (if closes then init else s, [])
  end.

Fixpoint exec (closes : bool) (s : pyplot) (cs : list cmd) : pyplot * list (string * figure) :=
  match cs with
  | [] => (s, [])
  | c :: cs' =>
      let '(s1, w1) := step closes s c in
      let '(s2, w2) := exec closes s1 cs' in
      (s2, app w1 w2)
  end.

(** ** The calls of the script *)

(** One iteration of [for country in countries: ... plt.plot(...)]. *)
Definition line_cmd (l : string * list (option date * num)) : cmd := PltPlot l.2 l.1.

(** Lines 119-160. *)
Definition section5_cmds (o : outputs) : list cmd :=
  [PltFigure (14, 12)%Q; PltSubplot 2 2 1] ++
  map line_cmd (cases_lines o) ++
  [PltTitle "Total COVID-19 Cases Over Time"; PltXlabel "Date"; PltYlabel "Total Cases";
   PltLegend; PltXticks 45;
   PltSubplot 2 2 2; SnsBarplot "location" "total_cases" (cases_bars o);
   PltTitle "Total Cases by Country (Latest Date)"; PltXlabel "Country"; PltYlabel "Total Cases";
   PltSubplot 2 2 3] ++
  map line_cmd (vaccination_lines o) ++
  [PltTitle "Total Vaccinations Over Time"; PltXlabel "Date"; PltYlabel "Total Vaccinations";
   PltLegend; PltXticks 45;
   PltSubplot 2 2 4; SnsHistplot "new_cases" (new_cases_values o) 30 true "skyblue";
   PltTitle "Distribution of Daily New Cases"; PltXlabel "Daily New Cases"; PltYlabel "Frequency";
   PltTightLayout; PltSavefig "covid_visualizations.png"; PltShow].

(** Lines 170-176. *)
Definition section6_cmds (o : outputs) : list cmd :=
  [PltFigure (8, 6)%Q; SnsBarplot "location" "percent_vaccinated" (vaccination_bars o);
   PltTitle "Percentage of Population Vaccinated (Latest Date)"; PltXlabel "Country";
   PltYlabel "% Vaccinated"; PltSavefig "vaccination_progress.png"; PltShow].

Definition plot_cmds (o : outputs) : list cmd := section5_cmds o ++ section6_cmds o.

(** The effect of a whole [for country in countries: plt.plot(...)] loop
    on the current axes: one labelled line per country, in order (theorem
    [exec_lines]). *)
Definition add_lines (ls : list (string * list (option date * num))) (a : axes) : axes :=
  mkaxes (ax_spec a) (ax_artists a ++ map (fun l => Line l.1 l.2) ls) (ax_title a) (ax_xlabel a)
         (ax_ylabel a) (ax_legend a) (ax_xrotation a).

(** ** Well-formed states *)




(** ** What spec section 4.6 asks of the two images *)

Definition lines_of (ls : list (string * list (option date * num))) : list artist :=
  map (fun l => Line l.1 l.2) ls.

(** Image 1: a 14 by 12 figure of four axes on a 2 by 2 grid: the lines of
    [total_cases] per location, the bars of [total_cases] at the
    aggregation date, the lines of [total_vaccinations], and a 30-bin
    histogram of [new_cases] with its density curve. *)
Definition image1_spec (o : outputs) (f : figure) : Prop :=
  fig_size f = (14, 12)%Q /\
  map ax_spec (fig_axes f) = [(2, 2, 1); (2, 2, 2); (2, 2, 3); (2, 2, 4)] /\
  map ax_artists (fig_axes f) =
    [lines_of (cases_lines o); [BarSet (cases_bars o)]; lines_of (vaccination_lines o);
     [Hist (new_cases_values o) 30 true "skyblue"]].

(** Image 2: an 8 by 6 figure of one chart, the bars of
    [percent_vaccinated] at the aggregation date. *)
Definition image2_spec (o : outputs) (f : figure) : Prop :=
  fig_size f = (8, 6)%Q /\ map ax_spec (fig_axes f) = [(1, 1, 1)] /\
  map ax_artists (fig_axes f) = [[BarSet (vaccination_bars o)]].

(** ** Composing calls on the current figure and axes *)

Lemma alter_alter {A} (g h : A -> A) i (l : list A) :
  alter g i (alter h i l) = alter (fun x => g (h x)) i l.
Proof. revert i. induction l as [|x l IH]; intros [|i]; simpl; f_equal; try apply IH; auto. Qed.

Lemma alter_ext {A} (g h : A -> A) i (l : list A) :
  (forall x, g x = h x) -> alter g i l = alter h i l.
Proof. intros H. revert i. induction l as [|x l IH]; intros [|i]; simpl; f_equal; try apply IH; auto. Qed.

Lemma alter_id {A} i (l : list A) : alter (fun x => x) i l = l.
Proof. revert i. induction l as [|x l IH]; intros [|i]; simpl; f_equal; try apply IH; auto. Qed.

Lemma set_axes_twice axs cur axs' cur' f :
  set_axes axs cur (set_axes axs' cur' f) = set_axes axs cur f.
Proof. by destruct f. Qed.

Lemma subplot_current spec f : is_Some (fig_current (subplot spec f)).
Proof. unfold subplot. by destruct (list_find _ _) as [[i ?]|]. Qed.

Lemma ensure_axes_current f : exists i, fig_current (ensure_axes f) = Some i.
Proof.
  unfold ensure_axes. destruct (fig_current f) eqn:E; [by eauto|].
  by destruct (subplot_current (1, 1, 1) f) as [i ->]; eauto.
Qed.

Lemma ensure_axes_id f i : fig_current f = Some i -> ensure_axes f = f.
Proof. unfold ensure_axes. by intros ->. Qed.

(** [gca_apply] with the current axes named. *)
Lemma gca_apply_eq g f :
  exists i, fig_current (ensure_axes f) = Some i /\
    gca_apply g f = set_axes (alter g i (fig_axes (ensure_axes f))) (Some i) (ensure_axes f).
Proof.
  destruct (ensure_axes_current f) as [i Hi]. exists i. split; [done|].
  unfold gca_apply. by rewrite Hi.
Qed.

Lemma gca_apply_compose g h f :
  gca_apply g (gca_apply h f) = gca_apply (fun a => g (h a)) f.
Proof.
  destruct (gca_apply_eq h f) as (i & Hi & ->). destruct (gca_apply_eq (fun a => g (h a)) f) as (i' & Hi' & ->).
  rewrite Hi in Hi'. injection Hi' as <-. unfold gca_apply.
  rewrite (ensure_axes_id _ i) by (by destruct (ensure_axes f)).
  cbn [fig_current set_axes fig_axes]. by rewrite set_axes_twice, alter_alter.
Qed.

Lemma gca_apply_ext g h f : (forall a, g a = h a) -> gca_apply g f = gca_apply h f.
Proof.
  intros H. destruct (gca_apply_eq g f) as (i & Hi & ->). destruct (gca_apply_eq h f) as (i' & Hi' & ->).
  rewrite Hi in Hi'. injection Hi' as <-. by rewrite (alter_ext g h).
Qed.

Lemma gca_apply_current g f : is_Some (fig_current (gca_apply g f)).
Proof. by destruct (gca_apply_eq g f) as (i & _ & ->). Qed.

Lemma subplot_num spec f : fig_num (subplot spec f) = fig_num f.
Proof. unfold subplot. by destruct (list_find _ _) as [[??]|]. Qed.

Lemma gca_apply_num g f : fig_num (gca_apply g f) = fig_num f.
Proof.
  destruct (gca_apply_eq g f) as (i & _ & ->). simpl. unfold ensure_axes.
  destruct (fig_current f); [done|]. apply subplot_num.
Qed.

Lemma ensure_figure_current s : exists n, current (ensure_figure s) = Some n.
Proof. unfold ensure_figure. destruct (current s) eqn:E; [by eauto|]. simpl. eauto. Qed.

Lemma ensure_figure_id s n : current s = Some n -> ensure_figure s = s.
Proof. unfold ensure_figure. by intros ->. Qed.

(** [gcf_apply] with the current figure named. *)
Lemma gcf_apply_eq g s :
  exists n, current (ensure_figure s) = Some n /\
    gcf_apply g s = mkpyplot (map (upd n g) (figures (ensure_figure s))) (Some n).
Proof.
  destruct (ensure_figure_current s) as [n Hn]. exists n. split; [done|].
  unfold gcf_apply. by rewrite Hn.
Qed.

Lemma gcf_apply_compose g h s :
  (forall f, fig_num (h f) = fig_num f) ->
  gcf_apply g (gcf_apply h s) = gcf_apply (fun f => g (h f)) s.
Proof.
  intros Hh. destruct (gcf_apply_eq h s) as (n & Hn & ->).
  destruct (gcf_apply_eq (fun f => g (h f)) s) as (n' & Hn' & ->).
  rewrite Hn in Hn'. injection Hn' as <-.
  unfold gcf_apply. rewrite (ensure_figure_id _ n) by done. simpl. f_equal.
  rewrite map_map. apply map_ext. intros f. unfold upd.
  destruct (Nat.eqb (fig_num f) n) eqn:Ef; [|by rewrite Ef]. by rewrite Hh, Ef.
Qed.

Lemma gcf_apply_ext g h s : (forall f, g f = h f) -> gcf_apply g s = gcf_apply h s.
Proof.
  intros H. unfold gcf_apply. destruct (current (ensure_figure s)); [|done].
  f_equal. apply map_ext. intros f. unfold upd. by rewrite H.
Qed.

(** ** The plotting loop *)

Lemma add_lines_nil a : add_lines [] a = a.
Proof. destruct a. unfold add_lines. simpl. by rewrite app_nil_r. Qed.

Lemma add_lines_cons l ls a : add_lines ls (add_artist (Line l.1 l.2) a) = add_lines (l :: ls) a.
Proof. destruct a. unfold add_lines, add_artist. simpl. by rewrite <- app_assoc. Qed.

(** The loop of [plt.plot] calls is one change of the current axes, on a
    state whose current figure has a current axes. *)
Lemma exec_lines closes ls s n rest :
  current s = Some n ->
  (forall f, In f (figures s) -> fig_num f = n -> is_Some (fig_current f)) ->
  exec closes s (map line_cmd ls ++ rest) = exec closes (gcf_apply (gca_apply (add_lines ls)) s) rest.
Proof.
  revert s. induction ls as [|l ls IH]; intros s Hs Hf.
  - f_equal. destruct s as [figs cur]. simpl in Hs. subst cur.
    unfold gcf_apply, ensure_figure. simpl. f_equal. rewrite <- (map_id figs) at 1.
    apply map_ext_in. intros f Hin. unfold upd. destruct (Nat.eqb (fig_num f) n) eqn:E; [|done].
    apply Nat.eqb_eq in E. destruct (Hf f Hin E) as [i Hi].
    unfold gca_apply. rewrite (ensure_axes_id f i Hi), Hi.
    rewrite (alter_ext _ (fun x => x)) by apply add_lines_nil. rewrite alter_id.
    destruct f; simpl in *; by subst.
  - cbn [map app exec step line_cmd]. rewrite IH.
    + rewrite gcf_apply_compose by apply gca_apply_num.
      rewrite (gcf_apply_ext _ (gca_apply (add_lines (l :: ls)))); [by destruct (exec _ _ rest)|].
      intros f. rewrite gca_apply_compose. apply gca_apply_ext. intros a. apply add_lines_cons.
    + destruct (gcf_apply_eq (gca_apply (add_artist (Line l.1 l.2))) s) as (n' & Hn' & ->).
      rewrite (ensure_figure_id s n) in Hn' by done. simpl. congruence.
    + destruct (gcf_apply_eq (gca_apply (add_artist (Line l.1 l.2))) s) as (n' & Hn' & ->).
      rewrite (ensure_figure_id s n) in Hn' |- * by done. rewrite Hs in Hn'. injection Hn' as <-.
      simpl. intros f' (f & <- & Hin)%in_map_iff.
      unfold upd. destruct (Nat.eqb (fig_num f) n) eqn:E.
      * intros _. apply gca_apply_current.
      * intros Hn. apply Nat.eqb_neq in E. congruence.
Qed.

(** ** The two images of the script *)

Lemma exec_app_nil closes s c1 c2 s1 :
  exec closes s c1 = (s1, []) -> exec closes s (c1 ++ c2) = exec closes s1 c2.
Proof.
  revert s. induction c1 as [|c c1 IH]; intros s H; simpl in *.
  - by injection H as <-.
  - destruct (step closes s c) as [t w] eqn:E. destruct (exec closes t c1) as [t' w'] eqn:E'.
    injection H as <- Hw. apply app_eq_nil in Hw as [-> ->]. rewrite (IH t E').
    by destruct (exec closes t' c2).
Qed.

(** Run the calls up to the next loop: they write no file. *)
Ltac exec_prefix :=
  match goal with |- context [exec ?cl ?s (?c1 ++ ?c2)] =>
    rewrite (exec_app_nil cl s c1 c2 (exec cl s c1).1) by (vm_compute; reflexivity)
  end.

(** Run a plotting loop (lemma [exec_lines]). *)
Ltac exec_loop :=
  rewrite exec_lines with (n := 1);
    [| vm_compute; reflexivity
     | intros ? Hf; vm_compute in Hf; destruct Hf as [<-|[]]; vm_compute; eauto ].

Lemma plot_exec closes o :
  exists s F1 F2,
    exec closes init (plot_cmds o) =
      (s, [("covid_visualizations.png", F1); ("vaccination_progress.png", F2)]) /\
    image1_spec o F1 /\ image2_spec o F2 /\
    map ax_title (fig_axes F1) =
      ["Total COVID-19 Cases Over Time"; "Total Cases by Country (Latest Date)";
       "Total Vaccinations Over Time"; "Distribution of Daily New Cases"] /\
    map ax_xlabel (fig_axes F1) = ["Date"; "Country"; "Date"; "Daily New Cases"] /\
    map ax_ylabel (fig_axes F1) = ["Total Cases"; "Total Cases"; "Total Vaccinations"; "Frequency"] /\
    map ax_legend (fig_axes F1) =
      [Some (line_labels (lines_of (cases_lines o))); None;
       Some (line_labels (lines_of (vaccination_lines o))); None] /\
    map ax_xrotation (fig_axes F1) = [Some 45%Z; None; Some 45%Z; None] /\
    fig_tight F1 = true /\
    map ax_title (fig_axes F2) = ["Percentage of Population Vaccinated (Latest Date)"] /\
    map ax_xlabel (fig_axes F2) = ["Country"] /\ map ax_ylabel (fig_axes F2) = ["% Vaccinated"].
Proof.
  unfold plot_cmds, section5_cmds, section6_cmds. rewrite <- !app_assoc.
  exec_prefix. exec_loop. exec_prefix. exec_loop.
  destruct closes; destruct (exec _ _ _) as [s w] eqn:E; vm_compute in E;
    injection E as <- <-.
  all: eexists _, _, _; split; [reflexivity|].
  all: unfold image1_spec, image2_spec; vm_compute; repeat split.
Qed.

Lemma line_labels_lines ls : line_labels (lines_of ls) = map fst ls.
Proof. induction ls as [|[c pts] ls IH]; simpl; [done|]. by rewrite IH. Qed.

(** ** The invariant *)











(** ** What the figures show *)

(** C36. Lines 119-176 refine spec section 4.6, whatever [plt.show] does
    with the open figures: the script writes exactly two files, first
    [covid_visualizations.png], a 14 by 12 figure whose 2 by 2 grid holds
    the lines of [total_cases] per location, the bars of [total_cases],
    the lines of [total_vaccinations] and the 30-bin histogram of
    [new_cases] with its density curve, then [vaccination_progress.png],
    an 8 by 6 figure holding only the bars of [percent_vaccinated]. *)
Theorem plot_images_spec closes o :
  exists s F1 F2,
    exec closes init (plot_cmds o) =
      (s, [("covid_visualizations.png", F1); ("vaccination_progress.png", F2)]) /\
    image1_spec o F1 /\ image2_spec o F2.
Proof. destruct (plot_exec closes o) as (s & F1 & F2 & H & H1 & H2 & _). exists s, F1, F2. auto. Qed.

(** Every panel carries the title and axis labels of the script
    (seaborn's own labels, the variable names and [Count], are
    overwritten), the two line panels have a legend of one entry per
    country plotted, a country without data included, and x tick labels
    turned by 45 degrees, and the first figure is laid out tight. *)
Theorem plot_panel_texts closes o :
  exists s F1 F2,
    exec closes init (plot_cmds o) =
      (s, [("covid_visualizations.png", F1); ("vaccination_progress.png", F2)]) /\
    map ax_title (fig_axes F1) =
      ["Total COVID-19 Cases Over Time"; "Total Cases by Country (Latest Date)";
       "Total Vaccinations Over Time"; "Distribution of Daily New Cases"] /\
    map ax_xlabel (fig_axes F1) = ["Date"; "Country"; "Date"; "Daily New Cases"] /\
    map ax_ylabel (fig_axes F1) = ["Total Cases"; "Total Cases"; "Total Vaccinations"; "Frequency"] /\
    map ax_legend (fig_axes F1) =
      [Some (map fst (cases_lines o)); None; Some (map fst (vaccination_lines o)); None] /\
    map ax_xrotation (fig_axes F1) = [Some 45%Z; None; Some 45%Z; None] /\
    fig_tight F1 = true /\
    map ax_title (fig_axes F2) = ["Percentage of Population Vaccinated (Latest Date)"] /\
    map ax_xlabel (fig_axes F2) = ["Country"] /\ map ax_ylabel (fig_axes F2) = ["% Vaccinated"].
Proof.
  destruct (plot_exec closes o) as (s & F1 & F2 & H & _ & _ & H3 & H4 & H5 & H6 & H7 & H8 & H9 & H10 & H11).
  rewrite !line_labels_lines in H6. exists s, F1, F2. auto 20.
Qed.



(** ** Witnesses *)



End Pyplot.
